(** * simple_history/models.py: history schema synthesis and audit recording

    A shallow embedding of [simple_history/models.py], and what holds of it.

    - Schema synthesis ([copy_fields], [transform_field] and the methods of
      [ForeignKeyMixin]) works on Django field objects.  These live in a heap
      of attribute dictionaries, so that [copy.copy], attribute assignment
      and [__class__] assignment act on shared, aliased objects the way they
      do in the interpreter.
    - Audit recording (the signal handlers [post_save], [post_delete] and
      [m2m_changed], [create_historical_record] and
      [save_without_historical_record]) and the two reconstructors run over
      model instances and the store of audit rows.
    - Django itself ([Model.__init__], [filter] on a query set,
      [ForeignKey.__init__], the meaning of [Meta.ordering]) and
      [HistoryManager.create] of [simple_history/manager.py] are described as
      far as the module exercises them.

    - [create_history_model] with [get_extra_fields] assembles the class
      statement of the historical model, enters the model in
      [registered_models], which is part of the state, and hands the
      statement to the framework's metaclass, whose working is left open.

    The wiring into the metaclass, the signals and the admin site
    ([contribute_to_class], [setup_m2m_history], [finalize], the body of
    [revert_url]) is not embedded. *)

From stdpp Require Import base option list strings gmap fin_maps.
From Stdlib Require Import ZArith Lia Ascii.

(** ** Python values, classes and exceptions *)

Definition loc := nat.

(** The field and relation classes of [django.db.models] that the module
    tests with [isinstance], plus the classes it creates itself. *)
Inductive pyclass : Type :=
  | Field
  | AutoField
  | IntegerField
  | CharField
  | TextField
  | DateField
  | DateTimeField
  | FileField
  | ImageField
  | RelatedField
  | ForeignKey
  | OneToOneField
  | ManyToManyField
  | ManyToOneRel
  | OneToOneRel
  | ForeignKeyMixin
  | CustomForeignKey (parent_type : pyclass).

Global Instance pyclass_eq_dec : EqDecision pyclass.
Proof. solve_decision. Defined.

Inductive value : Type :=
  | VNone
  | VBool (b : bool)
  | VInt (z : Z)
  | VStr (s : string)
  | VRef (l : loc)
  | VModel (m : string).

Global Instance value_eq_dec : EqDecision value.
Proof. solve_decision. Defined.

Inductive exn : Type :=
  | AttributeError
  | TypeError
  | ValueError
  | IndexError
  | LookupError
  | DatabaseError.

Global Instance exn_eq_dec : EqDecision exn.
Proof. solve_decision. Defined.

(** Python truth value of an object. *)
Definition truthy (v : value) : bool :=
  match v with
  | VNone => false
  | VBool b => b
  | VInt z => negb (Z.eqb z 0)
  | VStr s => negb (String.eqb s "")
  | VRef _ | VModel _ => true
  end.

(** Method resolution order: the class followed by its bases. *)
Fixpoint mro (c : pyclass) : list pyclass :=
  c :: match c with
       | Field | RelatedField | ManyToOneRel | ForeignKeyMixin => []
       | AutoField | IntegerField | CharField | TextField
       | DateField | FileField => [Field]
       | DateTimeField => [DateField; Field]
       | ImageField => [FileField; Field]
       | ForeignKey | ManyToManyField => [RelatedField; Field]
       | OneToOneField => [ForeignKey; RelatedField; Field]
       | OneToOneRel => [ManyToOneRel]
       | CustomForeignKey p => ForeignKeyMixin :: mro p
       end.

Definition issubclass (c d : pyclass) : bool := bool_decide (d ∈ mro c).

(** ** Objects and the heap *)

Record object : Type := Obj {
  ocls : pyclass;                 (* __class__ *)
  odict : gmap string value       (* __dict__ *)
}.

Global Instance object_eq_dec : EqDecision object.
Proof. solve_decision. Defined.

Definition isinstance (o : object) (c : pyclass) : bool := issubclass (ocls o) c.

(** ** Outcomes and the state monad

    A computation either returns, raises a Python exception, or runs out of
    the recursion budget given to it ([OutOfFuel], produced by [get_field]
    only). *)

Inductive outcome (A : Type) : Type :=
  | Ret (a : A)
  | Raise (e : exn)
  | OutOfFuel.
Arguments Ret {A} a.
Arguments Raise {A} e.
Arguments OutOfFuel {A}.

Definition St (S A : Type) : Type := S → outcome A * S.

Definition ret {S A} (a : A) : St S A := λ s, (Ret a, s).
Definition raise {S A} (e : exn) : St S A := λ s, (Raise e, s).
Definition bind {S A B} (m : St S A) (f : A → St S B) : St S B :=
  λ s, match m s with
       | (Ret a, s') => f a s'
       | (Raise e, s') => (Raise e, s')
       | (OutOfFuel, s') => (OutOfFuel, s')
       end.

(** Sequencing of outcomes alone, for code that touches no state. *)
Global Instance outcome_bind : MBind outcome := λ A B f o,
  match o with
  | Ret a => f a
  | Raise e => Raise e
  | OutOfFuel => OutOfFuel
  end.

Declare Scope py_scope.
Delimit Scope py_scope with py.
Notation "x <- m ;; k" := (bind m (λ x, k))
  (at level 100, m at next level, right associativity) : py_scope.
Notation "m ;;; k" := (bind m (λ _, k))
  (at level 100, right associativity) : py_scope.
Local Open Scope py_scope.

Definition when {S} (b : bool) (m : St S unit) : St S unit :=
  if b then m else ret tt.

(** [for x in l: body(x)] *)
Fixpoint for_each {S A} (l : list A) (body : A → St S unit) : St S unit :=
  match l with
  | [] => ret tt
  | x :: l' => body x ;;; for_each l' body
  end.

(** A [for] loop that threads a local accumulator. *)
Fixpoint for_fold {S A B} (l : list A) (body : B → A → St S B) (acc : B) : St S B :=
  match l with
  | [] => ret acc
  | x :: l' => acc' <- body acc x ;; for_fold l' body acc'
  end.

(** A [for] loop whose body may [return] from the enclosing function:
    the body answers [true] to leave, [false] to go on. *)
Fixpoint for_each_return {S A} (l : list A) (body : A → St S bool) : St S unit :=
  match l with
  | [] => ret tt
  | x :: l' => stop <- body x ;; if stop then ret tt else for_each_return l' body
  end.

(** [try: m finally: fin]: [fin] runs on every exit of [m]; an exception
    raised by [fin] replaces the pending result. *)
Definition try_finally {S A} (m : St S A) (fin : St S unit) : St S A :=
  λ s, let '(r, s') := m s in
       match fin s' with
       | (Ret _, s'') => (r, s'')
       | (Raise e, s'') => (Raise e, s'')
       | (OutOfFuel, s'') => (OutOfFuel, s'')
       end.

Abbreviation heap := (gmap loc object).

Module Py.

(** Allocation of a new object. *)
Definition alloc (o : object) : St heap value :=
  λ h, let l := fresh (dom h) in (Ret (VRef l), <[l := o]> h).

(** The object a reference denotes.  [None] and the scalars carry none of
    the attributes this module reads or writes.  A reference to nothing does
    not occur in a heap built by [alloc]; it is answered like a missing
    attribute. *)
Definition deref (v : value) : St heap object :=
  λ h, match v with
       | VRef l => match h !! l with
                   | Some o => (Ret o, h)
                   | None => (Raise AttributeError, h)
                   end
       | _ => (Raise AttributeError, h)
       end.

Definition store (v : value) (o : object) : St heap unit :=
  λ h, match v with
       | VRef l => (Ret tt, <[l := o]> h)
       | _ => (Raise AttributeError, h)
       end.

(** [getattr(v, k)] on the instance dictionary. *)
Definition getattr (v : value) (k : string) : St heap value :=
  o <- deref v ;;
  match odict o !! k with
  | Some x => ret x
  | None => raise AttributeError
  end.

(** [setattr(v, k, x)], that is [v.k = x]. *)
Definition setattr (v : value) (k : string) (x : value) : St heap unit :=
  o <- deref v ;;
  store v (Obj (ocls o) (<[k := x]> (odict o))).

(** [type(v)] and [v.__class__ = c]. *)
Definition type_of (v : value) : St heap pyclass :=
  o <- deref v ;; ret (ocls o).

Definition set_class (v : value) (c : pyclass) : St heap unit :=
  o <- deref v ;;
  store v (Obj c (odict o)).

(** [copy.copy]: a new object with the same class and a copy of the
    dictionary (the attribute values themselves are shared); [None] and
    the scalars are returned as they are. *)
Definition copy_copy (v : value) : St heap value :=
  match v with
  | VRef _ => o <- deref v ;; alloc o
  | _ => ret v
  end.

End Py.

(** ** Module-level functions *)

(** [get_custom_fk_class(parent_type)]:
    [type('CustomForeignKey', (ForeignKeyMixin, parent_type), {})]. *)
Definition get_custom_fk_class (parent_type : pyclass) : pyclass :=
  CustomForeignKey parent_type.

(** The [unique] property of [django.db.models.Field]:
    [return self._unique or self.primary_key]. *)
Definition get_unique (field : value) : St heap value :=
  u <- Py.getattr field "_unique" ;;
  if truthy u then ret u else Py.getattr field "primary_key".

(** [transform_field(field)] *)
Definition transform_field (field : value) : St heap unit :=
  attname <- Py.getattr field "attname" ;;
  Py.setattr field "name" attname ;;;
  c <- Py.type_of field ;;
  (if issubclass c AutoField then Py.set_class field IntegerField
   else if issubclass c FileField then Py.set_class field TextField
   else ret tt) ;;;
  Py.setattr field "auto_now" (VBool false) ;;;
  Py.setattr field "auto_now_add" (VBool false) ;;;
  pk <- Py.getattr field "primary_key" ;;
  cond <- (if truthy pk then ret true
           else u <- get_unique field ;; ret (truthy u)) ;;
  when cond
    (Py.setattr field "primary_key" (VBool false) ;;;
     Py.setattr field "_unique" (VBool false) ;;;
     Py.setattr field "db_index" (VBool true) ;;;
     Py.setattr field "serialize" (VBool true)).

(** ** Model classes

    [model._meta] of a model class: the attributes of [Options] the module
    reads.  [pk] and [fields] hold references to the field objects stored in
    the class. *)
Record Options : Type := {
  object_name : string;
  app_label : string;
  verbose_name : string;
  db_table : string;
  pk : value;
  fields : list value
}.

(** The model classes of the process, by name. *)
Abbreviation registry := (gmap string Options).

Section Classes.

Variable models : registry.

(** [cls._meta] for a value [cls] that should be a model class.  A lazy
    reference still held as a string has no [_meta]. *)
Definition meta_of (cls : value) : St heap Options :=
  match cls with
  | VModel m => match models !! m with
                | Some opts => ret opts
                | None => raise LookupError
                end
  | _ => raise AttributeError
  end.

(** [v.rel.to] *)
Definition rel_to (v : value) : St heap value :=
  rel <- Py.getattr v "rel" ;;
  Py.getattr rel "to".

(** [ForeignKey.__init__(to)] of the framework with a model name for [to]:
    a new relation object holding the name, and a new field holding the
    relation, with the constructor's defaults. *)
Definition ForeignKey_init (c : pyclass) (to : string) : St heap value :=
  let one := issubclass c OneToOneField in
  rel <- Py.alloc (Obj (if one then OneToOneRel else ManyToOneRel)
                       (list_to_map [("to", VStr to);
                                     ("related_name", VNone);
                                     ("field_name", VNone);
                                     ("multiple", VBool (negb one))])) ;;
  Py.alloc (Obj c (list_to_map [("name", VNone);
                                ("verbose_name", VNone);
                                ("primary_key", VBool false);
                                ("_unique", VBool one);
                                ("null", VBool false);
                                ("blank", VBool false);
                                ("db_index", VBool true);
                                ("serialize", VBool true);
                                ("editable", VBool true);
                                ("rel", rel)])).

End Classes.

Module ForeignKeyMixin.
Section WithModels.

Variable models : registry.

(** [get_attname(self)] *)
Definition get_attname (self : value) : St heap value :=
  Py.getattr self "name".

Definition excluded_attributes : list string :=
  [ "rel"; "creation_counter"; "validators"; "error_messages";
    "attname"; "column"; "help_text"; "name"; "model";
    "unique_for_year"; "unique_for_date"; "unique_for_month";
    "db_tablespace"; "db_index"; "db_column"; "default";
    "auto_created"; "null"; "blank" ].

(** [key.startswith(("_", "__"))] *)
Definition startswith_excluded_prefixes (key : string) : bool :=
  String.prefix "_" key || String.prefix "__" key.

(** [get_one_to_one_field(self, to_field, other)], with the method it
    calls back as a parameter. *)
Definition get_one_to_one_field_rec
    (get_field : value → value → value → St heap value)
    (self to_field other : value) : St heap value :=
  c <- Py.type_of self ;;
  to <- rel_to to_field ;;
  opts <- meta_of models to ;;
  temp_field <- ForeignKey_init c (object_name opts) ;;
  o <- Py.deref to_field ;;
  for_each (map_to_list (odict o))
    (λ '(key, val),
       when (negb (String.prefix "_" key))
            (Py.setattr temp_field key val)) ;;;
  to' <- rel_to to_field ;;
  get_field temp_field other to'.

(** [get_field(self, other, cls)].  The recursion through
    [get_one_to_one_field] follows the primary keys of the models
    referenced; [fuel] bounds its depth. *)
Fixpoint get_field (fuel : nat) (self other cls : value) : St heap value :=
  match fuel with
  | 0 => λ h, (OutOfFuel, h)
  | S fuel' =>
      to <- rel_to self ;;
      opts <- meta_of models to ;;
      to_field <- Py.copy_copy (pk opts) ;;
      c <- Py.type_of to_field ;;
      if issubclass c OneToOneField then
        get_one_to_one_field_rec (get_field fuel') self to_field other
      else if issubclass c AutoField then
        Py.set_class self IntegerField ;;;
        ret self
      else
        Py.set_class self c ;;;
        o <- Py.deref to_field ;;
        for_each (map_to_list (odict o))
          (λ '(key, val),
             when (negb (startswith_excluded_prefixes key)
                   && negb (bool_decide (key ∈ excluded_attributes)))
                  (Py.setattr self key val)) ;;;
        ret self
  end.

Definition get_one_to_one_field (fuel : nat) :=
  get_one_to_one_field_rec (get_field fuel).

(** [do_related_class(self, other, cls)] *)
Definition do_related_class (fuel : nat) (self other cls : value) : St heap unit :=
  field <- get_field fuel self other cls ;;
  transform_field field ;;;
  Py.setattr field "rel" VNone.

End WithModels.
End ForeignKeyMixin.

(** ** Run-time view: model instances and the audit store *)

(** A column of a prepared model class, as [instance._meta.fields] lists it:
    [fd_rel] says whether [field.rel] is a [ManyToOneRel] (a foreign key or
    one-to-one column, whose [attname] differs from its [name]). *)
Record FieldDesc : Type := {
  fd_name : string;
  fd_attname : string;
  fd_rel : bool;
  fd_null : bool;
  fd_default : value
}.

(** A prepared model class.  [simple_history_manager_attribute] is the name
    under which [finalize] installed the history descriptor, if it did. *)
Record Model : Type := {
  model_name : string;
  pk_attname : string;
  meta_fields : list FieldDesc;
  simple_history_manager_attribute : option string
}.

(** A model instance: its class and its [__dict__].  The attributes the
    module tests with [hasattr] or deletes are instance attributes. *)
Record Instance : Type := {
  inst_model : Model;
  inst_dict : gmap string value
}.

Definition hasattr (i : Instance) (k : string) : bool :=
  bool_decide (is_Some (inst_dict i !! k)).

Definition inst_setattr (i : Instance) (k : string) (v : value) : Instance :=
  {| inst_model := inst_model i; inst_dict := <[k := v]> (inst_dict i) |}.

Definition inst_delattr (i : Instance) (k : string) : Instance :=
  {| inst_model := inst_model i; inst_dict := delete k (inst_dict i) |}.

(** [instance.pk] *)
Definition inst_pk (i : Instance) : option value :=
  inst_dict i !! pk_attname (inst_model i).

(** One row of a historical table. *)
Record AuditRow : Type := {
  row_table : string;             (* the historical model the row belongs to *)
  history_id : Z;
  history_date : Z;
  history_user : value;
  history_type : string;
  row_values : gmap string value  (* the copied columns, by attname *)
}.

(** The database as the handlers see it: the clock that stamps
    [auto_now_add] columns and the audit rows inserted so far, oldest first. *)
Record Store : Type := {
  now : Z;
  rows : list AuditRow
}.

Definition historical_name (m : Model) : string := "Historical" +:+ model_name m.

(** Modelled from the spec: [HistoryManager.create] of
    [simple_history/manager.py], which is not among the sources.  It inserts
    one audit row into the historical table of the instance's model: the
    sequence id is the next one of that table, the timestamp is set at insert
    time, and the remaining columns are the keyword arguments. *)
Definition manager_create (table : string) (type : string) (user : value)
    (attrs : gmap string value) : St Store unit :=
  λ st,
    let n := length (filter (λ r, row_table r = table) (rows st)) in
    let r := {| row_table := table;
                history_id := Z.of_nat n + 1;
                history_date := now st;
                history_user := user;
                history_type := type;
                row_values := attrs |} in
    (Ret tt, {| now := now st; rows := rows st ++ [r] |}).

(** The passage of time between two events. *)
Definition tick (d : Z) : St Store unit :=
  λ st, (Ret tt, {| now := now st + d; rows := rows st |}).

(** The attributes of the class of a many-to-many join model that
    [m2m_changed] looks at: the descriptor of a foreign key, with the model
    its field points to ([field_value.field.related.parent_model]), or
    anything else. *)
Inductive class_attr : Type :=
  | ReverseSingleRelatedObjectDescriptor (parent_model : string)
  | OtherAttr.

(** The join model of a many-to-many relation: its class [__dict__] and
    the rows [sender.objects] returns. *)
Record Through : Type := {
  through_dict : list (string * class_attr);
  objects : list Instance
}.

(** The [Meta] options of a historical model. *)
Record MetaOptions : Type := {
  ordering : list string;
  meta_verbose_name : value
}.

Definition skip_history_when_saving : string := "skip_history_when_saving".

(** ** The framework's side of the run-time interface *)

(** [getattr(instance, k)] on a model instance. *)
Definition inst_getattr {S} (i : Instance) (k : string) : St S value :=
  match inst_dict i !! k with
  | Some v => ret v
  | None => raise AttributeError
  end.

(** [qs.filter] with the one keyword [field_name: instance], on the rows of
    a join model: the rows whose foreign key [field_name] holds the primary
    key of [instance].  A keyword that is not a string is a [TypeError] at
    the call. *)
Definition filter_related {S} (qs : list Instance) (field_name : option string)
    (instance : Instance) : St S (list Instance) :=
  match field_name with
  | None => raise TypeError
  | Some f =>
      ret (List.filter
             (λ item, match inst_pk instance with
                      | Some v => bool_decide (inst_dict item !! (f +:+ "_id") = Some v)
                      | None => false
                      end) qs)
  end.

(** [qs.filter] with the one keyword [target_field_name + '__id__in': pk_set];
    [None + str] is a [TypeError]. *)
Definition filter_id_in {S} (qs : list Instance) (field_name : option string)
    (pk_set : list value) : St S (list Instance) :=
  match field_name with
  | None => raise TypeError
  | Some f =>
      ret (List.filter
             (λ item, match inst_dict item !! (f +:+ "_id") with
                      | Some v => bool_decide (v ∈ pk_set)
                      | None => false
                      end) qs)
  end.






(** [getattr(row, k)] on an instance of a historical model. *)
Definition row_getattr (r : AuditRow) (k : string) : outcome value :=
  if String.eqb k "history_id" then Ret (VInt (history_id r))
  else if String.eqb k "history_date" then Ret (VInt (history_date r))
  else if String.eqb k "history_user" then Ret (history_user r)
  else if String.eqb k "history_type" then Ret (VStr (history_type r))
  else match row_values r !! k with
       | Some v => Ret v
       | None => Raise AttributeError
       end.



(** Runs a handler, which reads the instance, inside a method that may also
    change it. *)
Definition with_self {A} (f : Instance → St Store A) : St (Instance * Store) A :=
  λ '(self, st), let '(r, st') := f self st in (r, (self, st')).

(** ** class HistoricalRecords *)

Module HistoricalRecords.

(** The attributes of a [HistoricalRecords] object: those set by
    [__init__] and by [contribute_to_class]. *)
Record t : Type := {
  user_set_verbose_name : value;
  m2m_fields : option (list string);
  manager_name : string;
  module : string
}.

(** [save_without_historical_record(self, *args, **kwargs)], the method
    [add_extra_methods] installs on the model class.  [save] is the
    instance's own [save] applied to the arguments handed through. *)
Definition save_without_historical_record
    (save : St (Instance * Store) value) : St (Instance * Store) value :=
  (λ '(self, st), (Ret tt, (inst_setattr self skip_history_when_saving (VBool true), st))) ;;;
  r <- try_finally save
         (λ '(self, st),
            if hasattr self skip_history_when_saving
            then (Ret tt, (inst_delattr self skip_history_when_saving, st))
            else (Raise AttributeError, (self, st))) ;;
  ret r.

(** [copy_fields(self, model)].  The names of fields are strings, and so are
    the keys of the dictionary returned; a name that is none is refused. *)
Definition copy_fields (models : registry) (model : value)
    : St heap (gmap string value) :=
  opts <- meta_of models model ;;
  for_fold (fields opts)
    (λ fields field,
       field <- Py.copy_copy field ;;
       rel <- Py.getattr field "rel" ;;
       rel' <- Py.copy_copy rel ;;
       Py.setattr field "rel" rel' ;;;
       c <- Py.type_of field ;;
       when (issubclass c ForeignKey)
         (Py.set_class field (get_custom_fk_class c) ;;;
          r <- Py.getattr field "rel" ;;
          Py.setattr r "related_name" (VStr "+") ;;;
          Py.setattr field "null" (VBool true) ;;;
          Py.setattr field "blank" (VBool true)) ;;;
       transform_field field ;;;
       name <- Py.getattr field "name" ;;
       match name with
       | VStr name => ret (<[name := field]> fields)
       | _ => raise TypeError
       end)
    ∅.


(** [get_meta_options(self, model)] *)
Definition get_meta_options (self : t) (model : Options) : MetaOptions :=
  {| ordering := ["-history_date"; "-history_id"];
     meta_verbose_name :=
       if truthy (user_set_verbose_name self) then user_set_verbose_name self
       else VStr ("historical " +:+ verbose_name model) |}.

(** [create_historical_record(self, instance, type)] *)
Definition create_historical_record (self : t) (instance : Instance) (type : string)
    : St Store unit :=
  let history_user := default VNone (inst_dict instance !! "_history_user") in
  manager <- (if bool_decide (simple_history_manager_attribute (inst_model instance)
                              = Some (manager_name self))
              then ret (historical_name (inst_model instance))
              else raise AttributeError) ;;
  attrs <- for_fold (meta_fields (inst_model instance))
             (λ attrs field,
                v <- inst_getattr instance (fd_attname field) ;;
                ret (<[fd_attname field := v]> attrs))
             ∅ ;;
  if bool_decide ("history_type" ∈ dom attrs ∨ "history_user" ∈ dom attrs)
  then raise TypeError
  else manager_create manager type history_user attrs.

(** [post_save(self, instance, created, **kwargs)] *)
Definition post_save (self : t) (instance : Instance) (created : bool)
    (kwargs : gmap string value) : St Store unit :=
  if negb created && hasattr instance skip_history_when_saving then ret tt
  else if negb (truthy (default (VBool false) (kwargs !! "raw")))
       then create_historical_record self instance (if created then "+" else "~")
       else ret tt.

(** [post_delete(self, instance, **kwargs)] *)
Definition post_delete (self : t) (instance : Instance)
    (kwargs : gmap string value) : St Store unit :=
  create_historical_record self instance "-".

(** The first loop of [m2m_changed]: the names of the join model's foreign
    keys to the related model and to the instance's model. *)
Definition find_field_names (sender_dict : list (string * class_attr))
    (model : string) (instance_type : string) : option string * option string :=
  fold_left
    (λ '(source_field_name, target_field_name) '(field_name, field_value),
       match field_value with
       | ReverseSingleRelatedObjectDescriptor parent_model =>
           if bool_decide (parent_model = model)
           then (source_field_name, Some field_name)
           else if bool_decide (parent_model = instance_type)
                then (Some field_name, target_field_name)
                else (source_field_name, target_field_name)
       | OtherAttr => (source_field_name, target_field_name)
       end)
    sender_dict (None, None).

(** The rows of the join model the event is about. *)
Definition matched_items (sender : Through) (instance : Instance)
    (model : string) (pk_set : option (list value)) : St Store (list Instance) :=
  let '(source_field_name, target_field_name) :=
    find_field_names (through_dict sender) model (model_name (inst_model instance)) in
  items <- filter_related (objects sender) source_field_name instance ;;
  match pk_set with
  | Some ((_ :: _) as pks) => filter_id_in items target_field_name pks
  | _ => ret items
  end.

(** [m2m_changed(self, action, instance, sender, **kwargs)]; [model] and
    [pk_set] are [kwargs['model']] and [kwargs['pk_set']], which the signal
    always sends. *)
Definition m2m_changed (self : t) (action : string) (instance : Instance)
    (sender : Through) (model : string) (pk_set : option (list value))
    : St Store unit :=
  items <- matched_items sender instance model pk_set ;;
  for_each_return items
    (λ item,
       if String.eqb action "post_add" then
         if hasattr item skip_history_when_saving then ret true
         else create_historical_record self item "+" ;;; ret false
       else if String.eqb action "pre_remove" then
         create_historical_record self item "-" ;;; ret false
       else if String.eqb action "pre_clear" then
         create_historical_record self item "-" ;;; ret false
       else ret false).

End HistoricalRecords.

(** [Model.save] of the framework as the handlers see it, for a model that
    [self] was finalized for: the write fails with a database error and
    nothing else happens, or it succeeds and [post_save] is sent with the
    [created] flag. *)
Definition Model_save (self : HistoricalRecords.t) (created write_fails : bool)
    (kwargs : gmap string value) : St (Instance * Store) value :=
  if write_fails then raise DatabaseError
  else with_self (λ instance, HistoricalRecords.post_save self instance created kwargs) ;;;
       ret VNone.

(** ** class HistoricalObjectDescriptor *)

Module HistoricalObjectDescriptor.


End HistoricalObjectDescriptor.

(** ** Building the historical model class

    [create_history_model] assembles the attributes of a class statement and
    hands them to [type] with [models.Model] for the one base.  An attribute
    is a copied column, that is a field object of the heap, or one of the
    members the module writes out itself, which are kept as written.  A
    class is described by its name and the attributes found on it. *)
Inductive member : Type :=
  | Column (field : value)
  | ModuleName (name : string)                       (* the value of __module__ *)
  | NewAutoField (primary_key : bool)                (* models.AutoField(primary_key=...) *)
  | NewDateTimeField (auto_now_add : bool)           (* models.DateTimeField(auto_now_add=...) *)
  | NewForeignKey (to : value) (null : bool)         (* models.ForeignKey(to, null=...) *)
  | NewCharField (max_length : Z) (choices : list (string * string))
  | HistoricalObjectDescriptor_init (model : value)  (* HistoricalObjectDescriptor(model) *)
  | property_get_instance (model : value) (fields : gmap string value)
  | revert_url (model : value)
  | str_as_of                                        (* the lambda under __str__ *)
  | str_encoded                                      (* the lambda the decorator installs *)
  | inherited_str                                    (* the __str__ a class inherits *)
  | MetaClass (options : MetaOptions).

Record HistoryModel : Type := {
  hm_name : string;
  hm_attrs : gmap string member
}.

(** The module-level dictionary [registered_models], by table name. *)
Abbreviation registered := (gmap string value).

(** A computation on the heap, run where [registered_models] is in reach
    too, and an outcome that touches neither. *)
Definition on_heap {A} (m : St heap A) : St (heap * registered) A :=
  λ '(h, reg), let '(r, h') := m h in (r, (h', reg)).

Definition lift {S A} (o : outcome A) : St S A := λ s, (o, s).

Section CreateHistoryModel.

Variable models : registry.
(** [model.__module__] for the model class of a given name. *)
Variable module_of : string → string.
(** [models.get_app(app_label).__name__]: the framework's look-up of an
    installed application, which fails for a label it does not know. *)
Variable get_app : string → outcome string.
(** [django.conf.settings], and [sys.version_info[0]]. *)
Variable settings : gmap string value.
Variable version_info_0 : Z.
(** [type(str(name), (models.Model,), attrs)]: the class statement, run by
    the framework's model metaclass.  Building the class prepares every
    field among the attributes ([contribute_to_class], and from there
    [do_related_class] on a copied foreign key), so the call may change
    objects, raise, or not return.  What it does is the framework's and is
    left open. *)
Variable Model_type : string → gmap string member → St (heap * registered) HistoryModel.

(** [python_2_unicode_compatible(klass)], the copy the module falls back on
    without [django.utils.encoding]. *)
Definition python_2_unicode_compatible (klass : HistoryModel) : HistoryModel :=
  if negb (Z.eqb version_info_0 3) then
    let __str__ := default inherited_str (hm_attrs klass !! "__str__") in
    {| hm_name := hm_name klass;
       hm_attrs := <["__str__" := str_encoded]>
                     (<["__unicode__" := __str__]> (hm_attrs klass)) |}
  else klass.

(** [get_extra_fields(self, model, fields)] *)
Definition get_extra_fields (self : HistoricalRecords.t) (model : value)
    (fields : gmap string value) : gmap string member :=
  let user_model := default (VStr "auth.User") (settings !! "AUTH_USER_MODEL") in
  list_to_map
    [ ("history_id", NewAutoField true);
      ("history_date", NewDateTimeField true);
      ("history_user", NewForeignKey user_model true);
      ("history_type", NewCharField 1 [("+", "Created"); ("~", "Changed"); ("-", "Deleted")]);
      ("history_object", HistoricalObjectDescriptor_init model);
      ("instance", property_get_instance model fields);
      ("revert_url", revert_url model);
      ("__str__", str_as_of) ].

(** [create_history_model(self, model)].  [dict.update] is the union in
    which the argument wins. *)
Definition create_history_model (self : HistoricalRecords.t) (model : value)
    : St (heap * registered) HistoryModel :=
  let attrs : gmap string member :=
    {[ "__module__" := ModuleName (HistoricalRecords.module self) ]} in
  opts <- on_heap (meta_of models model) ;;
  let app_module := app_label opts +:+ ".models" in
  model_module <- match model with
                  | VModel m => ret (module_of m)
                  | _ => raise AttributeError
                  end ;;
  attrs <- (if negb (String.eqb model_module (HistoricalRecords.module self)) then
              ret (<["__module__" := ModuleName (HistoricalRecords.module self)]> attrs)
            else if negb (String.eqb app_module (HistoricalRecords.module self)) then
              app_name <- lift (get_app (app_label opts)) ;;
              ret (<["__module__" := ModuleName app_name]> attrs)
            else ret attrs) ;;
  fields <- on_heap (HistoricalRecords.copy_fields models model) ;;
  let attrs := (Column <$> fields) ∪ attrs in
  let attrs := get_extra_fields self model fields ∪ attrs in
  let attrs := <["Meta" := MetaClass (HistoricalRecords.get_meta_options self opts)]> attrs in
  let name := "Historical" +:+ object_name opts in
  (λ '(h, reg), (Ret tt, (h, <[db_table opts := model]> reg))) ;;;
  klass <- Model_type name attrs ;;
  ret (python_2_unicode_compatible klass).

End CreateHistoryModel.

(** * Specification vocabulary *)

(** The names of the four audit columns. *)
Definition audit_columns : list string :=
  ["history_id"; "history_date"; "history_user"; "history_type"].

Definition attnames (m : Model) : list string := map fd_attname (meta_fields m).

(** An instance as Django builds it, of a model [self] was finalized for:
    the history descriptor is installed under [self.manager_name], every
    column has a value, and no column is named like an audit column. *)
Definition well_formed (self : HistoricalRecords.t) (i : Instance) : bool :=
  bool_decide (simple_history_manager_attribute (inst_model i)
               = Some (HistoricalRecords.manager_name self))
  && forallb (λ a, bool_decide (is_Some (inst_dict i !! a))
                   && negb (bool_decide (a ∈ audit_columns)))
             (attnames (inst_model i)).

(** A dictionary cut down to the keys [ks]. *)
Definition restrict (ks : list string) (d : gmap string value) : gmap string value :=
  filter (λ kv, kv.1 ∈ ks) d.

(** The column values of an instance: its dictionary cut down to the
    columns of its model. *)
Definition columns_of (i : Instance) : gmap string value :=
  restrict (attnames (inst_model i)) (inst_dict i).


(** The audit row that records [i] with change type [type] in store [st]. *)
Definition audit_row (i : Instance) (type : string) (st : Store) : AuditRow :=
  let table := historical_name (inst_model i) in
  {| row_table := table;
     history_id := Z.of_nat (length (filter (λ r, row_table r = table) (rows st))) + 1;
     history_date := now st;
     history_user := default VNone (inst_dict i !! "_history_user");
     history_type := type;
     row_values := columns_of i |}.

Definition insert_row (r : AuditRow) (st : Store) : Store :=
  {| now := now st; rows := rows st ++ [r] |}.

(** ** Mutations of a source instance

    [finalize] connects [post_save] and [post_delete] to the signals of the
    source model.  An event is one signal as the framework sends it: the
    kind of mutation, the instance as it is at that moment, and the keyword
    arguments. *)
Inductive mutation : Type := Insert | Update | Delete.

Record Event : Type := {
  ev_mutation : mutation;
  ev_instance : Instance;
  ev_kwargs : gmap string value
}.

Definition deliver (self : HistoricalRecords.t) (e : Event) : St Store unit :=
  match ev_mutation e with
  | Insert => HistoricalRecords.post_save self (ev_instance e) true (ev_kwargs e)
  | Update => HistoricalRecords.post_save self (ev_instance e) false (ev_kwargs e)
  | Delete => HistoricalRecords.post_delete self (ev_instance e) (ev_kwargs e)
  end.

Definition change_type (m : mutation) : string :=
  match m with
  | Insert => "+"
  | Update => "~"
  | Delete => "-"
  end.

Definition has_marker (e : Event) : bool :=
  hasattr (ev_instance e) skip_history_when_saving.

Definition is_raw (e : Event) : bool :=
  truthy (default (VBool false) (ev_kwargs e !! "raw")).

(** Suppression as the specification words it: the marker suppresses an
    insert; the marker or a raw load suppresses an update. *)
Definition suppressed_by_marker (e : Event) : bool :=
  match ev_mutation e with
  | Insert => has_marker e
  | Update => has_marker e || is_raw e
  | Delete => false
  end.

(** Suppression as [post_save] decides it: a raw load suppresses any save;
    the marker suppresses an update only. *)
Definition suppressed (e : Event) : bool :=
  match ev_mutation e with
  | Insert => is_raw e
  | Update => has_marker e || is_raw e
  | Delete => false
  end.

(** The audit rows a sequence of events leaves are those of the events that
    [supp] does not suppress, one each, in order. *)
Definition history_matches (supp : Event → bool) (self : HistoricalRecords.t)
    (es : list Event) (st : Store) : Prop :=
  ∃ new,
    for_each es (deliver self) st = (Ret tt, {| now := now st; rows := rows st ++ new |})
    ∧ length new = length (List.filter (λ e, negb (supp e)) es)
    ∧ map history_type new
      = map (λ e, change_type (ev_mutation e)) (List.filter (λ e, negb (supp e)) es).

(** ** Retrieval order

    The meaning the framework gives to [Meta.ordering]: rows are compared
    column by column, a leading [-] reversing the column's order.  [Lt] says
    the first row is retrieved before the second. *)
Definition value_compare (a b : value) : comparison :=
  match a, b with
  | VInt x, VInt y => Z.compare x y
  | VStr x, VStr y => String.compare x y
  | _, _ => Eq
  end.

Definition column_compare (k : string) (a b : AuditRow) : comparison :=
  match row_getattr a k, row_getattr b k with
  | Ret x, Ret y => value_compare x y
  | _, _ => Eq
  end.

Fixpoint order_by (keys : list string) (a b : AuditRow) : comparison :=
  match keys with
  | [] => Eq
  | k :: keys' =>
      let c := match k with
               | String "-"%char col => CompOpp (column_compare col a b)
               | _ => column_compare k a b
               end in
      match c with
      | Eq => order_by keys' a b
      | _ => c
      end
  end.

(** ** A small application

    [Widget(name, owner -> Account)] with [history = HistoricalRecords()]. *)
Definition records : HistoricalRecords.t :=
  {| HistoricalRecords.user_set_verbose_name := VNone;
     HistoricalRecords.m2m_fields := None;
     HistoricalRecords.manager_name := "history";
     HistoricalRecords.module := "shop.models" |}.

Definition Widget : Model :=
  {| model_name := "Widget";
     pk_attname := "id";
     meta_fields :=
       [ {| fd_name := "id"; fd_attname := "id"; fd_rel := false;
            fd_null := false; fd_default := VNone |};
         {| fd_name := "name"; fd_attname := "name"; fd_rel := false;
            fd_null := false; fd_default := VStr "" |};
         {| fd_name := "owner"; fd_attname := "owner_id"; fd_rel := true;
            fd_null := false; fd_default := VNone |} ];
     simple_history_manager_attribute := Some "history" |}.

Definition widget (name : string) : Instance :=
  {| inst_model := Widget;
     inst_dict := list_to_map [("id", VInt 1); ("name", VStr name); ("owner_id", VInt 7)] |}.

Definition marked (i : Instance) : Instance :=
  inst_setattr i skip_history_when_saving (VBool true).

Definition empty_store : Store := {| now := 0; rows := [] |}.

Definition raw_kwargs : gmap string value := {[ "raw" := VBool true ]}.

(** [Team.members], a many-to-many relation to [Account] through
    [Membership(team, account)], audited ([m2m_fields=['members']]). *)
Definition Team : Model :=
  {| model_name := "Team";
     pk_attname := "id";
     meta_fields :=
       [ {| fd_name := "id"; fd_attname := "id"; fd_rel := false;
            fd_null := false; fd_default := VNone |} ];
     simple_history_manager_attribute := Some "history" |}.

Definition Membership : Model :=
  {| model_name := "Membership";
     pk_attname := "id";
     meta_fields :=
       [ {| fd_name := "id"; fd_attname := "id"; fd_rel := false;
            fd_null := false; fd_default := VNone |};
         {| fd_name := "team"; fd_attname := "team_id"; fd_rel := true;
            fd_null := false; fd_default := VNone |};
         {| fd_name := "account"; fd_attname := "account_id"; fd_rel := true;
            fd_null := false; fd_default := VNone |} ];
     simple_history_manager_attribute := Some "history" |}.

Definition team (id : Z) : Instance :=
  {| inst_model := Team; inst_dict := {[ "id" := VInt id ]} |}.

Definition membership (id team account : Z) : Instance :=
  {| inst_model := Membership;
     inst_dict := list_to_map [("id", VInt id); ("team_id", VInt team);
                               ("account_id", VInt account)] |}.

Definition memberships (rows : list Instance) : Through :=
  {| through_dict :=
       [ ("__module__", OtherAttr);
         ("team", ReverseSingleRelatedObjectDescriptor "Team");
         ("account", ReverseSingleRelatedObjectDescriptor "Account");
         ("history", OtherAttr) ];
     objects := rows |}.

(** [Person.friends], a many-to-many relation of [Person] to itself through
    [Friendship(from_person, to_person)]. *)
Definition Person : Model :=
  {| model_name := "Person";
     pk_attname := "id";
     meta_fields :=
       [ {| fd_name := "id"; fd_attname := "id"; fd_rel := false;
            fd_null := false; fd_default := VNone |} ];
     simple_history_manager_attribute := Some "history" |}.

Definition Friendship : Model :=
  {| model_name := "Friendship";
     pk_attname := "id";
     meta_fields :=
       [ {| fd_name := "id"; fd_attname := "id"; fd_rel := false;
            fd_null := false; fd_default := VNone |};
         {| fd_name := "from_person"; fd_attname := "from_person_id"; fd_rel := true;
            fd_null := false; fd_default := VNone |};
         {| fd_name := "to_person"; fd_attname := "to_person_id"; fd_rel := true;
            fd_null := false; fd_default := VNone |} ];
     simple_history_manager_attribute := Some "history" |}.

Definition person (id : Z) : Instance :=
  {| inst_model := Person; inst_dict := {[ "id" := VInt id ]} |}.

Definition friendship (id a b : Z) : Instance :=
  {| inst_model := Friendship;
     inst_dict := list_to_map [("id", VInt id); ("from_person_id", VInt a);
                               ("to_person_id", VInt b)] |}.

Definition friendships (rows : list Instance) : Through :=
  {| through_dict :=
       [ ("from_person", ReverseSingleRelatedObjectDescriptor "Person");
         ("to_person", ReverseSingleRelatedObjectDescriptor "Person");
         ("history", OtherAttr) ];
     objects := rows |}.

(** The handler gave up on the event without a trace: it returned normally
    and the store is as it was. *)
Definition aborts_silently (self : HistoricalRecords.t) (action : string)
    (instance : Instance) (sender : Through) (model : string)
    (pk_set : option (list value)) (st : Store) : Prop :=
  HistoricalRecords.m2m_changed self action instance sender model pk_set st = (Ret tt, st).

(** ** Field objects

    The object [transform_field] leaves in place of a field object [o]. *)
Definition transformed (o : object) : object :=
  let d := <["auto_now_add" := VBool false]>
             (<["auto_now" := VBool false]>
                (<["name" := default VNone (odict o !! "attname")]> (odict o))) in
  let constrained :=
    truthy (default VNone (odict o !! "primary_key"))
    || truthy (default VNone (odict o !! "_unique")) in
  {| ocls := if issubclass (ocls o) AutoField then IntegerField
             else if issubclass (ocls o) FileField then TextField
             else ocls o;
     odict := if constrained
              then <["serialize" := VBool true]>
                     (<["db_index" := VBool true]>
                        (<["_unique" := VBool false]>
                           (<["primary_key" := VBool false]> d)))
              else d |}.

(** A field object as the framework prepares it: it has its [attname] and
    the two uniqueness attributes. *)
Definition is_field (o : object) : Prop :=
  is_Some (odict o !! "attname")
  ∧ is_Some (odict o !! "primary_key")
  ∧ is_Some (odict o !! "_unique").

(** The body of the loop of [copy_fields], and the field objects it is run
    on: [column_object h v a] says that [v] is a prepared field object of
    the heap [h] with attname [a], which holds its relation object when it
    is a foreign key. *)
Definition copy_fields_body (fields : gmap string value) (field : value)
    : St heap (gmap string value) :=
  (field <- Py.copy_copy field ;;
   rel <- Py.getattr field "rel" ;;
   rel' <- Py.copy_copy rel ;;
   Py.setattr field "rel" rel' ;;;
   c <- Py.type_of field ;;
   when (issubclass c ForeignKey)
     (Py.set_class field (get_custom_fk_class c) ;;;
      r <- Py.getattr field "rel" ;;
      Py.setattr r "related_name" (VStr "+") ;;;
      Py.setattr field "null" (VBool true) ;;;
      Py.setattr field "blank" (VBool true)) ;;;
   transform_field field ;;;
   name <- Py.getattr field "name" ;;
   match name with
   | VStr name => ret (<[name := field]> fields)
   | _ => raise TypeError
   end)%py.

Definition column_object (h : heap) (v : value) (a : string) : Prop :=
  ∃ l o rel,
    v = VRef l ∧ h !! l = Some o
    ∧ odict o !! "attname" = Some (VStr a)
    ∧ is_Some (odict o !! "primary_key")
    ∧ is_Some (odict o !! "_unique")
    ∧ odict o !! "rel" = Some rel
    ∧ match rel with
      | VRef r => is_Some (h !! r)
      | _ => issubclass (ocls o) ForeignKey = false
      end.

(** A field object and a relation object with the attributes the framework
    gives them. *)
Definition field_obj (c : pyclass) (name attname : string) (primary_key unique : bool)
    (rel : value) : object :=
  Obj c (list_to_map [("name", VStr name);
                      ("attname", VStr attname);
                      ("column", VStr attname);
                      ("primary_key", VBool primary_key);
                      ("_unique", VBool unique);
                      ("rel", rel);
                      ("null", VBool false);
                      ("blank", VBool false);
                      ("db_index", VBool false);
                      ("serialize", VBool true);
                      ("max_length", VInt 50)]).

Definition rel_obj (c : pyclass) (to : string) : object :=
  Obj c (list_to_map [("to", VModel to);
                      ("related_name", VNone);
                      ("field_name", VStr "id")]).

(** The schema of the small application, as objects: [Account(id)],
    [Widget(id, name, owner -> Account, photo)], and a chain of one-to-one
    primary keys [Bar -> Restaurant -> Place(id)] with [Waiter(id, bar -> Bar)]. *)
Definition shop_heap : heap := Eval vm_compute in
  list_to_map
    [ (0, field_obj AutoField "id" "id" true false VNone);
      (1, field_obj AutoField "id" "id" true false VNone);
      (2, field_obj CharField "name" "name" false true VNone);
      (3, field_obj ForeignKey "owner" "owner_id" false false (VRef 4));
      (4, rel_obj ManyToOneRel "Account");
      (5, field_obj ImageField "photo" "photo" false false VNone);
      (6, field_obj AutoField "id" "id" true false VNone);
      (7, field_obj OneToOneField "place" "place_id" true true (VRef 8));
      (8, rel_obj OneToOneRel "Place");
      (9, field_obj OneToOneField "restaurant" "restaurant_id" true true (VRef 10));
      (10, rel_obj OneToOneRel "Restaurant");
      (11, field_obj AutoField "id" "id" true false VNone);
      (12, field_obj ForeignKey "bar" "bar_id" false false (VRef 13));
      (13, rel_obj ManyToOneRel "Bar") ]%nat.

Definition options (name : string) (pk : loc) (fields : list loc) : Options :=
  {| object_name := name;
     app_label := "shop";
     verbose_name := name;
     db_table := "shop_" +:+ name;
     pk := VRef pk;
     fields := VRef <$> fields |}.

Definition shop_models : registry := Eval vm_compute in
  list_to_map
    [ ("Account", options "Account" 0 [0]);
      ("Widget", options "Widget" 1 [1; 2; 3; 5]);
      ("Place", options "Place" 6 [6]);
      ("Restaurant", options "Restaurant" 7 [7]);
      ("Bar", options "Bar" 9 [9]);
      ("Waiter", options "Waiter" 11 [11; 12]) ]%nat.

(** The heap once the columns of [Waiter] have been copied: the copy of
    [Waiter.bar] is object 15, its relation object 16. *)
Definition waiter_heap : heap := Eval vm_compute in
  (HistoricalRecords.copy_fields shop_models (VModel "Waiter") shop_heap).2.

(** Two models whose primary keys are one-to-one columns to each other, and
    a foreign key (object 4) to one of them. *)
Definition yin_yang_heap : heap := Eval vm_compute in
  list_to_map
    [ (0, field_obj OneToOneField "yang" "yang_id" true true (VRef 1));
      (1, rel_obj OneToOneRel "Yang");
      (2, field_obj OneToOneField "yin" "yin_id" true true (VRef 3));
      (3, rel_obj OneToOneRel "Yin");
      (4, field_obj (CustomForeignKey ForeignKey) "yin_id" "yin_id" false false (VRef 5));
      (5, rel_obj ManyToOneRel "Yin") ]%nat.

Definition yin_yang_models : registry := Eval vm_compute in
  list_to_map [ ("Yin", options "Yin" 0 [0]); ("Yang", options "Yang" 2 [2]) ]%nat.

(** ** Frames

    [private h0 v]: the value does not refer to an object of the heap [h0].
    [keeps h0 P m R]: from a heap that extends [h0] and satisfies [P], the
    computation [m] ends in a heap that still extends [h0], whatever its
    outcome, and that satisfies [R] when it returns. *)
Definition private (h0 : heap) (v : value) : Prop :=
  match v with
  | VRef l => h0 !! l = None
  | _ => True
  end.

Definition keeps {A} (h0 : heap) (P : heap → Prop) (m : St heap A)
    (R : A → heap → Prop) : Prop :=
  ∀ h, h0 ⊆ h → P h →
    h0 ⊆ (m h).2 ∧ ∀ a, (m h).1 = Ret a → R a (m h).2.

(** The values [copy_fields] collects are references to objects that are
    not in [h0]. *)
Definition copies (h0 : heap) (fields : gmap string value) : Prop :=
  ∀ name v, fields !! name = Some v → ∃ l, v = VRef l ∧ h0 !! l = None.

(** The dictionary a loop of conditional [setattr]s leaves. *)
Definition update_dict (p : string → bool) (kvs : list (string * value))
    (d : gmap string value) : gmap string value :=
  fold_left (λ d kv, if p kv.1 then <[kv.1 := kv.2]> d else d) kvs d.

(** ** Chains of one-to-one primary keys

    [points_to h v m]: the field [v] has a relation object whose [to] is the
    model [m].  [pk_chain models h m d]: the primary key of [m] is reached
    from [m] through [d] one-to-one primary keys. *)
Definition points_to (h : heap) (v : value) (m : string) : Prop :=
  ∃ l o r ro, v = VRef l ∧ h !! l = Some o
              ∧ odict o !! "rel" = Some (VRef r)
              ∧ h !! r = Some ro ∧ odict ro !! "to" = Some (VModel m).

Inductive pk_chain (models : registry) (h : heap) : string → nat → Prop :=
  | pk_chain_end m opts l o :
      models !! m = Some opts →
      pk opts = VRef l →
      h !! l = Some o →
      issubclass (ocls o) OneToOneField = false →
      pk_chain models h m 0
  | pk_chain_step m opts m' d :
      models !! m = Some opts →
      (∃ l o, pk opts = VRef l ∧ h !! l = Some o
              ∧ issubclass (ocls o) OneToOneField = true) →
      points_to h (pk opts) m' →
      pk_chain models h m' d →
      pk_chain models h m (S d).

(** [one_to_one_cycle models h M]: every model of [M] has a one-to-one
    primary key that refers to a model of [M] again. *)
Definition one_to_one_cycle (models : registry) (h : heap) (M : list string) : Prop :=
  ∀ m, m ∈ M →
    ∃ opts m',
      models !! m = Some opts
      ∧ (∃ l o, pk opts = VRef l ∧ h !! l = Some o
                ∧ issubclass (ocls o) OneToOneField = true)
      ∧ points_to h (pk opts) m'
      ∧ m' ∈ M.

(** ** What a handler may do to the store

    [appends st st']: the store [st'] holds the rows of [st], unchanged and
    in their places, followed by new ones, and its clock is that of [st]. *)
Definition appends (st st' : Store) : Prop :=
  now st' = now st ∧ ∃ new, rows st' = rows st ++ new.

(** The outcome of a computation with its result forgotten. *)
Definition void {A} (o : outcome A) : outcome unit :=
  match o with
  | Ret _ => Ret tt
  | Raise e => Raise e
  | OutOfFuel => OutOfFuel
  end.

(** The three actions of the membership-change signal the handler acts on. *)
Definition recorded_actions : list string := ["post_add"; "pre_remove"; "pre_clear"].

(** A [save] that loses the marker on its way, and fails. *)
Definition save_dropping_marker : St (Instance * Store) value :=
  λ '(self, st), (Raise DatabaseError, (inst_delattr self skip_history_when_saving, st)).

(** A model that [finalize] has not been run for, and a model with a column
    named like a keyword [create_historical_record] passes itself. *)
Definition Plain : Model :=
  {| model_name := "Plain";
     pk_attname := "id";
     meta_fields :=
       [ {| fd_name := "id"; fd_attname := "id"; fd_rel := false;
            fd_null := false; fd_default := VNone |} ];
     simple_history_manager_attribute := None |}.

Definition Ticket : Model :=
  {| model_name := "Ticket";
     pk_attname := "id";
     meta_fields :=
       [ {| fd_name := "id"; fd_attname := "id"; fd_rel := false;
            fd_null := false; fd_default := VNone |};
         {| fd_name := "history_type"; fd_attname := "history_type"; fd_rel := false;
            fd_null := false; fd_default := VStr "" |} ];
     simple_history_manager_attribute := Some "history" |}.

Definition ticket : Instance :=
  {| inst_model := Ticket;
     inst_dict := list_to_map [("id", VInt 1); ("history_type", VStr "bug")] |}.



(** The objects [copy_fields] leaves for a column [o] of the source model
    and for its relation object [ro]: [rel'] is what the copy holds as
    [rel]. *)
Definition copied_column (o : object) (rel' : value) : object :=
  transformed
    (if issubclass (ocls o) ForeignKey
     then Obj (get_custom_fk_class (ocls o))
              (<["blank" := VBool true]>
                 (<["null" := VBool true]> (<["rel" := rel']> (odict o))))
     else Obj (ocls o) (<["rel" := rel']> (odict o))).

Definition copied_rel (o ro : object) : object :=
  if issubclass (ocls o) ForeignKey
  then Obj (ocls ro) (<["related_name" := VStr "+"]> (odict ro))
  else ro.

(** What [copy_fields] leaves for a column: a new object under the column's
    attname, and a new relation object where the column had one. *)
Definition column_copied (h h' : heap) (d : gmap string value) (a : string)
    (o : object) : Prop :=
  ∃ l' rel',
    d !! a = Some (VRef l') ∧ h !! l' = None
    ∧ h' !! l' = Some (copied_column o rel')
    ∧ (∀ r ro, odict o !! "rel" = Some (VRef r) → h !! r = Some ro →
         ∃ r', rel' = VRef r' ∧ h !! r' = None ∧ h' !! r' = Some (copied_rel o ro))
    ∧ ((∀ r, odict o !! "rel" ≠ Some (VRef r)) → odict o !! "rel" = Some rel').

(** The attributes [get_field] copies from the primary key of the model
    referred to, and the object it leaves in place of a foreign key [o] when
    that primary key [po] is not a one-to-one column. *)
Definition copied_from_pk (key : string) : bool :=
  negb (ForeignKeyMixin.startswith_excluded_prefixes key)
  && negb (bool_decide (key ∈ ForeignKeyMixin.excluded_attributes)).

Definition downgraded (o po : object) : object :=
  if issubclass (ocls po) AutoField then Obj IntegerField (odict o)
  else Obj (ocls po) (update_dict copied_from_pk (map_to_list (odict po)) (odict o)).

(** [City(id, country -> Country)], where [Country(code)] has a character
    column for its primary key; object 3 is a copy of [City.country] as
    [copy_fields] makes it. *)
Definition atlas_heap : heap := Eval vm_compute in
  list_to_map
    [ (0, field_obj CharField "code" "code" true false VNone);
      (1, field_obj AutoField "id" "id" true false VNone);
      (2, field_obj ForeignKey "country" "country_id" false false (VRef 4));
      (3, field_obj (CustomForeignKey ForeignKey) "country_id" "country_id" false false
            (VRef 5));
      (4, rel_obj ManyToOneRel "Country");
      (5, rel_obj ManyToOneRel "Country") ]%nat.

Definition atlas_models : registry := Eval vm_compute in
  list_to_map [ ("Country", options "Country" 0 [0]); ("City", options "City" 1 [1; 2]) ]%nat.

(** ** The members of a historical model class

    The names [get_extra_fields] fills in, and the names
    [create_history_model] fills in besides the copied columns. *)
Definition extra_names : list string :=
  ["history_id"; "history_date"; "history_user"; "history_type";
   "history_object"; "instance"; "revert_url"; "__str__"].

Definition reserved_names : list string :=
  "__module__" :: "Meta" :: extra_names.

(** The end of [create_history_model]: the class statement, and the
    decorator on the class it yields. *)
Definition class_statement
    (Model_type : string → gmap string member → St (heap * registered) HistoryModel)
    (version_info_0 : Z) (name : string) (attrs : gmap string member)
    : St (heap * registered) HistoryModel :=
  (klass <- Model_type name attrs ;;
   ret (python_2_unicode_compatible version_info_0 klass))%py.

(** An application registry that knows the [shop] application only, and the
    module its model classes are declared in. *)
Definition shop_apps (label : string) : outcome string :=
  if String.eqb label "shop" then Ret "acme.shop.models" else Raise LookupError.

Definition shop_module_of (m : string) : string := "shop.models".

(** The attributes [create_history_model] hands to [type] once it has put
    the class in [module]. *)
Definition class_attrs (settings : gmap string value) (self : HistoricalRecords.t)
    (model : value) (opts : Options) (module : string) (fields : gmap string value)
    : gmap string member :=
  <["Meta" := MetaClass (HistoricalRecords.get_meta_options self opts)]>
    (get_extra_fields settings self model fields
     ∪ ((Column <$> fields) ∪ {[ "__module__" := ModuleName module ]})).

(** The same application kept in a package of modules: the models are
    declared in [acme.shop.models.widgets], and the application's [models]
    module is [acme.shop.models]. *)
Definition acme_records : HistoricalRecords.t :=
  {| HistoricalRecords.user_set_verbose_name := VNone;
     HistoricalRecords.m2m_fields := None;
     HistoricalRecords.manager_name := "history";
     HistoricalRecords.module := "acme.shop.models.widgets" |}.

Definition acme_module_of (m : string) : string := "acme.shop.models.widgets".

Definition no_apps (label : string) : outcome string := Raise LookupError.

(** A class statement that goes through and prepares nothing, and one in
    which preparing a field fails. *)
Definition plain_type (name : string) (attrs : gmap string member)
    : St (heap * registered) HistoryModel :=
  ret {| hm_name := name; hm_attrs := attrs |}.

Definition failing_type (name : string) (attrs : gmap string member)
    : St (heap * registered) HistoryModel :=
  raise LookupError.

(** * Properties *)

Section Monad.
Context {S A B : Type}.

Lemma bind_ret (m : St S A) (f : A → St S B) s a s' :
  m s = (Ret a, s') → bind m f s = f a s'.
Proof. intros H. unfold bind. by rewrite H. Qed.

Lemma bind_raise (m : St S A) (f : A → St S B) s e s' :
  m s = (Raise e, s') → bind m f s = (Raise e, s').
Proof. intros H. unfold bind. by rewrite H. Qed.

End Monad.

(** ** The audit recorder *)

Lemma well_formed_manager self i :
  well_formed self i = true →
  simple_history_manager_attribute (inst_model i) = Some (HistoricalRecords.manager_name self).
Proof.
  unfold well_formed. intros [H _]%andb_prop. by apply bool_decide_eq_true in H.
Qed.

Lemma well_formed_columns self i :
  well_formed self i = true →
  Forall (λ a, is_Some (inst_dict i !! a) ∧ a ∉ audit_columns) (attnames (inst_model i)).
Proof.
  unfold well_formed. intros [_ H]%andb_prop.
  apply Forall_forall. intros a Ha%list_elem_of_In.
  rewrite forallb_forall in H. specialize (H a Ha).
  apply andb_prop in H as [H1 H2]. apply bool_decide_eq_true in H1.
  apply negb_true_iff, bool_decide_eq_false in H2. done.
Qed.

(** Dictionaries cut down to a list of keys. *)
Lemma lookup_restrict ks (d : gmap string value) k :
  restrict ks d !! k = if decide (k ∈ ks) then d !! k else None.
Proof.
  unfold restrict. apply option_eq. intros x. rewrite map_lookup_filter_Some. cbn.
  destruct (decide (k ∈ ks)); split; try done.
  - by intros [? _].
  - by intros [_ ?].
Qed.

Lemma restrict_nil (d : gmap string value) : restrict [] d = ∅.
Proof.
  apply map_empty. intros k. rewrite lookup_restrict.
  destruct (decide (k ∈ [])) as [H|]; [|done]. by apply not_elem_of_nil in H.
Qed.

Lemma restrict_insert (d : gmap string value) a l v acc :
  d !! a = Some v →
  restrict l d ∪ <[a := v]> acc = restrict (a :: l) d ∪ acc.
Proof.
  intros Hv. apply map_eq. intros k. rewrite !lookup_union, !lookup_restrict.
  destruct (decide (k = a)) as [->|Hne].
  - rewrite lookup_insert_eq, Hv.
    rewrite (decide_True (P := a ∈ a :: l)) by apply list_elem_of_here.
    destruct (decide (a ∈ l)); by destruct (acc !! a).
  - rewrite lookup_insert_ne by done.
    destruct (decide (k ∈ l)) as [Hin|Hin].
    + by rewrite (decide_True (P := k ∈ a :: l)) by by apply list_elem_of_further.
    + rewrite (decide_False (P := k ∈ a :: l)); [done|].
      intros [?|?]%elem_of_cons; done.
Qed.


(** The loop of [create_historical_record] copies the columns into [attrs]. *)
Lemma snapshot_loop i fs acc (st : Store) :
  Forall (λ a, is_Some (inst_dict i !! a)) (map fd_attname fs) →
  for_fold fs
    (λ attrs field,
       v <- inst_getattr i (fd_attname field) ;;
       ret (<[fd_attname field := v]> attrs)) acc st
  = (Ret (restrict (map fd_attname fs) (inst_dict i) ∪ acc), st).
Proof.
  revert acc. induction fs as [|f fs IH]; intros acc Hall.
  - cbn [for_fold map]. rewrite restrict_nil. by rewrite (left_id_L ∅ (∪)).
  - cbn [map] in *. apply Forall_cons in Hall as [[v Hv] Hall].
    cbn [for_fold].
    erewrite bind_ret; last first.
    { unfold bind, inst_getattr. rewrite Hv. reflexivity. }
    rewrite IH by done. by rewrite (restrict_insert _ _ _ _ _ Hv).
Qed.

Lemma create_historical_record_run self i type st :
  well_formed self i = true →
  HistoricalRecords.create_historical_record self i type st
  = (Ret tt, insert_row (audit_row i type st) st).
Proof.
  intros Hwf. unfold HistoricalRecords.create_historical_record.
  rewrite (well_formed_manager _ _ Hwf). rewrite bool_decide_eq_true_2 by done.
  pose proof (well_formed_columns _ _ Hwf) as Hcols.
  erewrite bind_ret; [|reflexivity].
  erewrite bind_ret; last first.
  { apply snapshot_loop. eapply Forall_impl; [exact Hcols|]. by intros a [? _]. }
  rewrite (right_id_L ∅ (∪)).
  rewrite bool_decide_eq_false_2; [reflexivity|].
  intros [H|H]; apply elem_of_dom in H as [x Hx];
    rewrite lookup_restrict in Hx; case_decide as Hin; [|done| |done];
    rewrite Forall_forall in Hcols; destruct (Hcols _ Hin) as [_ Hn];
    apply Hn; unfold audit_columns; repeat constructor.
Qed.

Lemma well_formed_setattr self i k v :
  well_formed self i = true → well_formed self (inst_setattr i k v) = true.
Proof.
  unfold well_formed. cbn [inst_setattr inst_model inst_dict].
  intros [H1 H2]%andb_prop. rewrite H1. cbn [andb].
  rewrite forallb_forall in *. intros a Ha. specialize (H2 a Ha).
  apply andb_prop in H2 as [H2 H3]. rewrite H3, andb_true_r.
  apply bool_decide_eq_true in H2. apply bool_decide_eq_true.
  destruct (decide (k = a)) as [->|Hne].
  - rewrite lookup_insert_eq. eauto.
  - by rewrite lookup_insert_ne.
Qed.

(** C2 (amended): every post-delete event on an instance of an audited model
    that has a value for each of its columns, none of them named like an
    audit column, records exactly one audit row of type deleted, whatever
    attributes the instance carries besides its columns (the suppression
    marker among them). *)
Theorem post_delete_records_deleted self i kwargs st :
  well_formed self i = true →
  ∃ r, HistoricalRecords.post_delete self i kwargs st = (Ret tt, insert_row r st)
       ∧ history_type r = "-"
       ∧ row_table r = historical_name (inst_model i)
       ∧ row_values r = columns_of i.
Proof.
  intros Hwf. exists (audit_row i "-" st). split; [|done].
  unfold HistoricalRecords.post_delete. by apply create_historical_record_run.
Qed.

Lemma post_delete_records_deleted_witness :
  well_formed records (marked (widget "A")) = true
  ∧ ∃ r, HistoricalRecords.post_delete records (marked (widget "A")) ∅ empty_store
         = (Ret tt, insert_row r empty_store)
         ∧ history_type r = "-"
         ∧ row_table r = historical_name (inst_model (marked (widget "A")))
         ∧ row_values r = columns_of (marked (widget "A")).
Proof.
  split; [vm_compute; reflexivity|].
  apply (post_delete_records_deleted records (marked (widget "A")) ∅ empty_store).
  vm_compute; reflexivity.
Defined.

(** C2 as worded fails: [Ticket] is an audited model and the ticket has a
    value for each column, but one column is named [history_type]; a
    post-delete event on the ticket records nothing, and the handler raises
    [TypeError]. *)
Lemma post_delete_fails_on_audit_column_name :
  simple_history_manager_attribute Ticket = Some (HistoricalRecords.manager_name records)
  ∧ Forall (λ a, is_Some (inst_dict ticket !! a)) (attnames Ticket)
  ∧ HistoricalRecords.post_delete records ticket ∅ empty_store
    = (Raise TypeError, empty_store)
  ∧ ¬ ∃ r, HistoricalRecords.post_delete records ticket ∅ empty_store
           = (Ret tt, insert_row r empty_store).
Proof.
  split; [reflexivity|]. split.
  { repeat first [apply List.Forall_nil | apply List.Forall_cons; [by eexists|]]. }
  split; [vm_compute; reflexivity|].
  intros [r Hr]. vm_compute in Hr. discriminate.
Qed.

(** Setting the marker on an instance changes nothing for [post_delete]. *)
Lemma post_delete_ignores_marker self i kwargs st v :
  well_formed self i = true →
  ∃ r, HistoricalRecords.post_delete self (inst_setattr i skip_history_when_saving v) kwargs st
       = (Ret tt, insert_row r st)
       ∧ history_type r = "-".
Proof.
  intros Hwf.
  exists (audit_row (inst_setattr i skip_history_when_saving v) "-" st). split; [|done].
  unfold HistoricalRecords.post_delete.
  apply create_historical_record_run. by apply well_formed_setattr.
Qed.

Lemma post_save_run self i created kwargs st :
  well_formed self i = true →
  HistoricalRecords.post_save self i created kwargs st
  = if (negb created && hasattr i skip_history_when_saving)
       || truthy (default (VBool false) (kwargs !! "raw"))
    then (Ret tt, st)
    else (Ret tt, insert_row (audit_row i (if created then "+" else "~") st) st).
Proof.
  intros Hwf. unfold HistoricalRecords.post_save.
  destruct (negb created && hasattr i skip_history_when_saving); [done|].
  destruct (truthy _); [done|]. cbn [negb orb].
  by apply create_historical_record_run.
Qed.

Lemma deliver_run self e st :
  well_formed self (ev_instance e) = true →
  deliver self e st
  = (Ret tt, if suppressed e then st
             else insert_row (audit_row (ev_instance e) (change_type (ev_mutation e)) st) st).
Proof.
  intros Hwf. unfold deliver, suppressed, has_marker, is_raw.
  destruct (ev_mutation e); cbn [change_type].
  - rewrite post_save_run by done. cbn [negb andb orb]. by destruct (truthy _).
  - rewrite post_save_run by done. cbn [negb andb].
    by destruct (hasattr _ _ || truthy _).
  - unfold HistoricalRecords.post_delete. by apply create_historical_record_run.
Qed.

(** C1 (amended): over any sequence of insert, update and delete events on
    instances of an audited model that have a value for each of their
    columns, none of them named like an audit column, the audit rows
    recorded are those of the events not suppressed, one row each, with
    change types in the order of the events; a save is suppressed when it is
    a raw load, or when it is an update of an instance carrying the
    marker. *)
Theorem history_matches_mutations self es st :
  Forall (λ e, well_formed self (ev_instance e) = true) es →
  history_matches suppressed self es st.
Proof.
  unfold history_matches. revert st.
  induction es as [|e es IH]; intros st Hwf.
  - exists []. cbn. rewrite app_nil_r. by destruct st.
  - apply Forall_cons in Hwf as [He Hes]. cbn [for_each List.filter].
    erewrite bind_ret; [|by apply deliver_run].
    destruct (suppressed e); cbn [negb].
    + destruct (IH st Hes) as (new & Hrun & Hlen & Hty). by exists new.
    + destruct (IH (insert_row (audit_row (ev_instance e) (change_type (ev_mutation e)) st) st) Hes)
        as (new & Hrun & Hlen & Hty).
      exists (audit_row (ev_instance e) (change_type (ev_mutation e)) st :: new).
      rewrite Hrun. cbn [insert_row now rows length map audit_row history_type].
      rewrite <- app_assoc. cbn [app]. rewrite Hlen, Hty. done.
Qed.

Lemma history_matches_mutations_witness :
  history_matches suppressed records
    [ {| ev_mutation := Insert; ev_instance := marked (widget "A"); ev_kwargs := ∅ |};
      {| ev_mutation := Update; ev_instance := marked (widget "B"); ev_kwargs := ∅ |};
      {| ev_mutation := Update; ev_instance := widget "C"; ev_kwargs := raw_kwargs |};
      {| ev_mutation := Update; ev_instance := widget "D"; ev_kwargs := ∅ |};
      {| ev_mutation := Delete; ev_instance := marked (widget "D"); ev_kwargs := ∅ |} ]
    empty_store.
Proof.
  apply history_matches_mutations.
  repeat first [apply List.Forall_nil | apply List.Forall_cons; [vm_compute; reflexivity|]].
Defined.

(** C1 as worded fails: the insert of an instance that carries the marker is
    recorded all the same, and a raw insert of an instance without the
    marker is not recorded.  Nor is a row recorded for every save that is
    not suppressed: where the model has a column named [history_type], the
    handler raises [TypeError] and records nothing. *)
Lemma marker_does_not_decide_insert :
  ¬ history_matches suppressed_by_marker records
      [ {| ev_mutation := Insert; ev_instance := marked (widget "A"); ev_kwargs := ∅ |} ]
      empty_store
  ∧ ¬ history_matches suppressed_by_marker records
      [ {| ev_mutation := Insert; ev_instance := widget "A"; ev_kwargs := raw_kwargs |} ]
      empty_store
  ∧ deliver records {| ev_mutation := Insert; ev_instance := ticket; ev_kwargs := ∅ |}
      empty_store
    = (Raise TypeError, empty_store)
  ∧ ¬ history_matches suppressed_by_marker records
      [ {| ev_mutation := Insert; ev_instance := ticket; ev_kwargs := ∅ |} ]
      empty_store.
Proof.
  split; [|split; [|split]].
  - intros (new & Hrun & Hlen & _).
    vm_compute in Hrun. injection Hrun as Hnew. subst new.
    vm_compute in Hlen. discriminate.
  - intros (new & Hrun & Hlen & _).
    vm_compute in Hrun. injection Hrun as Hnew. subst new.
    vm_compute in Hlen. discriminate.
  - vm_compute. reflexivity.
  - intros (new & Hrun & _). vm_compute in Hrun. discriminate.
Qed.

(** C3: after [save_without_historical_record], however the enclosed save
    ends and whatever it does to the instance, the instance does not carry
    the marker; a later [post_save] for it is therefore decided by the raw
    flag alone. *)
Theorem save_without_historical_record_clears_marker
    (save : St (Instance * Store) value) self st :
  let self' := (HistoricalRecords.save_without_historical_record save (self, st)).2.1 in
  hasattr self' skip_history_when_saving = false
  ∧ ∀ hr created kwargs,
      HistoricalRecords.post_save hr self' created kwargs
      = if truthy (default (VBool false) (kwargs !! "raw")) then ret tt
        else HistoricalRecords.create_historical_record hr self'
               (if created then "+" else "~").
Proof.
  cbn zeta.
  assert (hasattr (HistoricalRecords.save_without_historical_record save (self, st)).2.1
                  skip_history_when_saving = false) as Hclear.
  { unfold HistoricalRecords.save_without_historical_record, bind, try_finally, ret. cbn.
    destruct (save _) as [r [self2 st2]]. cbn.
    destruct (hasattr self2 skip_history_when_saving) eqn:Hm.
    - destruct r; cbn; unfold hasattr, inst_delattr; cbn;
        apply bool_decide_eq_false; rewrite lookup_delete_eq; by intros [? ?].
    - exact Hm. }
  split; [done|]. intros hr created kwargs.
  unfold HistoricalRecords.post_save. rewrite Hclear, andb_false_r.
  by destruct (truthy _).
Qed.

(** ** The membership-change handler *)

Lemma matched_items_store sender instance model pk_set (st : Store) :
  (HistoricalRecords.matched_items sender instance model pk_set st).2 = st.
Proof.
  unfold HistoricalRecords.matched_items.
  destruct (HistoricalRecords.find_field_names _ _ _) as [[src|] tgt]; [|done].
  unfold bind, filter_related, filter_id_in, ret, raise. cbn.
  destruct pk_set as [[|pk pks]|]; try done. by destruct tgt.
Qed.

(** The loop of [m2m_changed] for [post_add] leaves the function at the
    first item that carries the marker. *)
Lemma post_add_loop self pre item post (st : Store) :
  Forall (λ it, hasattr it skip_history_when_saving = false) pre →
  hasattr item skip_history_when_saving = true →
  for_each_return (pre ++ item :: post)
    (λ item,
       if String.eqb "post_add" "post_add" then
         if hasattr item skip_history_when_saving then ret true
         else HistoricalRecords.create_historical_record self item "+" ;;; ret false
       else if String.eqb "post_add" "pre_remove" then
         HistoricalRecords.create_historical_record self item "-" ;;; ret false
       else if String.eqb "post_add" "pre_clear" then
         HistoricalRecords.create_historical_record self item "-" ;;; ret false
       else ret false) st
  = for_each pre (λ it, HistoricalRecords.create_historical_record self it "+") st.
Proof.
  intros Hpre Hitem. revert st. induction pre as [|it pre IH]; intros st.
  - cbn. unfold bind, ret. by rewrite Hitem.
  - apply Forall_cons in Hpre as [Hit Hpre]. cbn [app for_each_return for_each].
    cbn [String.eqb Ascii.eqb Bool.eqb]. rewrite Hit.
    unfold bind at 1 2. unfold bind at 2.
    destruct (HistoricalRecords.create_historical_record self it "+" st) as [[[]|e|] st']; cbn; try done.
    apply IH; done.
Qed.

Lemma record_all_run self items type (st : Store) :
  Forall (λ it, well_formed self it = true) items →
  ∃ new,
    for_each items (λ it, HistoricalRecords.create_historical_record self it type) st
    = (Ret tt, {| now := now st; rows := rows st ++ new |})
    ∧ length new = length items
    ∧ map row_values new = map columns_of items
    ∧ Forall (λ r, history_type r = type) new.
Proof.
  intros Hwf. revert st. induction items as [|it items IH]; intros st.
  - exists []. cbn. rewrite app_nil_r. by destruct st.
  - apply Forall_cons in Hwf as [Hit Hwf]. cbn [for_each].
    erewrite bind_ret; [|by apply create_historical_record_run].
    destruct (IH Hwf (insert_row (audit_row it type st) st)) as (new & Hrun & Hlen & Hval & Hty).
    exists (audit_row it type st :: new). rewrite Hrun.
    cbn [insert_row now rows length map audit_row row_values].
    rewrite <- app_assoc. cbn [app]. rewrite Hlen, Hval.
    repeat split; try done. by constructor.
Qed.

(** C10: in a [post_add] event, when a matched row of the join model
    carries the marker, the handler returns at that row: it does exactly
    what recording the rows before it does, and records nothing for the
    marked row or for any row after it. *)
Theorem post_add_marker_ends_event self instance sender model pk_set st pre item post :
  (HistoricalRecords.matched_items sender instance model pk_set st).1
    = Ret (pre ++ item :: post) →
  Forall (λ it, hasattr it skip_history_when_saving = false) pre →
  hasattr item skip_history_when_saving = true →
  HistoricalRecords.m2m_changed self "post_add" instance sender model pk_set st
  = for_each pre (λ it, HistoricalRecords.create_historical_record self it "+") st
  ∧ (Forall (λ it, well_formed self it = true) pre →
     ∃ new,
       HistoricalRecords.m2m_changed self "post_add" instance sender model pk_set st
       = (Ret tt, {| now := now st; rows := rows st ++ new |})
       ∧ length new = length pre
       ∧ map row_values new = map columns_of pre
       ∧ Forall (λ r, history_type r = "+") new).
Proof.
  intros Hitems Hpre Hitem.
  assert (HistoricalRecords.m2m_changed self "post_add" instance sender model pk_set st
          = for_each pre (λ it, HistoricalRecords.create_historical_record self it "+") st) as Heq.
  { unfold HistoricalRecords.m2m_changed.
    erewrite bind_ret; last first.
    { rewrite (surjective_pairing (HistoricalRecords.matched_items _ _ _ _ _)).
      by rewrite Hitems, matched_items_store. }
    by apply post_add_loop. }
  split; [done|]. intros Hwf. rewrite Heq. by apply record_all_run.
Qed.



Lemma post_add_marker_ends_event_witness :
  ∃ new,
    HistoricalRecords.m2m_changed records "post_add" (team 1)
      (memberships [membership 10 1 5; membership 11 1 6; membership 12 2 5;
                    marked (membership 13 1 7); membership 14 1 8])
      "Account" (Some [VInt 5; VInt 6; VInt 7; VInt 8]) empty_store
    = (Ret tt, {| now := now empty_store; rows := rows empty_store ++ new |})
    ∧ length new = 2%nat
    ∧ map row_values new = map columns_of [membership 10 1 5; membership 11 1 6]
    ∧ Forall (λ r, history_type r = "+") new.
Proof.
  apply (post_add_marker_ends_event records (team 1) _ "Account" _ empty_store
           [membership 10 1 5; membership 11 1 6] (marked (membership 13 1 7))
           [membership 14 1 8]).
  - vm_compute; reflexivity.
  - repeat first [apply List.Forall_nil | apply List.Forall_cons; [vm_compute; reflexivity|]].
  - vm_compute; reflexivity.
  - repeat first [apply List.Forall_nil | apply List.Forall_cons; [vm_compute; reflexivity|]].
Defined.

(** C4 (amended): when the handler finds no foreign key of the join model
    for the owner side, or finds none for the target side while the set of
    changed ids is not empty, it records no audit row and a [TypeError]
    reaches the caller. *)
Theorem m2m_changed_unresolved_raises self action instance sender model pk_set st :
  let names := HistoricalRecords.find_field_names (through_dict sender) model
                 (model_name (inst_model instance)) in
  names.1 = None ∨ (names.2 = None ∧ ∃ pk pks, pk_set = Some (pk :: pks)) →
  HistoricalRecords.m2m_changed self action instance sender model pk_set st
  = (Raise TypeError, st).
Proof.
  cbn zeta. intros H.
  unfold HistoricalRecords.m2m_changed, HistoricalRecords.matched_items.
  destruct (HistoricalRecords.find_field_names _ _ _) as [src tgt]. cbn [fst snd] in H.
  destruct src as [src|]; [|done].
  destruct H as [|[-> (pk & pks & ->)]]; done.
Qed.

Lemma m2m_changed_unresolved_raises_witness :
  HistoricalRecords.m2m_changed records "post_add" (person 1)
    (friendships [friendship 10 1 5]) "Person" (Some [VInt 5]) empty_store
  = (Raise TypeError, empty_store).
Proof.
  apply (m2m_changed_unresolved_raises records "post_add" (person 1)
           (friendships [friendship 10 1 5]) "Person" (Some [VInt 5]) empty_store).
  left. vm_compute; reflexivity.
Defined.

(** C4 as worded fails: for a relation of a model to itself both foreign
    keys of the join model are taken for the target side, the owner side
    stays undetermined, and the handler does not return: the error reaches
    the caller.  And where only the target side stays undetermined and no
    ids are given, as for [pre_clear], the handler records rows. *)
Lemma unresolved_sides_not_silent :
  (HistoricalRecords.find_field_names (through_dict (friendships [friendship 10 1 5]))
     "Person" (model_name (inst_model (person 1))) = (None, Some "to_person")
   ∧ ¬ aborts_silently records "post_add" (person 1)
         (friendships [friendship 10 1 5]) "Person" (Some [VInt 5]) empty_store)
  ∧ (HistoricalRecords.find_field_names
       (through_dict (memberships [membership 10 1 5; membership 11 1 6]))
       "Customer" (model_name (inst_model (team 1))) = (Some "team", None)
     ∧ ¬ aborts_silently records "pre_clear" (team 1)
           (memberships [membership 10 1 5; membership 11 1 6]) "Customer" None
           empty_store).
Proof.
  split; (split; [vm_compute; reflexivity|]);
    unfold aborts_silently; vm_compute; discriminate.
Qed.

(** ** Retrieval order *)

(** C9: the historical model's default ordering is descending timestamp, then
    descending sequence id: a row comes before another exactly when it is
    newer, or as old with a larger id, and two rows tie only when they agree
    on both. *)
Theorem default_ordering_is_reverse_chronological self model a b :
  let keys := ordering (HistoricalRecords.get_meta_options self model) in
  keys = ["-history_date"; "-history_id"]
  ∧ (order_by keys a b = Lt ↔
       (history_date b < history_date a
        ∨ (history_date a = history_date b ∧ history_id b < history_id a))%Z)
  ∧ (order_by keys a b = Eq ↔
       history_date a = history_date b ∧ history_id a = history_id b).
Proof.
  cbn zeta. cbn [HistoricalRecords.get_meta_options ordering].
  split; [done|].
  cbn [order_by]. unfold column_compare, row_getattr. cbn.
  destruct (Z.compare_spec (history_date a) (history_date b)) as [Hd|Hd|Hd];
    destruct (Z.compare_spec (history_id a) (history_id b)) as [Hi|Hi|Hi];
    cbn; split; split; try done; try lia; intros; try lia.
Qed.

(** ** The reconstructor *)












(** ** Running the heap primitives

    The lemmas keep the heap in the form [<[l := o]> h], the object under
    the reference first. *)
Section Run.
Context (h : heap) (l : loc) (o : object).

Lemma deref_run : Py.deref (VRef l) (<[l := o]> h) = (Ret o, <[l := o]> h).
Proof. unfold Py.deref. by rewrite lookup_insert_eq. Qed.

Lemma getattr_run k x :
  odict o !! k = Some x →
  Py.getattr (VRef l) k (<[l := o]> h) = (Ret x, <[l := o]> h).
Proof.
  intros Hk. unfold Py.getattr. erewrite bind_ret; [|apply deref_run].
  by rewrite Hk.
Qed.

Lemma getattr_fail k :
  odict o !! k = None →
  Py.getattr (VRef l) k (<[l := o]> h) = (Raise AttributeError, <[l := o]> h).
Proof.
  intros Hk. unfold Py.getattr. erewrite bind_ret; [|apply deref_run].
  by rewrite Hk.
Qed.

Lemma setattr_run k x :
  Py.setattr (VRef l) k x (<[l := o]> h)
  = (Ret tt, <[l := Obj (ocls o) (<[k := x]> (odict o))]> h).
Proof.
  unfold Py.setattr. erewrite bind_ret; [|apply deref_run].
  unfold Py.store. by rewrite insert_insert_eq.
Qed.

Lemma type_of_run : Py.type_of (VRef l) (<[l := o]> h) = (Ret (ocls o), <[l := o]> h).
Proof. unfold Py.type_of. by erewrite bind_ret; [|apply deref_run]. Qed.

Lemma set_class_run c :
  Py.set_class (VRef l) c (<[l := o]> h) = (Ret tt, <[l := Obj c (odict o)]> h).
Proof.
  unfold Py.set_class. erewrite bind_ret; [|apply deref_run].
  unfold Py.store. by rewrite insert_insert_eq.
Qed.

End Run.

(** ** The field transformer *)

Lemma issubclass_custom p d :
  d ≠ ForeignKeyMixin → (∀ q, d ≠ CustomForeignKey q) →
  issubclass (CustomForeignKey p) d = issubclass p d.
Proof.
  intros H1 H2. unfold issubclass. cbn [mro]. apply bool_decide_ext.
  rewrite !elem_of_cons. split; [|by auto].
  intros [->|[->|?]]; [by destruct (H2 p)|done|done].
Qed.

Lemma issubclass_Auto_File c :
  issubclass c AutoField = true → issubclass c FileField = false.
Proof.
  induction c; try (vm_compute; congruence).
  rewrite !issubclass_custom by done. exact IHc.
Qed.

(** [transform_field] on a prepared field object returns and leaves
    [transformed o] under the reference. *)
Lemma transform_field_run h l o :
  is_field o →
  transform_field (VRef l) (<[l := o]> h) = (Ret tt, <[l := transformed o]> h).
Proof.
  intros ([a Ha] & [p Hp] & [u Hu]). unfold transform_field.
  erewrite bind_ret; [|by apply getattr_run].
  erewrite bind_ret; [|by apply setattr_run].
  erewrite bind_ret; [|by apply type_of_run].
  cbn [ocls odict].
  set (c := if issubclass (ocls o) AutoField then IntegerField
            else if issubclass (ocls o) FileField then TextField else ocls o).
  erewrite bind_ret with (s' := <[l := Obj c (<["name" := a]> (odict o))]> h); last first.
  { subst c. destruct (issubclass (ocls o) AutoField); [by rewrite set_class_run|].
    destruct (issubclass (ocls o) FileField); [by rewrite set_class_run|].
    unfold ret. by destruct o. }
  erewrite bind_ret; [|by apply setattr_run].
  erewrite bind_ret; [|by apply setattr_run].
  cbn [ocls odict].
  erewrite bind_ret; last first.
  { apply getattr_run. cbn [odict]. by rewrite !lookup_insert_ne. }
  unfold transformed. rewrite Ha, Hp, Hu. cbn [default from_option]. unfold id. subst c.
  destruct (truthy p) eqn:Htp.
  - erewrite bind_ret; [|reflexivity]. cbn [when orb].
    erewrite bind_ret; [|by apply setattr_run].
    erewrite bind_ret; [|by apply setattr_run].
    erewrite bind_ret; [|by apply setattr_run].
    rewrite setattr_run. by cbn [ocls odict].
  - erewrite bind_ret with (a := truthy u); last first.
    { unfold bind at 1. unfold get_unique.
      erewrite bind_ret; last first.
      { apply getattr_run. cbn [odict]. by rewrite !lookup_insert_ne. }
      destruct (truthy u) eqn:Htu.
      - unfold ret. by rewrite Htu.
      - rewrite (getattr_run _ _ _ "primary_key" p); [|cbn [odict]; by rewrite !lookup_insert_ne].
        by rewrite Htp. }
    cbn [orb]. destruct (truthy u); cbn [when]; [|done].
    erewrite bind_ret; [|by apply setattr_run].
    erewrite bind_ret; [|by apply setattr_run].
    erewrite bind_ret; [|by apply setattr_run].
    rewrite setattr_run. by cbn [ocls odict].
Qed.

Ltac dict_lookup :=
  repeat first [rewrite lookup_insert_eq | rewrite lookup_insert_ne by done].

(** C6: [transform_field] turns an auto-incrementing column into a plain
    integer column and a file column into a text column, switches both
    automatic timestamps off, and takes the primary-key and unique
    constraints from a column that had one, which is indexed instead. *)
Theorem transform_field_downgrades h l o :
  h !! l = Some o →
  is_field o →
  ∃ o',
    transform_field (VRef l) h = (Ret tt, <[l := o']> h)
    ∧ (isinstance o AutoField = true → ocls o' = IntegerField)
    ∧ (isinstance o FileField = true → ocls o' = TextField)
    ∧ odict o' !! "auto_now" = Some (VBool false)
    ∧ odict o' !! "auto_now_add" = Some (VBool false)
    ∧ (truthy (default VNone (odict o !! "primary_key")) = true
       ∨ truthy (default VNone (odict o !! "_unique")) = true →
       odict o' !! "primary_key" = Some (VBool false)
       ∧ odict o' !! "_unique" = Some (VBool false)
       ∧ odict o' !! "db_index" = Some (VBool true)
       ∧ (get_unique (VRef l) (<[l := o']> h)).1 = Ret (VBool false)).
Proof.
  intros Hl Hf. exists (transformed o). split.
  { rewrite <- (insert_id h l o) at 1 by done. by apply transform_field_run. }
  unfold isinstance, transformed. cbn [ocls odict].
  split; [by intros ->|]. split.
  { intros Hfile. destruct (issubclass (ocls o) AutoField) eqn:Hauto.
    - apply issubclass_Auto_File in Hauto. congruence.
    - by rewrite Hfile. }
  split. { destruct (_ || _); by dict_lookup. }
  split. { destruct (_ || _); by dict_lookup. }
  intros Hc. assert (truthy (default VNone (odict o !! "primary_key"))
                     || truthy (default VNone (odict o !! "_unique")) = true) as ->.
  { destruct Hc as [-> | ->]; [done|by rewrite orb_true_r]. }
  repeat split.
  - by dict_lookup.
  - by dict_lookup.
  - by dict_lookup.
  - unfold get_unique. erewrite bind_ret; last first.
    { apply getattr_run. cbn [odict]. by dict_lookup. }
    cbn [truthy]. erewrite getattr_run; [done|]. cbn [odict].
    by dict_lookup.
Qed.

Lemma transform_field_downgrades_witness :
  ∃ o',
    transform_field (VRef 1) shop_heap = (Ret tt, <[1%nat := o']> shop_heap)
    ∧ ocls o' = IntegerField
    ∧ odict o' !! "auto_now" = Some (VBool false)
    ∧ odict o' !! "primary_key" = Some (VBool false)
    ∧ odict o' !! "_unique" = Some (VBool false)
    ∧ odict o' !! "db_index" = Some (VBool true).
Proof.
  destruct (transform_field_downgrades shop_heap 1
              (field_obj AutoField "id" "id" true false VNone))
    as (o' & Hrun & Hauto & _ & Hnow & _ & Hkey).
  - vm_compute; reflexivity.
  - repeat split; eexists; vm_compute; reflexivity.
  - exists o'. split; [exact Hrun|]. split; [apply Hauto; vm_compute; reflexivity|].
    split; [exact Hnow|].
    destruct Hkey as (Hpk & Huniq & Hindex & _); [left; vm_compute; reflexivity|].
    repeat split; assumption.
Defined.

(** ** Frame reasoning *)

Section Frame.
Variable h0 : heap.

Lemma keeps_bind {A B} P (m : St heap A) R (f : A → St heap B) Q :
  keeps h0 P m R → (∀ a, keeps h0 (R a) (f a) Q) → keeps h0 P (bind m f) Q.
Proof.
  intros Hm Hf h Hsub HP. unfold bind.
  destruct (Hm h Hsub HP) as [H1 H2].
  destruct (m h) as [[a|e|] h'] eqn:E; cbn in *.
  - apply Hf; auto.
  - split; [done|]. by intros ? [=].
  - split; [done|]. by intros ? [=].
Qed.

Lemma keeps_conseq {A} (P P' : heap → Prop) (m : St heap A) (R R' : A → heap → Prop) :
  keeps h0 P' m R' → (∀ h, P h → P' h) → (∀ a h, R' a h → R a h) → keeps h0 P m R.
Proof.
  intros Hm HP HR h Hsub Hh. destruct (Hm h Hsub (HP h Hh)) as [H1 H2].
  split; [done|]. intros a Ha. by apply HR, H2.
Qed.

Lemma keeps_ret {A} (P : heap → Prop) (a : A) (R : A → heap → Prop) :
  (∀ h, P h → R a h) → keeps h0 P (ret a) R.
Proof. intros HR h Hsub HP. cbn. split; [done|]. intros ? [= <-]. by apply HR. Qed.

Lemma keeps_post {A} (P : heap → Prop) (m : St heap A) (R R' : A → heap → Prop) :
  keeps h0 P m R' → (∀ a h, R' a h → R a h) → keeps h0 P m R.
Proof. intros Hm HR. eapply keeps_conseq; [exact Hm| |exact HR]. auto. Qed.

Lemma keeps_raise {A} P e (R : A → heap → Prop) : keeps h0 P (raise e) R.
Proof. intros h Hsub HP. cbn. split; [done|]. by intros ? [=]. Qed.

Lemma keeps_out_of_fuel {A} P (R : A → heap → Prop) : keeps h0 P (λ h, (OutOfFuel, h)) R.
Proof. intros h Hsub HP. cbn. split; [done|]. by intros ? [=]. Qed.

(** Reading leaves the heap as it is. *)
Lemma keeps_deref P v :
  keeps h0 P (Py.deref v) (λ o h, P h ∧ ∃ l, v = VRef l ∧ h !! l = Some o).
Proof.
  intros h Hsub HP. unfold Py.deref.
  destruct v as [| | | |l|]; try (split; [done|]; by intros ? [=]).
  destruct (h !! l) as [o|] eqn:E; cbn; (split; [done|]); intros ? [=]. subst. eauto.
Qed.

Lemma keeps_getattr P v k :
  keeps h0 P (Py.getattr v k)
    (λ x h, P h ∧ ∃ l o, v = VRef l ∧ h !! l = Some o ∧ odict o !! k = Some x).
Proof.
  unfold Py.getattr. eapply keeps_bind; [apply keeps_deref|].
  intros o. cbn beta. destruct (odict o !! k) as [x|] eqn:E.
  - apply keeps_ret. intros h [HP (l & -> & Hl)]. split; [done|]. eauto.
  - apply keeps_raise.
Qed.

Lemma keeps_type_of P v :
  keeps h0 P (Py.type_of v) (λ _ h, P h).
Proof.
  unfold Py.type_of. eapply keeps_bind; [apply keeps_deref|].
  intros o. apply keeps_ret. by intros h [HP _].
Qed.

(** Writing to an object that is not one of [h0] keeps [h0]. *)
Lemma keeps_store P v o :
  private h0 v →
  keeps h0 P (Py.store v o)
    (λ _ h', ∃ h l, P h ∧ v = VRef l ∧ h' = <[l := o]> h).
Proof.
  intros Hv h Hsub HP. unfold Py.store.
  destruct v as [| | | |l|]; try (split; [done|]; by intros ? [=]).
  cbn in *. split; [by apply insert_subseteq_r|]. intros _ _. eauto.
Qed.

Lemma keeps_setattr P v k x :
  private h0 v →
  keeps h0 P (Py.setattr v k x)
    (λ _ h', ∃ h l o, P h ∧ v = VRef l ∧ h !! l = Some o
                      ∧ h' = <[l := Obj (ocls o) (<[k := x]> (odict o))]> h).
Proof.
  intros Hv. unfold Py.setattr. eapply keeps_bind; [apply keeps_deref|].
  intros o. eapply keeps_post; [by apply keeps_store|].
  cbn beta. intros _ h' (h & l & [HP (l' & -> & Hl)] & [= <-] & ->). eauto 10.
Qed.

Lemma keeps_set_class P v c :
  private h0 v →
  keeps h0 P (Py.set_class v c)
    (λ _ h', ∃ h l o, P h ∧ v = VRef l ∧ h !! l = Some o
                      ∧ h' = <[l := Obj c (odict o)]> h).
Proof.
  intros Hv. unfold Py.set_class. eapply keeps_bind; [apply keeps_deref|].
  intros o. eapply keeps_post; [by apply keeps_store|].
  cbn beta. intros _ h' (h & l & [HP (l' & -> & Hl)] & [= <-] & ->). eauto 10.
Qed.

(** A new object is not one of [h0]. *)
Lemma keeps_alloc P o :
  keeps h0 P (Py.alloc o)
    (λ v h', private h0 v ∧ ∃ h l, P h ∧ v = VRef l ∧ h !! l = None ∧ h' = <[l := o]> h).
Proof.
  intros h Hsub HP. unfold Py.alloc. cbn.
  assert (h !! fresh (dom h) = None) as Hfresh.
  { apply not_elem_of_dom, is_fresh. }
  assert (h0 !! fresh (dom h) = None) as Hfresh0.
  { by eapply lookup_weaken_None. }
  split; [by apply insert_subseteq_r|].
  intros ? [= <-]. split; [done|]. eauto 10.
Qed.

Lemma keeps_copy_copy P v :
  keeps h0 P (Py.copy_copy v) (λ v' _, private h0 v').
Proof.
  unfold Py.copy_copy. destruct v as [| | | |l|]; try (by apply keeps_ret).
  eapply keeps_bind; [apply keeps_deref|]. intros o.
  eapply keeps_post; [apply keeps_alloc|]. by intros v' h' [? _].
Qed.

Lemma keeps_pure {A} (P : heap → Prop) (φ : Prop) (m : St heap A) R :
  (∀ h, P h → φ) → (φ → keeps h0 (λ _, True) m R) → keeps h0 P m R.
Proof. intros HP Hm h Hsub Hh. apply Hm; eauto. Qed.

Lemma keeps_true {A} P (m : St heap A) (R : A → heap → Prop) :
  keeps h0 P m R → keeps h0 P m (λ _ _, True).
Proof. intros Hm. eapply keeps_post; [exact Hm|done]. Qed.

Lemma keeps_seq {A B} P (m : St heap A) R (k : St heap B) Q :
  keeps h0 P m R → keeps h0 (λ _, True) k Q → keeps h0 P (m ;;; k) Q.
Proof.
  intros Hm Hk. eapply keeps_bind; [exact Hm|]. intros a.
  eapply keeps_conseq; [exact Hk|done|done].
Qed.

Lemma keeps_get_unique P v : keeps h0 P (get_unique v) (λ _ _, True).
Proof.
  unfold get_unique. eapply keeps_bind; [apply keeps_getattr|]. intros u.
  destruct (truthy u); [by apply keeps_ret|].
  eapply keeps_true, keeps_getattr.
Qed.

(** [transform_field] writes to its argument only. *)
Lemma keeps_transform_field P v :
  private h0 v → keeps h0 P (transform_field v) (λ _ _, True).
Proof.
  intros Hv. unfold transform_field.
  eapply keeps_bind; [apply keeps_getattr|]. intros attname.
  eapply keeps_seq; [by apply keeps_setattr|].
  eapply keeps_bind; [apply keeps_type_of|]. intros c.
  eapply keeps_seq with (R := λ _ _, True).
  { destruct (issubclass c AutoField); [eapply keeps_true; by apply keeps_set_class|].
    destruct (issubclass c FileField); [eapply keeps_true; by apply keeps_set_class|].
    by apply keeps_ret. }
  eapply keeps_seq; [by apply keeps_setattr|].
  eapply keeps_seq; [by apply keeps_setattr|].
  eapply keeps_bind; [apply keeps_getattr|]. intros pk.
  eapply keeps_bind with (R := λ _ _, True).
  { destruct (truthy pk); [by apply keeps_ret|].
    eapply keeps_bind; [apply keeps_get_unique|]. intros u. by apply keeps_ret. }
  intros [|]; cbn [when]; [|by apply keeps_ret].
  eapply keeps_seq; [by apply keeps_setattr|].
  eapply keeps_seq; [by apply keeps_setattr|].
  eapply keeps_seq; [by apply keeps_setattr|].
  eapply keeps_true. by apply keeps_setattr.
Qed.

Lemma keeps_for_fold {A B} (Inv : B → Prop) (l : list A) (body : B → A → St heap B) acc :
  (∀ acc x, Inv acc → keeps h0 (λ _, True) (body acc x) (λ acc' _, Inv acc')) →
  Inv acc →
  keeps h0 (λ _, True) (for_fold l body acc) (λ acc' _, Inv acc').
Proof.
  intros Hbody. revert acc. induction l as [|x l IH]; intros acc Hacc; cbn [for_fold].
  - by apply keeps_ret.
  - eapply keeps_bind; [by apply Hbody|]. intros acc'. cbn beta.
    intros h Hsub Hinv. by apply IH.
Qed.

Lemma keeps_for_each {A} (l : list A) (body : A → St heap unit) :
  (∀ x, keeps h0 (λ _, True) (body x) (λ _ _, True)) →
  keeps h0 (λ _, True) (for_each l body) (λ _ _, True).
Proof.
  intros Hbody. induction l as [|x l IH]; cbn [for_each].
  - by apply keeps_ret.
  - eapply keeps_seq; [apply Hbody|apply IH].
Qed.

Lemma keeps_copy_fields models model :
  keeps h0 (λ _, True) (HistoricalRecords.copy_fields models model) (λ d _, copies h0 d).
Proof.
  unfold HistoricalRecords.copy_fields.
  eapply keeps_bind with (R := λ _ _, True).
  { unfold meta_of. destruct model; try apply keeps_raise.
    destruct (models !! m); [by apply keeps_ret|apply keeps_raise]. }
  intros opts. apply keeps_for_fold; [|by intros ? ? ?].
  intros fields field Hfields.
  eapply keeps_bind; [apply keeps_copy_copy|]. intros field'.
  apply (keeps_pure _ (private h0 field')); [done|]. intros Hfield'.
  eapply keeps_bind; [apply keeps_getattr|]. intros rel.
  eapply keeps_bind; [apply keeps_copy_copy|]. intros rel'.
  apply (keeps_pure _ (private h0 rel')); [done|]. intros Hrel'.
  set (rel_is := λ h : heap, ∀ l o x, field' = VRef l → h !! l = Some o →
                               odict o !! "rel" = Some x → x = rel').
  eapply keeps_bind with (R := λ _ h, rel_is h).
  { eapply keeps_post; [by apply keeps_setattr|].
    intros _ h' (h & l & o & _ & -> & Hl & ->). intros l' o' x [= <-].
    rewrite lookup_insert_eq. intros [= <-]. cbn [odict].
    rewrite lookup_insert_eq. by intros [= <-]. }
  intros _. eapply keeps_bind; [apply keeps_type_of|]. intros c.
  eapply keeps_seq with (R := λ _ _, True).
  { destruct (issubclass c ForeignKey); cbn [when]; [|by apply keeps_ret].
    eapply keeps_bind with (R := λ _ h, rel_is h).
    { eapply keeps_post; [by apply keeps_set_class|].
      intros _ h' (h & l & o & Hh & -> & Hl & ->). intros l' o' x [= <-].
      rewrite lookup_insert_eq. intros [= <-]. cbn [odict]. intros Hx.
      by eapply Hh. }
    intros _. eapply keeps_bind; [apply keeps_getattr|]. intros r.
    apply (keeps_pure _ (r = rel')).
    { intros h [Hh (l & o & -> & Hl & Hr)]. by eapply Hh. }
    intros ->.
    eapply keeps_seq; [by apply keeps_setattr|].
    eapply keeps_seq; [by apply keeps_setattr|].
    eapply keeps_true. by apply keeps_setattr. }
  eapply keeps_seq; [by apply keeps_transform_field|].
  eapply keeps_bind; [apply keeps_getattr|]. intros name.
  destruct name; try apply keeps_raise.
  apply keeps_ret. intros h [_ (l & o & -> & _)].
  intros name v. destruct (decide (s = name)) as [->|Hne].
  - rewrite lookup_insert_eq. intros [= <-]. eauto.
  - rewrite lookup_insert_ne by done. apply Hfields.
Qed.

Lemma keeps_meta_of P models cls :
  keeps h0 P (meta_of models cls) (λ _ h, P h).
Proof.
  unfold meta_of. destruct cls; try apply keeps_raise.
  destruct (models !! m); [by apply keeps_ret|apply keeps_raise].
Qed.

Lemma keeps_rel_to P v : keeps h0 P (rel_to v) (λ _ h, P h).
Proof.
  unfold rel_to. eapply keeps_bind; [apply keeps_getattr|]. intros rel.
  eapply keeps_post; [apply keeps_getattr|]. by intros ? ? [[? _] _].
Qed.

Lemma keeps_ForeignKey_init P c to :
  keeps h0 P (ForeignKey_init c to) (λ v _, private h0 v).
Proof.
  unfold ForeignKey_init. eapply keeps_bind; [apply keeps_alloc|]. intros rel.
  eapply keeps_post; [apply keeps_alloc|]. by intros ? ? [? _].
Qed.

Lemma keeps_setattrs (p : string → bool) v (kvs : list (string * value)) :
  private h0 v →
  keeps h0 (λ _, True)
    (for_each kvs (λ '(key, val), when (p key) (Py.setattr v key val)))
    (λ _ _, True).
Proof.
  intros Hv. apply keeps_for_each. intros [key val].
  destruct (p key); cbn [when]; [|by apply keeps_ret].
  eapply keeps_true. by apply keeps_setattr.
Qed.

(** [get_field] writes to its argument and to objects it creates, and
    returns one of them. *)
Lemma keeps_get_field models fuel self other cls :
  private h0 self →
  keeps h0 (λ _, True) (ForeignKeyMixin.get_field models fuel self other cls)
    (λ v _, private h0 v).
Proof.
  revert self cls. induction fuel as [|fuel IH]; intros self cls Hself;
    cbn [ForeignKeyMixin.get_field].
  - apply keeps_out_of_fuel.
  - eapply keeps_bind; [apply keeps_rel_to|]. intros to.
    eapply keeps_bind; [apply keeps_meta_of|]. intros opts.
    eapply keeps_bind; [apply keeps_copy_copy|]. intros to_field.
    apply (keeps_pure _ (private h0 to_field)); [done|]. intros Hto_field.
    eapply keeps_bind; [apply keeps_type_of|]. intros c.
    destruct (issubclass c OneToOneField).
    + unfold ForeignKeyMixin.get_one_to_one_field_rec.
      eapply keeps_bind; [apply keeps_type_of|]. intros c'.
      eapply keeps_bind; [apply keeps_rel_to|]. intros to'.
      eapply keeps_bind; [apply keeps_meta_of|]. intros opts'.
      eapply keeps_bind; [apply keeps_ForeignKey_init|]. intros temp_field.
      apply (keeps_pure _ (private h0 temp_field)); [done|]. intros Htemp.
      eapply keeps_bind; [apply keeps_deref|]. intros o.
      eapply keeps_seq with (R := λ _ _, True).
      { eapply keeps_conseq; [by apply (keeps_setattrs (λ key, negb (String.prefix "_" key)))|done|done]. }
      eapply keeps_bind; [apply keeps_rel_to|]. intros to''.
      by apply IH.
    + destruct (issubclass c AutoField).
      * eapply keeps_seq; [by apply keeps_set_class|]. by apply keeps_ret.
      * eapply keeps_seq; [by apply keeps_set_class|].
        eapply keeps_bind; [apply keeps_deref|]. intros o.
        eapply keeps_seq with (R := λ _ _, True).
        { eapply keeps_conseq;
            [by apply (keeps_setattrs
                         (λ key, negb (ForeignKeyMixin.startswith_excluded_prefixes key)
                                 && negb (bool_decide (key ∈ ForeignKeyMixin.excluded_attributes))))
            |done|done]. }
        by apply keeps_ret.
Qed.

Lemma keeps_do_related_class models fuel self other cls :
  private h0 self →
  keeps h0 (λ _, True) (ForeignKeyMixin.do_related_class models fuel self other cls)
    (λ _ _, True).
Proof.
  intros Hself. unfold ForeignKeyMixin.do_related_class.
  eapply keeps_bind; [by apply keeps_get_field|]. intros field.
  apply (keeps_pure _ (private h0 field)); [done|]. intros Hfield.
  eapply keeps_seq; [by apply keeps_transform_field|].
  eapply keeps_true. by apply keeps_setattr.
Qed.

End Frame.

(** Downgrading a copied foreign key later on, when the historical model is
    prepared, keeps the source objects as well. *)
Lemma do_related_class_keeps_source models fuel h0 h l other cls :
  h0 ⊆ h → h0 !! l = None →
  h0 ⊆ (ForeignKeyMixin.do_related_class models fuel (VRef l) other cls h).2.
Proof.
  intros Hsub Hl.
  by destruct (keeps_do_related_class h0 models fuel (VRef l) other cls Hl h Hsub I).
Qed.

(** C8: whatever its outcome, [copy_fields] leaves every object that was on
    the heap before the call, the columns of the source model and their
    relation objects among them, exactly as it was; the columns it returns
    are objects that did not exist before. *)
Theorem copy_fields_keeps_source models model h :
  (∀ l o, h !! l = Some o →
          (HistoricalRecords.copy_fields models model h).2 !! l = Some o)
  ∧ (∀ fields name v,
       (HistoricalRecords.copy_fields models model h).1 = Ret fields →
       fields !! name = Some v →
       ∃ l, v = VRef l ∧ h !! l = None).
Proof.
  destruct (keeps_copy_fields h models model h) as [Hsub Hret]; [done..|].
  split.
  - intros l o Hl. by eapply lookup_weaken.
  - intros fields name v Hfields. by apply Hret.
Qed.

Lemma copy_fields_keeps_source_witness :
  (HistoricalRecords.copy_fields shop_models (VModel "Widget") shop_heap).2 !! 3%nat
  = Some (field_obj ForeignKey "owner" "owner_id" false false (VRef 4)).
Proof.
  apply (proj1 (copy_fields_keeps_source shop_models (VModel "Widget") shop_heap)).
  vm_compute; reflexivity.
Defined.

(** ** The foreign key downgrader *)

Lemma fresh_lookup (h : heap) : h !! fresh (dom h) = None.
Proof. apply not_elem_of_dom, is_fresh. Qed.

Section Lookup.
Context (h : heap) (l : loc) (o : object) (Hl : h !! l = Some o).

Lemma deref_ok : Py.deref (VRef l) h = (Ret o, h).
Proof using Hl. unfold Py.deref. by rewrite Hl. Qed.

Lemma getattr_ok k x :
  odict o !! k = Some x → Py.getattr (VRef l) k h = (Ret x, h).
Proof using Hl.
  intros Hk. rewrite <- (insert_id h l o Hl). by apply getattr_run.
Qed.

Lemma type_of_ok : Py.type_of (VRef l) h = (Ret (ocls o), h).
Proof using Hl. rewrite <- (insert_id h l o Hl). by apply type_of_run. Qed.

Lemma set_class_ok c :
  Py.set_class (VRef l) c h = (Ret tt, <[l := Obj c (odict o)]> h).
Proof using Hl. rewrite <- (insert_id h l o Hl) at 1. by apply set_class_run. Qed.

Lemma copy_copy_ok :
  Py.copy_copy (VRef l) h = (Ret (VRef (fresh (dom h))), <[fresh (dom h) := o]> h).
Proof using Hl. unfold Py.copy_copy. by erewrite bind_ret; [|apply deref_ok]. Qed.

End Lookup.

Lemma rel_to_ok h v m : points_to h v m → rel_to v h = (Ret (VModel m), h).
Proof.
  intros (l & o & r & ro & -> & Hl & Hrel & Hr & Hto). unfold rel_to.
  erewrite bind_ret; [|by eapply getattr_ok]. by eapply getattr_ok.
Qed.

Lemma points_to_weaken h h' v m : h ⊆ h' → points_to h v m → points_to h' v m.
Proof.
  intros Hsub (l & o & r & ro & -> & Hl & Hrel & Hr & Hto).
  exists l, o, r, ro. repeat split; try done; by eapply lookup_weaken.
Qed.

Lemma pk_chain_weaken models h h' m d :
  h ⊆ h' → pk_chain models h m d → pk_chain models h' m d.
Proof.
  intros Hsub Hchain. induction Hchain as [m opts l o Hm Hpk Hl Hc|m opts m' d Hm Hone Hto _ IH].
  - eapply pk_chain_end; eauto. by eapply lookup_weaken.
  - eapply pk_chain_step; eauto.
    + destruct Hone as (l & o & ? & ? & ?). exists l, o. repeat split; try done.
      by eapply lookup_weaken.
    + by eapply points_to_weaken.
Qed.

Lemma pk_chain_model models h m d :
  pk_chain models h m d → is_Some (models !! m).
Proof. by intros [? ? ? ? -> | ? ? ? ? ->]. Qed.

Lemma update_dict_cons p k v kvs d :
  update_dict p ((k, v) :: kvs) d = update_dict p kvs (if p k then <[k := v]> d else d).
Proof. reflexivity. Qed.

(** The loop that copies attributes onto a field. *)
Lemma setattrs_run (p : string → bool) l kvs h o :
  h !! l = Some o →
  for_each kvs (λ '(key, val), when (p key) (Py.setattr (VRef l) key val)) h
  = (Ret tt, <[l := Obj (ocls o) (update_dict p kvs (odict o))]> h).
Proof.
  revert h o. induction kvs as [|[k v] kvs IH]; intros h o Hl; cbn [for_each].
  - cbn. destruct o. by rewrite insert_id.
  - destruct (p k) eqn:Hp; cbn [when].
    + erewrite bind_ret; last first.
      { rewrite <- (insert_id h l o Hl) at 1. apply setattr_run. }
      erewrite IH by apply lookup_insert_eq.
      rewrite insert_insert_eq. cbn [ocls odict]. by rewrite update_dict_cons, Hp.
    + erewrite bind_ret; [|reflexivity]. erewrite IH by done.
      by rewrite update_dict_cons, Hp.
Qed.

Lemma update_dict_other p kvs d k :
  k ∉ kvs.*1 → update_dict p kvs d !! k = d !! k.
Proof.
  revert d. induction kvs as [|[k' v'] kvs IH]; intros d Hk; [done|].
  cbn in Hk. apply not_elem_of_cons in Hk as [Hne Hk].
  rewrite update_dict_cons, IH by done.
  destruct (p k'); [|done]. by rewrite lookup_insert_ne.
Qed.

Lemma update_dict_lookup p kvs d k v :
  NoDup kvs.*1 → (k, v) ∈ kvs → p k = true → update_dict p kvs d !! k = Some v.
Proof.
  revert d. induction kvs as [|[k' v'] kvs IH]; intros d Hnd Hin Hp.
  - by apply elem_of_nil in Hin.
  - cbn in Hnd. apply NoDup_cons in Hnd as [Hnotin Hnd].
    rewrite update_dict_cons.
    apply elem_of_cons in Hin as [[= <- <-]|Hin].
    + rewrite update_dict_other by done. rewrite Hp. apply lookup_insert_eq.
    + by apply IH.
Qed.

Lemma update_dict_items p (src d : gmap string value) k v :
  src !! k = Some v → p k = true → update_dict p (map_to_list src) d !! k = Some v.
Proof.
  intros Hk Hp. apply update_dict_lookup; [|by apply elem_of_map_to_list|done].
  apply NoDup_fst_map_to_list.
Qed.

Lemma meta_of_ok models m opts (h : heap) :
  models !! m = Some opts → meta_of models (VModel m) h = (Ret opts, h).
Proof. intros Hm. unfold meta_of. by rewrite Hm. Qed.

(** One call of [get_field] on a field that refers to a model whose primary
    key is a one-to-one column: it goes on with a new field, which refers to
    the model the primary key refers to, in a heap that extends the old one. *)
Lemma get_field_step models fuel self other cls h m opts m' :
  points_to h self m →
  models !! m = Some opts →
  (∃ l o, pk opts = VRef l ∧ h !! l = Some o
          ∧ issubclass (ocls o) OneToOneField = true) →
  points_to h (pk opts) m' →
  is_Some (models !! m') →
  ∃ temp_field h',
    ForeignKeyMixin.get_field models (S fuel) self other cls h
    = ForeignKeyMixin.get_field models fuel temp_field other (VModel m') h'
    ∧ h ⊆ h' ∧ points_to h' temp_field m'.
Proof.
  intros Hself Hm (l & o & Hpk & Hl & Hc) Hto [opts' Hm'].
  cbn [ForeignKeyMixin.get_field].
  pose proof Hself as (ls & so & r0 & ro0 & -> & Hls & _).
  pose proof Hto as (l' & o' & r & ro & Heq & Hl' & Hrel & Hr & Hto').
  rewrite Hpk in Heq. injection Heq as <-. rewrite Hl in Hl'. injection Hl' as <-.
  erewrite bind_ret; [|by apply rel_to_ok].
  erewrite bind_ret; [|by apply meta_of_ok].
  rewrite Hpk. erewrite bind_ret; [|by apply copy_copy_ok].
  set (lt := fresh (dom h)).
  assert (h !! lt = None) as Hlt by apply fresh_lookup.
  erewrite bind_ret; [|apply type_of_run]. rewrite Hc.
  unfold ForeignKeyMixin.get_one_to_one_field_rec.
  set (h1 := <[lt := o]> h).
  assert (h ⊆ h1) as Hsub1 by by apply insert_subseteq.
  assert (h1 !! lt = Some o) as Hlt1 by apply lookup_insert_eq.
  assert (points_to h1 (VRef lt) m') as Hto1.
  { exists lt, o, r, ro. repeat split; try done.
    eapply lookup_weaken; [exact Hr|exact Hsub1]. }
  erewrite bind_ret; [|eapply type_of_ok; eapply lookup_weaken; [exact Hls|exact Hsub1]].
  erewrite bind_ret; [|by apply rel_to_ok].
  erewrite bind_ret; [|by apply meta_of_ok].
  unfold ForeignKey_init at 1. unfold Py.alloc at 1 2.
  unfold bind at 2. unfold bind at 1.
  set (l2 := fresh (dom h1)).
  set (relobj := Obj _ _). set (h2 := <[l2 := relobj]> h1).
  set (l3 := fresh (dom h2)). set (fobj := Obj _ _). set (h3 := <[l3 := fobj]> h2).
  assert (h1 !! l2 = None) as Hl2 by apply fresh_lookup.
  assert (h2 !! l3 = None) as Hl3 by apply fresh_lookup.
  assert (h1 ⊆ h2) as Hsub2 by by apply insert_subseteq.
  assert (h2 ⊆ h3) as Hsub3 by by apply insert_subseteq.
  assert (h ⊆ h3) as Hsub by (etrans; [exact Hsub1|etrans; [exact Hsub2|exact Hsub3]]).
  assert (h3 !! lt = Some o) as Hlt3.
  { eapply lookup_weaken; [|exact Hsub3]. eapply lookup_weaken; [exact Hlt1|exact Hsub2]. }
  erewrite bind_ret; [|by eapply deref_ok].
  erewrite bind_ret; last first.
  { eapply setattrs_run with (p := λ key, negb (String.prefix "_" key)).
    apply lookup_insert_eq. }
  set (tobj := Obj _ _). set (h4 := <[l3 := tobj]> h3).
  assert (h !! l3 = None) as Hl3'.
  { eapply lookup_weaken_None; [exact Hl3|]. etrans; [exact Hsub1|exact Hsub2]. }
  assert (h ⊆ h4) as Hsub4.
  { unfold h4. apply insert_subseteq_r; [exact Hl3'|exact Hsub]. }
  assert (lt ≠ l3) as Hne3.
  { intros Heq.
    assert (h2 !! lt = Some o) as H2 by (eapply lookup_weaken; [exact Hlt1|exact Hsub2]).
    rewrite Heq in H2. congruence. }
  assert (points_to h4 (VRef lt) m') as Hto4.
  { exists lt, o, r, ro. repeat split; try done.
    - unfold h4. by rewrite lookup_insert_ne.
    - eapply lookup_weaken; [exact Hr|exact Hsub4]. }
  erewrite bind_ret; [|by apply rel_to_ok].
  exists (VRef l3), h4. split; [done|]. split; [done|].
  exists l3, tobj, r, ro. repeat split; try done.
  - apply lookup_insert_eq.
  - unfold tobj. cbn [odict]. by apply update_dict_items.
  - eapply lookup_weaken; [exact Hr|exact Hsub4].
Qed.

(** Along a chain of [d] one-to-one primary keys [get_field] calls itself
    [d] times: it returns when given more fuel than that, and not with less. *)
Lemma get_field_depth models d :
  ∀ fuel self other cls h m,
    points_to h self m → pk_chain models h m d →
    ∃ r h', ForeignKeyMixin.get_field models fuel self other cls h = (r, h')
            ∧ (d < fuel → ∃ v, r = Ret v)
            ∧ (fuel ≤ d → r = OutOfFuel).
Proof.
  induction d as [|d IH]; intros fuel self other cls h m Hself Hchain;
    (destruct fuel as [|fuel];
     [exists OutOfFuel, h; split; [done|split; [lia|done]]|]);
    inversion Hchain as [m1 opts l o Hm Hpk Hl Hc|m1 opts m' d' Hm Hone Hto Hrest]; subst.
  - (* the primary key is not a one-to-one column *)
    cbn [ForeignKeyMixin.get_field].
    pose proof Hself as (ls & so & r0 & ro0 & -> & Hls & _).
    erewrite bind_ret; [|by apply rel_to_ok].
    erewrite bind_ret; [|by apply meta_of_ok].
    rewrite Hpk. erewrite bind_ret; [|by apply copy_copy_ok].
    set (lt := fresh (dom h)).
    assert (h !! lt = None) as Hlt by apply fresh_lookup.
    assert (ls ≠ lt) as Hne by (intros ->; congruence).
    erewrite bind_ret; [|apply type_of_run]. rewrite Hc.
    assert (<[lt := o]> h !! ls = Some so) as Hls' by by rewrite lookup_insert_ne.
    destruct (issubclass (ocls o) AutoField).
    + erewrite bind_ret; [|by eapply set_class_ok].
      eexists _, _. split; [reflexivity|]. split; [eauto|lia].
    + erewrite bind_ret; [|by eapply set_class_ok].
      erewrite bind_ret; last first.
      { eapply deref_ok. rewrite lookup_insert_ne by done. apply lookup_insert_eq. }
      erewrite bind_ret; last first.
      { eapply setattrs_run with
          (p := λ key, negb (ForeignKeyMixin.startswith_excluded_prefixes key)
                       && negb (bool_decide (key ∈ ForeignKeyMixin.excluded_attributes))).
        apply lookup_insert_eq. }
      eexists _, _. split; [reflexivity|]. split; [eauto|lia].
  - (* the primary key is a one-to-one column: one step down the chain *)
    destruct (get_field_step models fuel self other cls h m opts m')
      as (temp_field & h1 & -> & Hsub & Htemp);
      [done|done|done|done|by eapply pk_chain_model|].
    destruct (IH fuel temp_field other (VModel m') h1 m' Htemp) as (res & h' & Hrun & Hret & Hout).
    { by eapply pk_chain_weaken. }
    exists res, h'. split; [exact Hrun|].
    split; intros ?; [apply Hret|apply Hout]; lia.
Qed.

(** Where the one-to-one primary keys form a cycle, no amount of fuel lets
    [get_field] return. *)
Lemma one_to_one_cycle_weaken models h h' M :
  h ⊆ h' → one_to_one_cycle models h M → one_to_one_cycle models h' M.
Proof.
  intros Hsub Hcyc m Hm. destruct (Hcyc m Hm) as (opts & m' & Hopts & (l & o & ? & ? & ?) & Hto & Hm').
  exists opts, m'. repeat split; try done.
  - exists l, o. repeat split; try done. by eapply lookup_weaken.
  - by eapply points_to_weaken.
Qed.

Lemma get_field_endless models M fuel :
  ∀ self other cls h m,
    one_to_one_cycle models h M → m ∈ M → points_to h self m →
    (ForeignKeyMixin.get_field models fuel self other cls h).1 = OutOfFuel.
Proof.
  induction fuel as [|fuel IH]; intros self other cls h m Hcyc Hm Hself; [done|].
  destruct (Hcyc m Hm) as (opts & m' & Hopts & Hone & Hto & Hm').
  destruct (get_field_step models fuel self other cls h m opts m')
    as (temp_field & h1 & -> & Hsub & Htemp); [done..| |].
  { destruct (Hcyc m' Hm') as (opts' & _ & -> & _). eauto. }
  eapply IH; [|exact Hm'|exact Htemp]. by eapply one_to_one_cycle_weaken.
Qed.

Lemma yin_yang_cycle : one_to_one_cycle yin_yang_models yin_yang_heap ["Yin"; "Yang"].
Proof.
  set (yang := field_obj OneToOneField "yang" "yang_id" true true (VRef 1)).
  set (yin := field_obj OneToOneField "yin" "yin_id" true true (VRef 3)).
  intros m Hm. apply elem_of_cons in Hm as [->|Hm];
    [|apply elem_of_cons in Hm as [->|Hm]; [|by apply elem_of_nil in Hm]].
  - exists (options "Yin" 0 [0]), "Yang". split; [|split; [|split]].
    + vm_compute; reflexivity.
    + exists 0, yang. repeat split; vm_compute; reflexivity.
    + exists 0, yang, 1, (rel_obj OneToOneRel "Yang").
      repeat split; vm_compute; reflexivity.
    + repeat constructor.
  - exists (options "Yang" 2 [2]), "Yin". split; [|split; [|split]].
    + vm_compute; reflexivity.
    + exists 2, yin. repeat split; vm_compute; reflexivity.
    + exists 2, yin, 3, (rel_obj OneToOneRel "Yin").
      repeat split; vm_compute; reflexivity.
    + repeat constructor.
Qed.

Lemma yin_points_to : points_to yin_yang_heap (VRef 4) "Yin".
Proof.
  exists 4, (field_obj (CustomForeignKey ForeignKey) "yin_id" "yin_id" false false (VRef 5)),
    5, (rel_obj ManyToOneRel "Yin").
  repeat split; vm_compute; reflexivity.
Qed.

Example get_field_endless_yin_yang fuel :
  (ForeignKeyMixin.get_field yin_yang_models fuel (VRef 4) VNone VNone yin_yang_heap).1
  = OutOfFuel.
Proof.
  apply (get_field_endless yin_yang_models ["Yin"; "Yang"] fuel _ _ _ _ "Yin").
  - exact yin_yang_cycle.
  - apply list_elem_of_here.
  - exact yin_points_to.
Qed.

(** C5: when the model a foreign key refers to reaches its own primary key
    through [d] one-to-one primary keys, [get_field] returns: the recursion
    through [get_one_to_one_field] is [d] calls deep and stops at the first
    primary key that is not a one-to-one column. *)
Theorem get_field_terminates models h self other cls m d :
  points_to h self m →
  pk_chain models h m d →
  (∀ fuel, d < fuel →
     ∃ v h', ForeignKeyMixin.get_field models fuel self other cls h = (Ret v, h'))
  ∧ (∀ fuel, fuel ≤ d →
     (ForeignKeyMixin.get_field models fuel self other cls h).1 = OutOfFuel).
Proof.
  intros Hself Hchain. split; intros fuel Hfuel;
    destruct (get_field_depth models d fuel self other cls h m Hself Hchain)
      as (r & h' & Hrun & Hret & Hout).
  - destruct (Hret Hfuel) as [v ->]. eauto.
  - rewrite Hrun. cbn. by apply Hout.
Qed.

(** The copy of [Waiter.bar] refers to [Bar], whose primary key is reached
    through two one-to-one primary keys. *)
Lemma waiter_bar_points_to : points_to waiter_heap (VRef 15) "Bar".
Proof. eexists 15, _, 16, _. repeat split; vm_compute; reflexivity. Qed.

Lemma bar_pk_chain : pk_chain shop_models waiter_heap "Bar" 2.
Proof.
  set (restaurant :=
         field_obj OneToOneField "restaurant" "restaurant_id" true true (VRef 10)).
  set (place := field_obj OneToOneField "place" "place_id" true true (VRef 8)).
  apply (pk_chain_step _ _ "Bar" (options "Bar" 9 [9]) "Restaurant");
    [vm_compute; reflexivity | | |].
  - exists 9, restaurant. repeat split; vm_compute; reflexivity.
  - exists 9, restaurant, 10, (rel_obj OneToOneRel "Restaurant").
    repeat split; vm_compute; reflexivity.
  - apply (pk_chain_step _ _ "Restaurant" (options "Restaurant" 7 [7]) "Place");
      [vm_compute; reflexivity | | |].
    + exists 7, place. repeat split; vm_compute; reflexivity.
    + exists 7, place, 8, (rel_obj OneToOneRel "Place").
      repeat split; vm_compute; reflexivity.
    + apply (pk_chain_end _ _ "Place" (options "Place" 6 [6]) 6
               (field_obj AutoField "id" "id" true false VNone));
        vm_compute; reflexivity.
Qed.

Lemma get_field_terminates_witness :
  ∃ v h', ForeignKeyMixin.get_field shop_models 3 (VRef 15) VNone VNone waiter_heap
          = (Ret v, h').
Proof.
  apply (proj1 (get_field_terminates shop_models waiter_heap (VRef 15) VNone VNone "Bar" 2
                  waiter_bar_points_to bar_pk_chain)).
  lia.
Defined.

(** ** The keys of the copied columns *)

Lemma copy_fields_unfold models model :
  HistoricalRecords.copy_fields models model
  = (opts <- meta_of models model ;; for_fold (fields opts) copy_fields_body ∅).
Proof. reflexivity. Qed.

Lemma transformed_name o a :
  odict o !! "attname" = Some a → odict (transformed o) !! "name" = Some a.
Proof.
  intros Ha. unfold transformed. cbn [odict]. rewrite Ha. cbn.
  destruct (_ || _); by dict_lookup.
Qed.

(** The end of the loop body, from [transform_field] on. *)
Lemma copy_fields_body_end h l o a (fields : gmap string value) :
  is_field o → odict o !! "attname" = Some (VStr a) →
  (transform_field (VRef l) ;;;
   name <- Py.getattr (VRef l) "name" ;;
   match name with
   | VStr name => ret (<[name := VRef l]> fields)
   | _ => raise TypeError
   end) (<[l := o]> h)
  = (Ret (<[a := VRef l]> fields), <[l := transformed o]> h).
Proof.
  intros Hf Ha.
  erewrite bind_ret; [|by apply transform_field_run].
  erewrite bind_ret; [|apply getattr_run; by apply transformed_name].
  done.
Qed.

Lemma copy_fields_body_run h acc field a :
  column_object h field a →
  ∃ l' h', copy_fields_body acc field h = (Ret (<[a := VRef l']> acc), h')
           ∧ h ⊆ h' ∧ h !! l' = None.
Proof.
  intros (l & o & rel & -> & Hl & Ha & Hpk & Hu & Hrel & Hrelobj).
  unfold copy_fields_body.
  erewrite bind_ret; [|by apply copy_copy_ok].
  set (l' := fresh (dom h)).
  assert (h !! l' = None) as Hl' by apply fresh_lookup.
  erewrite bind_ret; [|by apply getattr_run].
  assert ((∃ r, rel = VRef r) ∨ (∀ r, rel ≠ VRef r)) as [[r ->]|Hnoref].
  { destruct rel; eauto. }
  - (* the column has a relation object: it is copied too *)
    destruct Hrelobj as [ro Hr].
    assert (r ≠ l') as Hne by (intros ->; congruence).
    erewrite bind_ret; [|apply copy_copy_ok; by rewrite lookup_insert_ne].
    set (r' := fresh (dom (<[l' := o]> h))).
    assert (<[l' := o]> h !! r' = None) as Hr' by apply fresh_lookup.
    assert (l' ≠ r') as Hne'.
    { intros Heq. rewrite <- Heq, lookup_insert_eq in Hr'. done. }
    assert (h !! r' = None) as Hr'0 by by rewrite lookup_insert_ne in Hr'.
    rewrite (insert_insert_ne (K := loc)) by done.
    erewrite bind_ret; [|apply setattr_run].
    erewrite bind_ret; [|apply type_of_run]. cbn [ocls odict].
    destruct (issubclass (ocls o) ForeignKey); cbn [when].
    + erewrite bind_ret; last first.
      { erewrite bind_ret; [|apply set_class_run].
        erewrite bind_ret; [|apply getattr_run; cbn [odict]; apply lookup_insert_eq].
        rewrite (insert_insert_ne (K := loc)) by done.
        erewrite bind_ret; [|apply setattr_run].
        rewrite (insert_insert_ne (K := loc)) by done.
        erewrite bind_ret; [|apply setattr_run].
        apply setattr_run. }
      cbn [ocls odict].
      rewrite copy_fields_body_end with (a := a).
      * exists l'. eexists. split; [reflexivity|]. split; [|done].
        apply insert_subseteq_r; [done|]. by apply insert_subseteq.
      * repeat split; cbn [odict]; dict_lookup; eauto.
      * cbn [odict]. by dict_lookup.
    + erewrite bind_ret; [|reflexivity].
      rewrite copy_fields_body_end with (a := a).
      * exists l'. eexists. split; [reflexivity|]. split; [|done].
        apply insert_subseteq_r; [done|]. by apply insert_subseteq.
      * repeat split; cbn [odict]; dict_lookup; eauto.
      * cbn [odict]. by dict_lookup.
  - (* no relation object, and not a foreign key *)
    assert (Py.copy_copy rel (<[l' := o]> h) = (Ret rel, <[l' := o]> h)) as Hcopy.
    { destruct rel as [| | | |r|]; try done. by destruct (Hnoref r). }
    assert (issubclass (ocls o) ForeignKey = false) as Hfk.
    { destruct rel as [| | | |r|]; try done. by destruct (Hnoref r). }
    erewrite bind_ret; [|exact Hcopy].
    erewrite bind_ret; [|apply setattr_run].
    erewrite bind_ret; [|apply type_of_run]. cbn [ocls odict].
    rewrite Hfk. cbn [when].
    erewrite bind_ret; [|reflexivity].
    rewrite copy_fields_body_end with (a := a).
    + exists l'. eexists. split; [reflexivity|]. split; [|done].
      by apply insert_subseteq.
    + repeat split; cbn [odict]; dict_lookup; eauto.
    + cbn [odict]. by dict_lookup.
Qed.

Lemma column_object_weaken h h' v a :
  h ⊆ h' → column_object h v a → column_object h' v a.
Proof.
  intros Hsub (l & o & rel & -> & Hl & Ha & Hpk & Hu & Hrel & Hrelobj).
  exists l, o, rel. repeat split; try done.
  - by eapply lookup_weaken.
  - destruct rel as [| | | |r|]; try done. destruct Hrelobj as [ro Hr].
    exists ro. by eapply lookup_weaken.
Qed.

Lemma copy_fields_loop_run fs attns :
  ∀ h acc,
    Forall2 (column_object h) fs attns →
    ∃ d h', for_fold fs copy_fields_body acc h = (Ret d, h')
            ∧ h ⊆ h'
            ∧ ∀ k, is_Some (d !! k) ↔ k ∈ attns ∨ is_Some (acc !! k).
Proof.
  revert attns. induction fs as [|field fs IH]; intros attns h acc Hcols.
  - apply Forall2_nil_inv_l in Hcols as ->. exists acc, h. split; [done|].
    split; [done|]. intros k. rewrite elem_of_nil. tauto.
  - apply Forall2_cons_inv_l in Hcols as (a & attns' & Hcol & Hcols & ->).
    destruct (copy_fields_body_run h acc field a Hcol) as (l' & h1 & Hrun & Hsub & _).
    destruct (IH attns' h1 (<[a := VRef l']> acc)) as (d & h' & Hloop & Hsub' & Hkeys).
    { eapply Forall2_impl; [exact Hcols|]. intros v b. by apply column_object_weaken. }
    exists d, h'. cbn [for_fold]. erewrite bind_ret; [|exact Hrun].
    split; [exact Hloop|]. split; [by etrans|].
    intros k. rewrite Hkeys, elem_of_cons.
    destruct (decide (k = a)) as [->|Hne].
    + rewrite lookup_insert_eq. split; [auto|]. intros _. right. eauto.
    + rewrite lookup_insert_ne by done. tauto.
Qed.

(** On a model whose columns are prepared field objects, [copy_fields]
    returns, and the keys of the dictionary it returns are the attnames of
    the columns: the names [get_instance] goes through. *)
Lemma copy_fields_keys models m opts h attns :
  models !! m = Some opts →
  Forall2 (column_object h) (fields opts) attns →
  ∃ d h', HistoricalRecords.copy_fields models (VModel m) h = (Ret d, h')
          ∧ ∀ k, is_Some (d !! k) ↔ k ∈ attns.
Proof.
  intros Hm Hcols. rewrite copy_fields_unfold.
  erewrite bind_ret; [|by apply meta_of_ok].
  destruct (copy_fields_loop_run (fields opts) attns h ∅ Hcols) as (d & h' & Hrun & _ & Hkeys).
  exists d, h'. split; [exact Hrun|]. intros k. rewrite Hkeys, lookup_empty.
  split; [|auto]. intros [?|[? ?]]; done.
Qed.

Ltac column_object l o rel :=
  exists l, o, rel;
  split; [reflexivity|];
  split; [vm_compute; reflexivity|];
  split; [vm_compute; reflexivity|];
  split; [vm_compute; by eexists|];
  split; [vm_compute; by eexists|];
  split; [vm_compute; reflexivity|];
  vm_compute; first [reflexivity | by eexists].

Lemma widget_columns :
  Forall2 (column_object shop_heap) (fields (options "Widget" 1 [1; 2; 3; 5]))
    ["id"; "name"; "owner_id"; "photo"].
Proof.
  cbn [fields options fmap list_fmap].
  apply List.Forall2_cons.
  { column_object 1%nat (field_obj AutoField "id" "id" true false VNone) VNone. }
  apply List.Forall2_cons.
  { column_object 2%nat (field_obj CharField "name" "name" false true VNone) VNone. }
  apply List.Forall2_cons.
  { column_object 3%nat (field_obj ForeignKey "owner" "owner_id" false false (VRef 4))
      (VRef 4). }
  apply List.Forall2_cons.
  { column_object 5%nat (field_obj ImageField "photo" "photo" false false VNone) VNone. }
  apply List.Forall2_nil.
Qed.

Lemma widget_attnames_NoDup : NoDup ["id"; "name"; "owner_id"; "photo"].
Proof.
  repeat (apply NoDup_cons; split;
          [intros H; repeat (apply elem_of_cons in H as [H|H]; [discriminate H|]);
           by apply elem_of_nil in H|]).
  apply NoDup_nil_2.
Qed.

Example widget_copy_fields_keys :
  ∃ d h', HistoricalRecords.copy_fields shop_models (VModel "Widget") shop_heap = (Ret d, h')
          ∧ ∀ k, is_Some (d !! k) ↔ k ∈ ["id"; "name"; "owner_id"; "photo"].
Proof.
  apply (copy_fields_keys _ _ (options "Widget" 1 [1; 2; 3; 5])); [vm_compute; reflexivity|].
  exact widget_columns.
Qed.

(** ** Outcomes of the recorder *)

(** The loop of [create_historical_record] stops at the first column the
    instance has no value for. *)
Lemma snapshot_loop_fail i fs (acc : gmap string value) (st : Store) :
  ¬ Forall (λ a, is_Some (inst_dict i !! a)) (map fd_attname fs) →
  for_fold fs
    (λ attrs field,
       v <- inst_getattr i (fd_attname field) ;;
       ret (<[fd_attname field := v]> attrs)) acc st
  = (Raise AttributeError, st).
Proof.
  revert acc. induction fs as [|f fs IH]; intros acc Hno.
  - destruct Hno. constructor.
  - cbn [for_fold map] in *. destruct (inst_dict i !! fd_attname f) as [v|] eqn:Hv.
    + erewrite bind_ret; last first.
      { unfold bind, inst_getattr. rewrite Hv. reflexivity. }
      apply IH. intros Hall. apply Hno. constructor; [by rewrite Hv|done].
    + unfold bind, inst_getattr. by rewrite Hv.
Qed.

Lemma restrict_lookup_column ks (d : gmap string value) a :
  a ∈ ks → restrict ks d !! a = d !! a.
Proof. intros Ha. rewrite lookup_restrict. by rewrite decide_True. Qed.

(** Every way [create_historical_record] can end. *)
Lemma create_historical_record_cases self i type st :
  HistoricalRecords.create_historical_record self i type st
  = (Ret tt, insert_row (audit_row i type st) st)
  ∨ HistoricalRecords.create_historical_record self i type st = (Raise AttributeError, st)
  ∨ HistoricalRecords.create_historical_record self i type st = (Raise TypeError, st).
Proof.
  unfold HistoricalRecords.create_historical_record.
  case_bool_decide as Hm; [|by right; left].
  erewrite bind_ret; [|reflexivity].
  destruct (decide (Forall (λ a, is_Some (inst_dict i !! a))
                      (map fd_attname (meta_fields (inst_model i))))) as [Hall|Hno].
  - erewrite bind_ret; [|by apply snapshot_loop].
    rewrite (right_id_L ∅ (∪)). case_bool_decide; [by right; right|by left].
  - right; left. erewrite bind_raise; [done|]. by apply snapshot_loop_fail.
Qed.

Lemma appends_refl st : appends st st.
Proof. split; [done|]. exists []. by rewrite app_nil_r. Qed.

Lemma appends_trans st1 st2 st3 : appends st1 st2 → appends st2 st3 → appends st1 st3.
Proof.
  intros [Hn1 [new1 Hr1]] [Hn2 [new2 Hr2]]. split; [congruence|].
  exists (new1 ++ new2). by rewrite Hr2, Hr1, app_assoc.
Qed.

Lemma appends_create_historical_record self i type st :
  appends st (HistoricalRecords.create_historical_record self i type st).2.
Proof.
  destruct (create_historical_record_cases self i type st) as [->|[->| ->]];
    cbn [snd]; try apply appends_refl.
  split; [done|]. by eexists.
Qed.

Lemma appends_for_each_return {A} (body : A → St Store bool) items :
  (∀ x st, appends st (body x st).2) →
  ∀ st, appends st (for_each_return items body st).2.
Proof.
  intros Hbody. induction items as [|x items IH]; intros st; cbn [for_each_return].
  - apply appends_refl.
  - unfold bind. pose proof (Hbody x st) as Hx.
    destruct (body x st) as [[[|]|e|] st']; cbn [snd] in *; try done.
    eapply appends_trans; [exact Hx|apply IH].
Qed.



(** X2: [create_historical_record] raises [AttributeError] when the model of
    the instance carries no history descriptor under the name [self] was
    bound to, or when the instance lacks a value for one of its columns; with
    both in place it raises [TypeError] when a column goes by the name of
    [history_type] or [history_user], the keywords it passes itself.  In
    each case nothing is recorded. *)
Theorem create_historical_record_errors self i type st :
  let bound := simple_history_manager_attribute (inst_model i)
               = Some (HistoricalRecords.manager_name self) in
  let filled := Forall (λ a, is_Some (inst_dict i !! a)) (attnames (inst_model i)) in
  let clash := "history_type" ∈ attnames (inst_model i)
               ∨ "history_user" ∈ attnames (inst_model i) in
  (¬ bound ∨ ¬ filled →
   HistoricalRecords.create_historical_record self i type st = (Raise AttributeError, st))
  ∧ (bound → filled → clash →
     HistoricalRecords.create_historical_record self i type st = (Raise TypeError, st)).
Proof.
  cbn zeta. unfold HistoricalRecords.create_historical_record, attnames. split.
  - intros Hbad. case_bool_decide as Hm; [|done].
    destruct Hbad as [Hbad|Hbad]; [done|].
    erewrite bind_ret; [|reflexivity].
    erewrite bind_raise; [done|]. by apply snapshot_loop_fail.
  - intros Hm Hall Hclash. rewrite bool_decide_eq_true_2 by done.
    erewrite bind_ret; [|reflexivity].
    erewrite bind_ret; [|by apply snapshot_loop].
    rewrite (right_id_L ∅ (∪)). rewrite bool_decide_eq_true_2; [done|].
    rewrite Forall_forall in Hall.
    destruct Hclash as [Hc|Hc]; [left|right]; apply elem_of_dom;
      rewrite restrict_lookup_column by done; by apply Hall.
Qed.

Lemma create_historical_record_errors_witness :
  HistoricalRecords.create_historical_record records
    {| inst_model := Plain; inst_dict := ∅ |} "+" empty_store
  = (Raise AttributeError, empty_store)
  ∧ HistoricalRecords.create_historical_record records ticket "+" empty_store
    = (Raise TypeError, empty_store).
Proof.
  split.
  - apply (proj1 (create_historical_record_errors records
                    {| inst_model := Plain; inst_dict := ∅ |} "+" empty_store)).
    left. intros H. discriminate H.
  - apply (proj2 (create_historical_record_errors records ticket "+" empty_store)).
    + reflexivity.
    + repeat first [apply List.Forall_nil | apply List.Forall_cons; [by eexists|]].
    + left. apply list_elem_of_further, list_elem_of_here.
Defined.

(** X3: none of the three signal handlers changes or removes an audit row
    that is in the store, or touches the clock: whatever the arguments and
    however the handler ends, the store it leaves is the old one with rows
    appended. *)
Theorem handlers_only_append self st :
  (∀ instance created kwargs,
     appends st (HistoricalRecords.post_save self instance created kwargs st).2)
  ∧ (∀ instance kwargs,
       appends st (HistoricalRecords.post_delete self instance kwargs st).2)
  ∧ (∀ action instance sender model pk_set,
       appends st (HistoricalRecords.m2m_changed self action instance sender model pk_set st).2).
Proof.
  split; [|split].
  - intros i created kwargs. unfold HistoricalRecords.post_save.
    destruct (negb created && _); [apply appends_refl|].
    destruct (negb _); [apply appends_create_historical_record|apply appends_refl].
  - intros i kwargs. apply appends_create_historical_record.
  - intros action instance sender model pk_set. unfold HistoricalRecords.m2m_changed.
    unfold bind at 1.
    pose proof (matched_items_store sender instance model pk_set st) as Hst.
    destruct (HistoricalRecords.matched_items sender instance model pk_set st)
      as [[items|e|] st']; cbn [snd] in Hst; subst st'; try apply appends_refl.
    apply appends_for_each_return. intros item st1.
    assert (∀ type, appends st1
              ((HistoricalRecords.create_historical_record self item type ;;; ret false) st1).2)
      as Hrec.
    { intros type. unfold bind.
      pose proof (appends_create_historical_record self item type st1) as Happ.
      by destruct (HistoricalRecords.create_historical_record self item type st1)
        as [[[]|e|] st2]. }
    destruct (String.eqb action "post_add").
    { destruct (hasattr item _); [apply appends_refl|apply Hrec]. }
    destruct (String.eqb action "pre_remove"); [apply Hrec|].
    destruct (String.eqb action "pre_clear"); [apply Hrec|apply appends_refl].
Qed.

(** X4: a save that is suppressed (a raw load, or an update of an instance
    that carries the marker) is dropped before anything is read from the
    instance: [post_save] returns and records nothing even for an instance
    that lacks a column or whose model carries no history descriptor. *)
Theorem suppressed_save_reads_nothing self instance created kwargs st :
  truthy (default (VBool false) (kwargs !! "raw")) = true
  ∨ (created = false ∧ hasattr instance skip_history_when_saving = true) →
  HistoricalRecords.post_save self instance created kwargs st = (Ret tt, st).
Proof.
  intros [Hraw|[-> Hmark]]; unfold HistoricalRecords.post_save.
  - rewrite Hraw. by destruct (negb created && _).
  - by rewrite Hmark.
Qed.

Lemma suppressed_save_reads_nothing_witness :
  HistoricalRecords.post_save records
    {| inst_model := Plain; inst_dict := ∅ |} true raw_kwargs empty_store
  = (Ret tt, empty_store).
Proof.
  apply (suppressed_save_reads_nothing records {| inst_model := Plain; inst_dict := ∅ |}
           true raw_kwargs empty_store).
  left. vm_compute; reflexivity.
Defined.

(** ** More on the membership-change handler *)

(** The two names the first loop of [m2m_changed] ends with, from any
    starting pair. *)
Lemma find_field_names_fold (sender_dict : list (string * class_attr)) model instance_type
    (src tgt : option string) :
  let names :=
    fold_left
      (λ '(source_field_name, target_field_name) '(field_name, field_value),
         match field_value with
         | ReverseSingleRelatedObjectDescriptor parent_model =>
             if bool_decide (parent_model = model)
             then (source_field_name, Some field_name)
             else if bool_decide (parent_model = instance_type)
                  then (Some field_name, target_field_name)
                  else (source_field_name, target_field_name)
         | OtherAttr => (source_field_name, target_field_name)
         end)
      sender_dict (src, tgt) in
  (names.1 = None ↔
     src = None
     ∧ (model = instance_type
        ∨ ∀ n, (n, ReverseSingleRelatedObjectDescriptor instance_type) ∉ sender_dict))
  ∧ (names.2 = None ↔
       tgt = None ∧ ∀ n, (n, ReverseSingleRelatedObjectDescriptor model) ∉ sender_dict).
Proof.
  cbn zeta. revert src tgt.
  induction sender_dict as [|[n [p|]] d IH]; intros src tgt; cbn [fold_left].
  - cbn [fst snd]. split; split.
    + intros ->. split; [done|]. right. intros n. apply not_elem_of_nil.
    + by intros [-> _].
    + intros ->. split; [done|]. intros n. apply not_elem_of_nil.
    + by intros [-> _].
  - case_bool_decide as Hp; [|case_bool_decide as Hq].
    + subst p. destruct (IH src (Some n)) as [IH1 IH2]. split.
      * rewrite IH1. split.
        -- intros [-> [->|Hno]]; (split; [done|]); [by left|].
           destruct (decide (model = instance_type)) as [->|Hne]; [by left|].
           right. intros k [[=]|Hk]%elem_of_cons; [congruence|by apply (Hno k)].
        -- intros [-> [->|Hno]]; (split; [done|]); [by left|].
           right. intros k Hk. apply (Hno k). by right.
      * rewrite IH2. split; [by intros [? _]|].
        intros [_ Hno]. destruct (Hno n). by left.
    + subst p. destruct (IH (Some n) tgt) as [IH1 IH2]. split.
      * rewrite IH1. split; [by intros [? _]|].
        intros [_ [Heq|Hno]]; [done|]. destruct (Hno n). by left.
      * rewrite IH2. split.
        -- intros [-> Hno]. split; [done|].
           intros k [[=]|Hk]%elem_of_cons; [congruence|by apply (Hno k)].
        -- intros [-> Hno]. split; [done|]. intros k Hk. apply (Hno k). by right.
    + destruct (IH src tgt) as [IH1 IH2]. split.
      * rewrite IH1. split.
        -- intros [-> [->|Hno]]; (split; [done|]); [by left|].
           right. intros k [[=]|Hk]%elem_of_cons; [congruence|by apply (Hno k)].
        -- intros [-> [->|Hno]]; (split; [done|]); [by left|].
           right. intros k Hk. apply (Hno k). by right.
      * rewrite IH2. split.
        -- intros [-> Hno]. split; [done|].
           intros k [[=]|Hk]%elem_of_cons; [congruence|by apply (Hno k)].
        -- intros [-> Hno]. split; [done|]. intros k Hk. apply (Hno k). by right.
  - destruct (IH src tgt) as [IH1 IH2]. split.
    + rewrite IH1. split.
      * intros [-> [->|Hno]]; (split; [done|]); [by left|].
        right. intros k [[=]|Hk]%elem_of_cons; by apply (Hno k).
      * intros [-> [->|Hno]]; (split; [done|]); [by left|].
        right. intros k Hk. apply (Hno k). by right.
    + rewrite IH2. split.
      * intros [-> Hno]. split; [done|].
        intros k [[=]|Hk]%elem_of_cons; by apply (Hno k).
      * intros [-> Hno]. split; [done|]. intros k Hk. apply (Hno k). by right.
Qed.

(** X5: what the first loop of [m2m_changed] resolves.  The target side
    stays undetermined exactly when the join model has no foreign key to the
    related model; the owner side stays undetermined exactly when the join
    model has no foreign key to the instance's model, or when the related
    model is the instance's model, since a foreign key to it is then taken
    for the target side. *)
Theorem find_field_names_resolves sender_dict model instance_type :
  let names := HistoricalRecords.find_field_names sender_dict model instance_type in
  (names.1 = None ↔
     model = instance_type
     ∨ ∀ n, (n, ReverseSingleRelatedObjectDescriptor instance_type) ∉ sender_dict)
  ∧ (names.2 = None ↔
       ∀ n, (n, ReverseSingleRelatedObjectDescriptor model) ∉ sender_dict).
Proof.
  cbn zeta. unfold HistoricalRecords.find_field_names.
  destruct (find_field_names_fold sender_dict model instance_type None None) as [H1 H2].
  cbn zeta in H1, H2. rewrite H1, H2. split; split; try tauto; by intros [_ ?].
Qed.

(** X6: for a relation of a model to itself every membership event makes
    the handler raise [TypeError], whatever the join model, the action and
    the ids, and no audit row is recorded. *)
Theorem m2m_changed_self_relation_raises self action instance sender pk_set st :
  HistoricalRecords.m2m_changed self action instance sender
    (model_name (inst_model instance)) pk_set st
  = (Raise TypeError, st).
Proof.
  unfold HistoricalRecords.m2m_changed, HistoricalRecords.matched_items.
  unfold HistoricalRecords.find_field_names.
  destruct (find_field_names_fold (through_dict sender) (model_name (inst_model instance))
              (model_name (inst_model instance)) None None) as [H1 _].
  cbn zeta in H1.
  destruct (fold_left _ _ _) as [src tgt]. cbn [fst] in H1.
  destruct src as [src|]; [|done].
  assert (Some src = None) as Hsrc by (apply H1; auto). done.
Qed.

Lemma for_each_return_record self items (pick : Instance → string) (st : Store) :
  for_each_return items
    (λ item, HistoricalRecords.create_historical_record self item (pick item) ;;; ret false) st
  = for_each items (λ item, HistoricalRecords.create_historical_record self item (pick item)) st.
Proof.
  revert st. induction items as [|it items IH]; intros st; [done|].
  cbn [for_each_return for_each]. unfold bind at 1 2. unfold bind at 2.
  destruct (HistoricalRecords.create_historical_record self it (pick it) st)
    as [[[]|e|] st']; cbn; done.
Qed.

Lemma m2m_changed_items self action instance sender model pk_set st items :
  (HistoricalRecords.matched_items sender instance model pk_set st).1 = Ret items →
  HistoricalRecords.m2m_changed self action instance sender model pk_set st
  = for_each_return items
      (λ item,
         if String.eqb action "post_add" then
           if hasattr item skip_history_when_saving then ret true
           else HistoricalRecords.create_historical_record self item "+" ;;; ret false
         else if String.eqb action "pre_remove" then
           HistoricalRecords.create_historical_record self item "-" ;;; ret false
         else if String.eqb action "pre_clear" then
           HistoricalRecords.create_historical_record self item "-" ;;; ret false
         else ret false) st.
Proof.
  intros Hitems. unfold HistoricalRecords.m2m_changed.
  erewrite bind_ret; [done|].
  rewrite (surjective_pairing (HistoricalRecords.matched_items _ _ _ _ _)).
  by rewrite Hitems, matched_items_store.
Qed.

(** X7: a [pre_remove] or [pre_clear] event records one deleted row for
    every matched row of the join model, in order, with the row's column
    values; the marker on a row makes no difference. *)
Theorem m2m_changed_removal_records_all self action instance sender model pk_set st items :
  action = "pre_remove" ∨ action = "pre_clear" →
  (HistoricalRecords.matched_items sender instance model pk_set st).1 = Ret items →
  Forall (λ it, well_formed self it = true) items →
  ∃ new,
    HistoricalRecords.m2m_changed self action instance sender model pk_set st
    = (Ret tt, {| now := now st; rows := rows st ++ new |})
    ∧ length new = length items
    ∧ map row_values new = map columns_of items
    ∧ Forall (λ r, history_type r = "-") new.
Proof.
  intros Haction Hitems Hwf.
  rewrite (m2m_changed_items _ _ _ _ _ _ _ _ Hitems).
  assert (∀ body,
            body = (λ item, HistoricalRecords.create_historical_record self item "-" ;;; ret false) →
            for_each_return items body st
            = for_each items (λ it, HistoricalRecords.create_historical_record self it "-") st)
    as Hloop.
  { intros body ->. apply (for_each_return_record self items (λ _, "-")). }
  rewrite Hloop; [by apply record_all_run|].
  by destruct Haction as [-> | ->].
Qed.

Lemma m2m_changed_removal_records_all_witness :
  ∃ new,
    HistoricalRecords.m2m_changed records "pre_remove" (team 1)
      (memberships [membership 10 1 5; marked (membership 11 1 6); membership 12 2 5])
      "Account" (Some [VInt 5; VInt 6]) empty_store
    = (Ret tt, {| now := now empty_store; rows := rows empty_store ++ new |})
    ∧ length new = 2%nat
    ∧ map row_values new = map columns_of [membership 10 1 5; marked (membership 11 1 6)]
    ∧ Forall (λ r, history_type r = "-") new.
Proof.
  apply (m2m_changed_removal_records_all records "pre_remove" (team 1) _ "Account" _
           empty_store [membership 10 1 5; marked (membership 11 1 6)]).
  - by left.
  - vm_compute; reflexivity.
  - repeat first [apply List.Forall_nil | apply List.Forall_cons; [vm_compute; reflexivity|]].
Defined.

Lemma post_add_unmarked_loop self items (st : Store) :
  Forall (λ it, hasattr it skip_history_when_saving = false) items →
  for_each_return items
    (λ item,
       if hasattr item skip_history_when_saving then ret true
       else HistoricalRecords.create_historical_record self item "+" ;;; ret false) st
  = for_each items (λ it, HistoricalRecords.create_historical_record self it "+") st.
Proof.
  intros Hitems. revert st. induction Hitems as [|it items Hit _ IH]; intros st; [done|].
  cbn [for_each_return for_each]. rewrite Hit.
  unfold bind at 1 2. unfold bind at 2.
  destruct (HistoricalRecords.create_historical_record self it "+" st)
    as [[[]|e|] st']; cbn; done.
Qed.

(** X8: a [post_add] event in which no matched row of the join model carries
    the marker records one created row for every matched row, in order, with
    the row's column values. *)
Theorem m2m_changed_post_add_records_all self instance sender model pk_set st items :
  (HistoricalRecords.matched_items sender instance model pk_set st).1 = Ret items →
  Forall (λ it, hasattr it skip_history_when_saving = false) items →
  Forall (λ it, well_formed self it = true) items →
  ∃ new,
    HistoricalRecords.m2m_changed self "post_add" instance sender model pk_set st
    = (Ret tt, {| now := now st; rows := rows st ++ new |})
    ∧ length new = length items
    ∧ map row_values new = map columns_of items
    ∧ Forall (λ r, history_type r = "+") new.
Proof.
  intros Hitems Hclean Hwf.
  rewrite (m2m_changed_items _ _ _ _ _ _ _ _ Hitems).
  cbn [String.eqb Ascii.eqb Bool.eqb].
  rewrite post_add_unmarked_loop by done. by apply record_all_run.
Qed.

Lemma m2m_changed_post_add_records_all_witness :
  ∃ new,
    HistoricalRecords.m2m_changed records "post_add" (team 1)
      (memberships [membership 10 1 5; membership 11 1 6; membership 12 2 5])
      "Account" (Some [VInt 5; VInt 6]) empty_store
    = (Ret tt, {| now := now empty_store; rows := rows empty_store ++ new |})
    ∧ length new = 2%nat
    ∧ map row_values new = map columns_of [membership 10 1 5; membership 11 1 6]
    ∧ Forall (λ r, history_type r = "+") new.
Proof.
  apply (m2m_changed_post_add_records_all records (team 1) _ "Account" _
           empty_store [membership 10 1 5; membership 11 1 6]).
  - vm_compute; reflexivity.
  - repeat first [apply List.Forall_nil | apply List.Forall_cons; [vm_compute; reflexivity|]].
  - repeat first [apply List.Forall_nil | apply List.Forall_cons; [vm_compute; reflexivity|]].
Defined.

Lemma for_each_return_skip {A} (items : list A) (st : Store) :
  for_each_return items (λ _, ret false) st = (Ret tt, st).
Proof. induction items as [|x items IH]; [done|]. cbn [for_each_return]. exact IH. Qed.

(** X9: an event whose action is none of [post_add], [pre_remove] and
    [pre_clear] records nothing.  The handler still looks up the rows of the
    join model first, so such an event fails all the same when that lookup
    fails. *)
Theorem m2m_changed_other_action_records_nothing
    self action instance sender model pk_set st :
  action ∉ recorded_actions →
  HistoricalRecords.m2m_changed self action instance sender model pk_set st
  = (void (HistoricalRecords.matched_items sender instance model pk_set st).1, st).
Proof.
  intros Haction. unfold HistoricalRecords.m2m_changed, bind at 1.
  pose proof (matched_items_store sender instance model pk_set st) as Hst.
  destruct (HistoricalRecords.matched_items sender instance model pk_set st)
    as [[items|e|] st']; cbn [snd fst void] in *; subst st'; try done.
  unfold recorded_actions in Haction.
  apply not_elem_of_cons in Haction as [H1 Haction].
  apply not_elem_of_cons in Haction as [H2 Haction].
  apply not_elem_of_cons in Haction as [H3 _].
  apply String.eqb_neq in H1, H2, H3. rewrite H1, H2, H3.
  apply for_each_return_skip.
Qed.

Lemma m2m_changed_other_action_records_nothing_witness :
  HistoricalRecords.m2m_changed records "post_remove" (team 1)
    (memberships [membership 10 1 5]) "Account" (Some [VInt 5]) empty_store
  = (Ret tt, empty_store)
  ∧ HistoricalRecords.m2m_changed records "post_remove" (person 1)
      (friendships [friendship 10 1 5]) "Person" (Some [VInt 5]) empty_store
    = (Raise TypeError, empty_store).
Proof.
  split.
  - apply (m2m_changed_other_action_records_nothing records "post_remove" (team 1)
             (memberships [membership 10 1 5]) "Account" (Some [VInt 5]) empty_store).
    vm_compute. intros H. repeat (apply elem_of_cons in H as [H|H]; [discriminate H|]).
    by apply elem_of_nil in H.
  - apply (m2m_changed_other_action_records_nothing records "post_remove" (person 1)
             (friendships [friendship 10 1 5]) "Person" (Some [VInt 5]) empty_store).
    vm_compute. intros H. repeat (apply elem_of_cons in H as [H|H]; [discriminate H|]).
    by apply elem_of_nil in H.
Defined.

(** ** More on saving without a record *)

Lemma inst_delattr_setattr i k v :
  inst_delattr (inst_setattr i k v) k = inst_delattr i k.
Proof. unfold inst_delattr, inst_setattr. cbn. by rewrite delete_insert_eq. Qed.

Lemma hasattr_setattr i k v : hasattr (inst_setattr i k v) k = true.
Proof.
  unfold hasattr, inst_setattr. cbn. apply bool_decide_eq_true.
  rewrite lookup_insert_eq. by eexists.
Qed.

(** X10: an update saved through [save_without_historical_record] leaves no
    audit row, whether the write succeeds or fails and whatever the instance
    and the keyword arguments; the result or the error of the save reaches
    the caller, and the instance is left without the marker. *)
Theorem save_without_historical_record_update hr write_fails kwargs self st :
  HistoricalRecords.save_without_historical_record
    (Model_save hr false write_fails kwargs) (self, st)
  = (if write_fails then Raise DatabaseError else Ret VNone,
     (inst_delattr self skip_history_when_saving, st)).
Proof.
  unfold HistoricalRecords.save_without_historical_record.
  erewrite bind_ret; [|reflexivity].
  unfold bind, try_finally, Model_save.
  destruct write_fails.
  - unfold raise. rewrite hasattr_setattr. by rewrite inst_delattr_setattr.
  - unfold bind, with_self, HistoricalRecords.post_save.
    rewrite hasattr_setattr. cbn [negb andb]. unfold ret.
    rewrite hasattr_setattr. by rewrite inst_delattr_setattr.
Qed.

(** X11: the first save of a new instance through
    [save_without_historical_record] is recorded like any other insert: one
    created row, unless the save is a raw load. *)
Theorem save_without_historical_record_insert hr kwargs self st :
  well_formed hr self = true →
  truthy (default (VBool false) (kwargs !! "raw")) = false →
  ∃ r,
    HistoricalRecords.save_without_historical_record
      (Model_save hr true false kwargs) (self, st)
    = (Ret VNone, (inst_delattr self skip_history_when_saving, insert_row r st))
    ∧ history_type r = "+"
    ∧ row_table r = historical_name (inst_model self).
Proof.
  intros Hwf Hraw.
  exists (audit_row (inst_setattr self skip_history_when_saving (VBool true)) "+" st).
  split; [|done].
  unfold HistoricalRecords.save_without_historical_record.
  erewrite bind_ret; [|reflexivity].
  unfold bind, try_finally, Model_save, bind, with_self.
  rewrite post_save_run by by apply well_formed_setattr.
  rewrite Hraw. cbn [negb andb orb]. unfold ret.
  rewrite hasattr_setattr. by rewrite inst_delattr_setattr.
Qed.

Lemma save_without_historical_record_insert_witness :
  ∃ r,
    HistoricalRecords.save_without_historical_record
      (Model_save records true false ∅) (widget "A", empty_store)
    = (Ret VNone, (inst_delattr (widget "A") skip_history_when_saving,
                   insert_row r empty_store))
    ∧ history_type r = "+"
    ∧ row_table r = historical_name (inst_model (widget "A")).
Proof.
  apply (save_without_historical_record_insert records ∅ (widget "A") empty_store).
  - vm_compute; reflexivity.
  - vm_compute; reflexivity.
Defined.

(** X12: when the enclosed save leaves the instance without the marker, the
    [del] of the [finally] clause fails: [save_without_historical_record]
    raises [AttributeError] in place of whatever the save returned or
    raised. *)
Theorem save_without_historical_record_lost_marker
    (save : St (Instance * Store) value) self st :
  hasattr (save (inst_setattr self skip_history_when_saving (VBool true), st)).2.1
    skip_history_when_saving = false →
  (HistoricalRecords.save_without_historical_record save (self, st)).1
  = Raise AttributeError.
Proof.
  intros Hlost. unfold HistoricalRecords.save_without_historical_record.
  erewrite bind_ret; [|reflexivity].
  unfold bind, try_finally.
  destruct (save _) as [r [self2 st2]]. cbn [fst snd] in Hlost. by rewrite Hlost.
Qed.

Lemma save_without_historical_record_lost_marker_witness :
  (HistoricalRecords.save_without_historical_record save_dropping_marker
     (widget "A", empty_store)).1
  = Raise AttributeError.
Proof.
  apply (save_without_historical_record_lost_marker save_dropping_marker
           (widget "A") empty_store).
  vm_compute; reflexivity.
Defined.

(** ** More on the reconstructor *)





(** ** More on the field transformer *)

Lemma transformed_is_field o : is_field o → is_field (transformed o).
Proof.
  intros (Ha & Hp & Hu). unfold is_field, transformed. cbn [odict].
  destruct (_ || _); repeat split; dict_lookup; eauto.
Qed.

Lemma transformed_unconstrained o :
  truthy (default VNone (odict (transformed o) !! "primary_key"))
  || truthy (default VNone (odict (transformed o) !! "_unique")) = false.
Proof.
  unfold transformed. cbn [odict].
  destruct (truthy (default VNone (odict o !! "primary_key"))
            || truthy (default VNone (odict o !! "_unique"))) eqn:Hc;
    dict_lookup; [done|exact Hc].
Qed.

Lemma transformed_class_idempotent (c : pyclass) :
  let c' := if issubclass c AutoField then IntegerField
            else if issubclass c FileField then TextField else c in
  (if issubclass c' AutoField then IntegerField
   else if issubclass c' FileField then TextField else c') = c'.
Proof.
  cbn zeta. destruct (issubclass c AutoField) eqn:Ha; [done|].
  destruct (issubclass c FileField) eqn:Hf; [done|]. by rewrite Ha, Hf.
Qed.

Lemma transformed_idempotent o : transformed (transformed o) = transformed o.
Proof.
  unfold transformed at 1. rewrite transformed_unconstrained.
  destruct (transformed o) as [c d] eqn:Ht. cbn [ocls odict].
  assert (c = ocls (transformed o)) as Hc by by rewrite Ht.
  assert (d = odict (transformed o)) as Hd by by rewrite Ht.
  f_equal.
  - rewrite Hc. unfold transformed. cbn [ocls]. apply transformed_class_idempotent.
  - assert (d !! "attname" = odict o !! "attname") as Hattname.
    { rewrite Hd. unfold transformed. cbn [odict]. destruct (_ || _); by dict_lookup. }
    assert (d !! "name" = Some (default VNone (odict o !! "attname"))) as Hname.
    { rewrite Hd. unfold transformed. cbn [odict]. destruct (_ || _); by dict_lookup. }
    assert (d !! "auto_now" = Some (VBool false)) as Hnow.
    { rewrite Hd. unfold transformed. cbn [odict]. destruct (_ || _); by dict_lookup. }
    assert (d !! "auto_now_add" = Some (VBool false)) as Hadd.
    { rewrite Hd. unfold transformed. cbn [odict]. destruct (_ || _); by dict_lookup. }
    rewrite Hattname.
    rewrite (insert_id d "name") by done.
    rewrite (insert_id d "auto_now") by done.
    by rewrite (insert_id d "auto_now_add") by done.
Qed.

(** X14: [transform_field] is idempotent: applied to a field it has
    transformed it returns again and changes nothing. *)
Theorem transform_field_idempotent h l o :
  h !! l = Some o →
  is_field o →
  (transform_field (VRef l) ;;; transform_field (VRef l)) h = transform_field (VRef l) h.
Proof.
  intros Hl Hf. rewrite <- (insert_id h l o Hl).
  erewrite bind_ret; [|by apply transform_field_run].
  rewrite !transform_field_run; [|done|by apply transformed_is_field].
  by rewrite transformed_idempotent.
Qed.

Lemma transform_field_idempotent_witness :
  (transform_field (VRef 2) ;;; transform_field (VRef 2)) shop_heap
  = transform_field (VRef 2) shop_heap.
Proof.
  apply (transform_field_idempotent shop_heap 2
           (field_obj CharField "name" "name" false true VNone)).
  - vm_compute; reflexivity.
  - repeat split; eexists; vm_compute; reflexivity.
Defined.

(** X15: [transform_field] changes the one object it is given and no
    attribute of it besides [name], the two timestamp flags and the four
    constraint attributes; [name] becomes the [attname]; a column that is
    neither auto-incrementing nor a file column keeps its class, and a
    column that was neither a primary key nor unique keeps its constraint
    attributes too. *)
Theorem transform_field_keeps_other_attributes h l o :
  h !! l = Some o →
  is_field o →
  ∃ o',
    transform_field (VRef l) h = (Ret tt, <[l := o']> h)
    ∧ (∀ k, k ∉ ["name"; "auto_now"; "auto_now_add";
                 "primary_key"; "_unique"; "db_index"; "serialize"] →
            odict o' !! k = odict o !! k)
    ∧ odict o' !! "name" = odict o !! "attname"
    ∧ (isinstance o AutoField = false → isinstance o FileField = false →
       ocls o' = ocls o)
    ∧ (truthy (default VNone (odict o !! "primary_key")) = false →
       truthy (default VNone (odict o !! "_unique")) = false →
       ∀ k, k ∈ ["primary_key"; "_unique"; "db_index"; "serialize"] →
            odict o' !! k = odict o !! k).
Proof.
  intros Hl Hf. exists (transformed o). split.
  { rewrite <- (insert_id h l o Hl) at 1. by apply transform_field_run. }
  destruct Hf as ([a Ha] & _ & _).
  unfold isinstance, transformed. cbn [ocls odict]. split; [|split; [|split]].
  - intros k Hk.
    assert (k ≠ "name" ∧ k ≠ "auto_now" ∧ k ≠ "auto_now_add" ∧ k ≠ "primary_key"
            ∧ k ≠ "_unique" ∧ k ≠ "db_index" ∧ k ≠ "serialize")
      as (? & ? & ? & ? & ? & ? & ?).
    { repeat split; intros ->; apply Hk; repeat constructor. }
    destruct (_ || _); by rewrite !lookup_insert_ne by done.
  - rewrite Ha. destruct (_ || _); by dict_lookup.
  - by intros -> ->.
  - intros -> ->. cbn [orb]. intros k Hk.
    assert (k ≠ "name" ∧ k ≠ "auto_now" ∧ k ≠ "auto_now_add") as (? & ? & ?).
    { repeat (apply elem_of_cons in Hk as [->|Hk]; [done|]). by apply elem_of_nil in Hk. }
    by rewrite !lookup_insert_ne by done.
Qed.

Lemma transform_field_keeps_other_attributes_witness :
  ∃ o',
    transform_field (VRef 2) shop_heap = (Ret tt, <[2%nat := o']> shop_heap)
    ∧ odict o' !! "max_length" = Some (VInt 50)
    ∧ odict o' !! "name" = Some (VStr "name")
    ∧ ocls o' = CharField.
Proof.
  destruct (transform_field_keeps_other_attributes shop_heap 2
              (field_obj CharField "name" "name" false true VNone))
    as (o' & Hrun & Hkeep & Hname & Hcls & _).
  - vm_compute; reflexivity.
  - repeat split; eexists; vm_compute; reflexivity.
  - exists o'. split; [exact Hrun|]. split; [|split].
    + rewrite Hkeep; [vm_compute; reflexivity|].
      intros H. repeat (apply elem_of_cons in H as [H|H]; [discriminate H|]).
      by apply elem_of_nil in H.
    + rewrite Hname. vm_compute; reflexivity.
    + rewrite Hcls; vm_compute; reflexivity.
Defined.

(** ** The copied columns *)

Lemma issubclass_ForeignKey_plain c :
  issubclass c ForeignKey = true →
  issubclass c AutoField = false ∧ issubclass c FileField = false.
Proof.
  induction c; try (vm_compute; (congruence || done)).
  rewrite !issubclass_custom by done. exact IHc.
Qed.

(** One turn of the loop of [copy_fields], with the objects it leaves. *)
Lemma copy_fields_body_exact h acc l o a :
  column_object h (VRef l) a → h !! l = Some o →
  ∃ l' rel' h',
    copy_fields_body acc (VRef l) h = (Ret (<[a := VRef l']> acc), h')
    ∧ h ⊆ h' ∧ h !! l' = None
    ∧ h' !! l' = Some (copied_column o rel')
    ∧ (∀ r ro, odict o !! "rel" = Some (VRef r) → h !! r = Some ro →
         ∃ r', rel' = VRef r' ∧ h !! r' = None ∧ h' !! r' = Some (copied_rel o ro))
    ∧ ((∀ r, odict o !! "rel" ≠ Some (VRef r)) → odict o !! "rel" = Some rel').
Proof.
  intros (l0 & o0 & rel & [= <-] & Hl & Ha & Hpk & Hu & Hrel & Hrelobj) Hl'.
  rewrite Hl in Hl'. injection Hl' as ->.
  unfold copy_fields_body.
  erewrite bind_ret; [|by apply copy_copy_ok].
  set (l' := fresh (dom h)).
  assert (h !! l' = None) as Hl' by apply fresh_lookup.
  erewrite bind_ret; [|by apply getattr_run].
  assert ((∃ r, rel = VRef r) ∨ (∀ r, rel ≠ VRef r)) as [[r ->]|Hnoref].
  { destruct rel; eauto. }
  - (* the column has a relation object: it is copied too *)
    destruct Hrelobj as [ro Hr].
    assert (r ≠ l') as Hne by (intros ->; congruence).
    erewrite bind_ret; [|apply copy_copy_ok; by rewrite lookup_insert_ne].
    set (r' := fresh (dom (<[l' := o]> h))).
    assert (<[l' := o]> h !! r' = None) as Hr' by apply fresh_lookup.
    assert (l' ≠ r') as Hne'.
    { intros Heq. rewrite <- Heq, lookup_insert_eq in Hr'. done. }
    assert (h !! r' = None) as Hr'0 by by rewrite lookup_insert_ne in Hr'.
    rewrite (insert_insert_ne (K := loc)) by done.
    erewrite bind_ret; [|apply setattr_run].
    erewrite bind_ret; [|apply type_of_run]. cbn [ocls odict].
    unfold copied_column, copied_rel.
    destruct (issubclass (ocls o) ForeignKey) eqn:Hfk; cbn [when].
    + erewrite bind_ret; last first.
      { erewrite bind_ret; [|apply set_class_run].
        erewrite bind_ret; [|apply getattr_run; cbn [odict]; apply lookup_insert_eq].
        rewrite (insert_insert_ne (K := loc)) by done.
        erewrite bind_ret; [|apply setattr_run].
        rewrite (insert_insert_ne (K := loc)) by done.
        erewrite bind_ret; [|apply setattr_run].
        apply setattr_run. }
      cbn [ocls odict].
      rewrite copy_fields_body_end with (a := a).
      * exists l', (VRef r'). eexists. split; [reflexivity|].
        split; [|split; [done|split; [|split]]].
        -- apply insert_subseteq_r; [done|]. by apply insert_subseteq.
        -- by rewrite lookup_insert_eq.
        -- intros r0 ro0 Hrel0 Hr0. rewrite Hrel in Hrel0. injection Hrel0 as <-.
           rewrite Hr in Hr0. injection Hr0 as <-.
           exists r'. split; [done|]. split; [done|].
           rewrite lookup_insert_ne by done. by rewrite lookup_insert_eq.
        -- intros Hno. by destruct (Hno r).
      * repeat split; cbn [odict]; dict_lookup; eauto.
      * cbn [odict]. by dict_lookup.
    + erewrite bind_ret; [|reflexivity].
      rewrite copy_fields_body_end with (a := a).
      * exists l', (VRef r'). eexists. split; [reflexivity|].
        split; [|split; [done|split; [|split]]].
        -- apply insert_subseteq_r; [done|]. by apply insert_subseteq.
        -- by rewrite lookup_insert_eq.
        -- intros r0 ro0 Hrel0 Hr0. rewrite Hrel in Hrel0. injection Hrel0 as <-.
           rewrite Hr in Hr0. injection Hr0 as <-.
           exists r'. split; [done|]. split; [done|].
           rewrite lookup_insert_ne by done. by rewrite lookup_insert_eq.
        -- intros Hno. by destruct (Hno r).
      * repeat split; cbn [odict]; dict_lookup; eauto.
      * cbn [odict]. by dict_lookup.
  - (* no relation object, and not a foreign key *)
    assert (Py.copy_copy rel (<[l' := o]> h) = (Ret rel, <[l' := o]> h)) as Hcopy.
    { destruct rel as [| | | |r|]; try done. by destruct (Hnoref r). }
    assert (issubclass (ocls o) ForeignKey = false) as Hfk.
    { destruct rel as [| | | |r|]; try done. by destruct (Hnoref r). }
    erewrite bind_ret; [|exact Hcopy].
    erewrite bind_ret; [|apply setattr_run].
    erewrite bind_ret; [|apply type_of_run]. cbn [ocls odict].
    unfold copied_column. rewrite Hfk. cbn [when].
    erewrite bind_ret; [|reflexivity].
    rewrite copy_fields_body_end with (a := a).
    + exists l', rel. eexists. split; [reflexivity|].
      split; [|split; [done|split; [|split]]].
      * by apply insert_subseteq.
      * by rewrite lookup_insert_eq.
      * intros r0 ro0 Hrel0 _. rewrite Hrel in Hrel0. injection Hrel0 as ->.
        by destruct (Hnoref r0).
      * done.
    + repeat split; cbn [odict]; dict_lookup; eauto.
    + cbn [odict]. by dict_lookup.
Qed.

Lemma copy_fields_loop_columns fs attns :
  ∀ h acc,
    Forall2 (column_object h) fs attns → NoDup attns →
    ∃ d h', for_fold fs copy_fields_body acc h = (Ret d, h')
            ∧ h ⊆ h'
            ∧ (∀ k, k ∉ attns → d !! k = acc !! k)
            ∧ ∀ i l a o, fs !! i = Some (VRef l) → attns !! i = Some a →
                         h !! l = Some o → column_copied h h' d a o.
Proof.
  revert attns. induction fs as [|field fs IH]; intros attns h acc Hcols Hnd.
  - apply Forall2_nil_inv_l in Hcols as ->. exists acc, h. split; [done|].
    split; [done|]. split; [done|]. intros i l a o Hi. by rewrite lookup_nil in Hi.
  - apply Forall2_cons_inv_l in Hcols as (a & attns' & Hcol & Hcols & ->).
    apply NoDup_cons in Hnd as [Ha Hnd].
    pose proof Hcol as (l & o & rel & -> & Hl & _).
    destruct (copy_fields_body_exact h acc l o a Hcol Hl)
      as (l' & rel' & h1 & Hrun & Hsub & Hfresh & Hcopy & Hrelc & Hplain).
    destruct (IH attns' h1 (<[a := VRef l']> acc)) as (d & h' & Hloop & Hsub' & Hacc & Hrest).
    { eapply Forall2_impl; [exact Hcols|]. intros v b. by apply column_object_weaken. }
    { done. }
    exists d, h'. cbn [for_fold]. erewrite bind_ret; [|exact Hrun].
    split; [exact Hloop|]. split; [by etrans|]. split.
    { intros k Hk. apply not_elem_of_cons in Hk as [Hne Hk].
      rewrite Hacc by done. by rewrite lookup_insert_ne. }
    intros [|i] l0 a0 o0 Hi Hai Hl0; cbn in Hi, Hai.
    + injection Hi as <-. injection Hai as <-. rewrite Hl in Hl0. injection Hl0 as <-.
      exists l', rel'. split; [|split; [done|split; [|split; [|done]]]].
      * rewrite Hacc by done. by rewrite lookup_insert_eq.
      * eapply lookup_weaken; [exact Hcopy|exact Hsub'].
      * intros r ro Hr Hro. destruct (Hrelc r ro Hr Hro) as (r' & -> & Hr' & Hr'').
        exists r'. split; [done|]. split; [done|].
        eapply lookup_weaken; [exact Hr''|exact Hsub'].
    + destruct (Hrest i l0 a0 o0 Hi Hai) as (l2 & rel2 & Hd & Hl2 & Hcopy2 & Hrel2 & Hplain2).
      { eapply lookup_weaken; [exact Hl0|exact Hsub]. }
      exists l2, rel2. split; [done|]. split; [|split; [done|split; [|done]]].
      * eapply lookup_weaken_None; [exact Hl2|exact Hsub].
      * intros r ro Hr Hro. destruct (Hrel2 r ro Hr) as (r' & -> & Hr' & Hr'').
        { eapply lookup_weaken; [exact Hro|exact Hsub]. }
        exists r'. split; [done|]. split; [|done].
        eapply lookup_weaken_None; [exact Hr'|exact Hsub].
Qed.

Lemma copy_fields_columns models m opts h attns :
  models !! m = Some opts →
  Forall2 (column_object h) (fields opts) attns → NoDup attns →
  ∃ d h', HistoricalRecords.copy_fields models (VModel m) h = (Ret d, h')
          ∧ h ⊆ h'
          ∧ ∀ i l a o, fields opts !! i = Some (VRef l) → attns !! i = Some a →
                       h !! l = Some o → column_copied h h' d a o.
Proof.
  intros Hm Hcols Hnd. rewrite copy_fields_unfold.
  erewrite bind_ret; [|by apply meta_of_ok].
  destruct (copy_fields_loop_columns (fields opts) attns h ∅ Hcols Hnd)
    as (d & h' & Hrun & Hsub & _ & Hrest).
  by exists d, h'.
Qed.

(** X16: the copy [copy_fields] makes of a foreign key column.  It is a new
    object of the class [get_custom_fk_class] builds from the column's
    class, stored under the column's attname, which is also its [name]; it
    may hold no value; and its relation is a new object that agrees with
    the relation of the source column except for [related_name], which is
    ["+"], so that no reverse accessor is created.  The relation of the
    source column is as it was. *)
Theorem copy_fields_foreign_key models m opts h attns i l a o r ro :
  models !! m = Some opts →
  Forall2 (column_object h) (fields opts) attns →
  NoDup attns →
  fields opts !! i = Some (VRef l) → attns !! i = Some a → h !! l = Some o →
  issubclass (ocls o) ForeignKey = true →
  odict o !! "rel" = Some (VRef r) → h !! r = Some ro →
  ∃ d h' l' o' r' ro',
    HistoricalRecords.copy_fields models (VModel m) h = (Ret d, h')
    ∧ d !! a = Some (VRef l') ∧ h !! l' = None ∧ h' !! l' = Some o'
    ∧ ocls o' = CustomForeignKey (ocls o)
    ∧ odict o' !! "name" = Some (VStr a)
    ∧ odict o' !! "null" = Some (VBool true)
    ∧ odict o' !! "blank" = Some (VBool true)
    ∧ odict o' !! "rel" = Some (VRef r') ∧ h !! r' = None ∧ h' !! r' = Some ro'
    ∧ ocls ro' = ocls ro
    ∧ odict ro' !! "related_name" = Some (VStr "+")
    ∧ (∀ k, k ≠ "related_name" → odict ro' !! k = odict ro !! k)
    ∧ h' !! r = Some ro.
Proof.
  intros Hm Hcols Hnd Hi Hai Hl Hfk Hrel Hr.
  destruct (copy_fields_columns models m opts h attns Hm Hcols Hnd)
    as (d & h' & Hrun & Hsub & Hall).
  destruct (Hall i l a o Hi Hai Hl) as (l' & rel' & Hd & Hl' & Hcopy & Hrelc & _).
  destruct (Hrelc r ro Hrel Hr) as (r' & -> & Hr' & Hr'').
  assert (odict o !! "attname" = Some (VStr a)) as Ha.
  { destruct (Forall2_lookup_lr _ _ _ _ _ _ Hcols Hi Hai)
      as (l0 & o0 & rel0 & [= <-] & Hl0 & Ha & _).
    rewrite Hl in Hl0. by injection Hl0 as <-. }
  unfold copied_column, copied_rel in *. rewrite Hfk in *.
  destruct (issubclass_ForeignKey_plain _ Hfk) as [Hauto Hfile].
  eexists d, h', l', _, r', _. split; [exact Hrun|]. split; [exact Hd|].
  split; [exact Hl'|]. split; [exact Hcopy|].
  split.
  { unfold transformed. cbn [ocls get_custom_fk_class].
    rewrite !issubclass_custom by done. by rewrite Hauto, Hfile. }
  split.
  { apply transformed_name. cbn [odict]. by dict_lookup. }
  split.
  { unfold transformed. cbn [odict].
    destruct (truthy _ || truthy _); by dict_lookup. }
  split.
  { unfold transformed. cbn [odict].
    destruct (truthy _ || truthy _); by dict_lookup. }
  split.
  { unfold transformed. cbn [odict].
    destruct (truthy _ || truthy _); by dict_lookup. }
  split; [exact Hr'|]. split; [exact Hr''|]. split; [done|].
  cbn [odict]. split; [by dict_lookup|]. split.
  { intros k Hk. by rewrite lookup_insert_ne. }
  eapply lookup_weaken; [exact Hr|exact Hsub].
Qed.

(** X17: the copy [copy_fields] makes of a column that is no foreign key and
    has no relation object is a new object, stored under the column's
    attname, that is the source column as [transform_field] leaves it; the
    source column is as it was. *)
Theorem copy_fields_plain_column models m opts h attns i l a o :
  models !! m = Some opts →
  Forall2 (column_object h) (fields opts) attns →
  NoDup attns →
  fields opts !! i = Some (VRef l) → attns !! i = Some a → h !! l = Some o →
  (∀ r, odict o !! "rel" ≠ Some (VRef r)) →
  ∃ d h' l',
    HistoricalRecords.copy_fields models (VModel m) h = (Ret d, h')
    ∧ d !! a = Some (VRef l') ∧ h !! l' = None
    ∧ h' !! l' = Some (transformed o)
    ∧ h' !! l = Some o.
Proof.
  intros Hm Hcols Hnd Hi Hai Hl Hplain.
  destruct (copy_fields_columns models m opts h attns Hm Hcols Hnd)
    as (d & h' & Hrun & Hsub & Hall).
  destruct (Hall i l a o Hi Hai Hl) as (l' & rel' & Hd & Hl' & Hcopy & _ & Hrel).
  specialize (Hrel Hplain).
  assert (issubclass (ocls o) ForeignKey = false) as Hfk.
  { destruct (Forall2_lookup_lr _ _ _ _ _ _ Hcols Hi Hai)
      as (l0 & o0 & rel0 & [= <-] & Hl0 & _ & _ & _ & Hrel0 & Hobj).
    rewrite Hl in Hl0. injection Hl0 as <-.
    destruct rel0 as [| | | |r|]; try done. by destruct (Hplain r). }
  exists d, h', l'. split; [exact Hrun|]. split; [exact Hd|]. split; [exact Hl'|].
  split; [|eapply lookup_weaken; [exact Hl|exact Hsub]].
  rewrite Hcopy. unfold copied_column. rewrite Hfk.
  rewrite insert_id by done. by destruct o.
Qed.

Lemma copy_fields_foreign_key_witness :
  ∃ d h' l' o' r' ro',
    HistoricalRecords.copy_fields shop_models (VModel "Widget") shop_heap = (Ret d, h')
    ∧ d !! "owner_id" = Some (VRef l') ∧ h' !! l' = Some o'
    ∧ ocls o' = CustomForeignKey ForeignKey
    ∧ odict o' !! "null" = Some (VBool true)
    ∧ odict o' !! "rel" = Some (VRef r') ∧ h' !! r' = Some ro'
    ∧ odict ro' !! "related_name" = Some (VStr "+")
    ∧ odict ro' !! "to" = Some (VModel "Account")
    ∧ h' !! 4%nat = Some (rel_obj ManyToOneRel "Account").
Proof.
  destruct (copy_fields_foreign_key shop_models "Widget" (options "Widget" 1 [1; 2; 3; 5])
              shop_heap ["id"; "name"; "owner_id"; "photo"] 2 3 "owner_id"
              (field_obj ForeignKey "owner" "owner_id" false false (VRef 4)) 4
              (rel_obj ManyToOneRel "Account"))
    as (d & h' & l' & o' & r' & ro' & Hrun & Hd & _ & Hl' & Hcls & _ & Hnull & _
        & Hrel & _ & Hr' & _ & Hname & Hother & Hsrc).
  - vm_compute; reflexivity.
  - exact widget_columns.
  - exact widget_attnames_NoDup.
  - reflexivity.
  - reflexivity.
  - vm_compute; reflexivity.
  - vm_compute; reflexivity.
  - vm_compute; reflexivity.
  - vm_compute; reflexivity.
  - exists d, h', l', o', r', ro'. repeat split; try assumption.
    rewrite Hother by done. vm_compute; reflexivity.
Defined.

Lemma copy_fields_plain_column_witness :
  ∃ d h' l',
    HistoricalRecords.copy_fields shop_models (VModel "Widget") shop_heap = (Ret d, h')
    ∧ d !! "name" = Some (VRef l') ∧ shop_heap !! l' = None
    ∧ h' !! l' = Some (transformed (field_obj CharField "name" "name" false true VNone))
    ∧ h' !! 2%nat = Some (field_obj CharField "name" "name" false true VNone).
Proof.
  apply (copy_fields_plain_column shop_models "Widget" (options "Widget" 1 [1; 2; 3; 5])
           shop_heap ["id"; "name"; "owner_id"; "photo"] 1 2 "name"
           (field_obj CharField "name" "name" false true VNone)).
  - vm_compute; reflexivity.
  - exact widget_columns.
  - exact widget_attnames_NoDup.
  - reflexivity.
  - reflexivity.
  - vm_compute; reflexivity.
  - intros r H. vm_compute in H. discriminate H.
Defined.

(** X18: on a model whose columns are prepared field objects [copy_fields]
    returns; the keys of the dictionary it returns are the attnames of the
    columns, not their names, and its values are objects that did not exist
    before, in a heap that still holds every object it held. *)
Theorem copy_fields_returns_attnames models m opts h attns :
  models !! m = Some opts →
  Forall2 (column_object h) (fields opts) attns →
  ∃ d h',
    HistoricalRecords.copy_fields models (VModel m) h = (Ret d, h')
    ∧ h ⊆ h'
    ∧ (∀ k, is_Some (d !! k) ↔ k ∈ attns)
    ∧ ∀ k v, d !! k = Some v → ∃ l, v = VRef l ∧ h !! l = None.
Proof.
  intros Hm Hcols.
  destruct (copy_fields_keys models m opts h attns Hm Hcols) as (d & h' & Hcopy & Hkeys).
  destruct (keeps_copy_fields h models (VModel m) h) as [Hsub Hnew]; [done..|].
  rewrite Hcopy in Hsub, Hnew. exists d, h'. split; [done|]. split; [done|].
  split; [done|]. by apply Hnew.
Qed.

Lemma copy_fields_returns_attnames_witness :
  ∃ d h',
    HistoricalRecords.copy_fields shop_models (VModel "Widget") shop_heap = (Ret d, h')
    ∧ shop_heap ⊆ h'
    ∧ (∀ k, is_Some (d !! k) ↔ k ∈ ["id"; "name"; "owner_id"; "photo"])
    ∧ ∀ k v, d !! k = Some v → ∃ l, v = VRef l ∧ shop_heap !! l = None.
Proof.
  apply (copy_fields_returns_attnames shop_models "Widget" (options "Widget" 1 [1; 2; 3; 5])
           shop_heap ["id"; "name"; "owner_id"; "photo"]).
  - vm_compute; reflexivity.
  - exact widget_columns.
Defined.

(** X19: [get_attname] of the copy of a foreign key column answers the
    attname of the source column: the historical model stores the key under
    the name the source model stores it under. *)
Theorem copied_foreign_key_attname models m opts h attns i l a o r ro :
  models !! m = Some opts →
  Forall2 (column_object h) (fields opts) attns →
  NoDup attns →
  fields opts !! i = Some (VRef l) → attns !! i = Some a → h !! l = Some o →
  issubclass (ocls o) ForeignKey = true →
  odict o !! "rel" = Some (VRef r) → h !! r = Some ro →
  ∃ d h' l' o',
    HistoricalRecords.copy_fields models (VModel m) h = (Ret d, h')
    ∧ d !! a = Some (VRef l') ∧ h' !! l' = Some o'
    ∧ isinstance o' ForeignKeyMixin = true
    ∧ ForeignKeyMixin.get_attname (VRef l') h' = (Ret (VStr a), h').
Proof.
  intros Hm Hcols Hnd Hi Hai Hl Hfk Hrel Hr.
  destruct (copy_fields_columns models m opts h attns Hm Hcols Hnd)
    as (d & h' & Hrun & Hsub & Hall).
  destruct (Hall i l a o Hi Hai Hl) as (l' & rel' & Hd & Hl' & Hcopy & _ & _).
  assert (odict o !! "attname" = Some (VStr a)) as Ha.
  { destruct (Forall2_lookup_lr _ _ _ _ _ _ Hcols Hi Hai)
      as (l0 & o0 & rel0 & [= <-] & Hl0 & Ha & _).
    rewrite Hl in Hl0. by injection Hl0 as <-. }
  unfold copied_column in Hcopy. rewrite Hfk in Hcopy.
  destruct (issubclass_ForeignKey_plain _ Hfk) as [Hauto Hfile].
  eexists d, h', l', _. split; [exact Hrun|]. split; [exact Hd|]. split; [exact Hcopy|].
  split.
  - unfold isinstance, transformed. cbn [ocls get_custom_fk_class].
    rewrite !issubclass_custom by done. rewrite Hauto, Hfile.
    unfold issubclass. apply bool_decide_eq_true. cbn [mro].
    apply list_elem_of_further, list_elem_of_here.
  - unfold ForeignKeyMixin.get_attname. eapply getattr_ok; [exact Hcopy|].
    apply transformed_name. cbn [odict]. by dict_lookup.
Qed.

Lemma copied_foreign_key_attname_witness :
  ∃ d h' l' o',
    HistoricalRecords.copy_fields shop_models (VModel "Widget") shop_heap = (Ret d, h')
    ∧ d !! "owner_id" = Some (VRef l') ∧ h' !! l' = Some o'
    ∧ isinstance o' ForeignKeyMixin = true
    ∧ ForeignKeyMixin.get_attname (VRef l') h' = (Ret (VStr "owner_id"), h').
Proof.
  apply (copied_foreign_key_attname shop_models "Widget" (options "Widget" 1 [1; 2; 3; 5])
           shop_heap ["id"; "name"; "owner_id"; "photo"] 2 3 "owner_id"
           (field_obj ForeignKey "owner" "owner_id" false false (VRef 4)) 4
           (rel_obj ManyToOneRel "Account")).
  - vm_compute; reflexivity.
  - exact widget_columns.
  - exact widget_attnames_NoDup.
  - reflexivity.
  - reflexivity.
  - vm_compute; reflexivity.
  - vm_compute; reflexivity.
  - vm_compute; reflexivity.
  - vm_compute; reflexivity.
Defined.

(** ** More on the foreign key downgrader *)

Lemma update_dict_skip p kvs d k :
  p k = false → update_dict p kvs d !! k = d !! k.
Proof.
  intros Hp. revert d. induction kvs as [|[k' v'] kvs IH]; intros d; [done|].
  rewrite update_dict_cons, IH. destruct (p k') eqn:Hp'; [|done].
  rewrite lookup_insert_ne; [done|]. intros ->. congruence.
Qed.

Lemma update_dict_spec p (src d : gmap string value) k :
  update_dict p (map_to_list src) d !! k
  = match src !! k with
    | Some v => if p k then Some v else d !! k
    | None => d !! k
    end.
Proof.
  destruct (src !! k) as [v|] eqn:Hk.
  - destruct (p k) eqn:Hp; [by apply update_dict_items|by apply update_dict_skip].
  - apply update_dict_other. intros Hin.
    apply list_elem_of_fmap in Hin as ([k' v'] & -> & Hin).
    apply elem_of_map_to_list in Hin. cbn in Hk. congruence.
Qed.

(** [get_field] on a foreign key to a model whose primary key is not a
    one-to-one column. *)
Lemma get_field_plain_run models fuel l o other cls h m opts p po :
  h !! l = Some o → points_to h (VRef l) m →
  models !! m = Some opts → pk opts = VRef p → h !! p = Some po →
  issubclass (ocls po) OneToOneField = false →
  ForeignKeyMixin.get_field models (S fuel) (VRef l) other cls h
  = (Ret (VRef l), <[l := downgraded o po]> (<[fresh (dom h) := po]> h)).
Proof.
  intros Hl Hself Hm Hpk Hp Hc. cbn [ForeignKeyMixin.get_field].
  erewrite bind_ret; [|by apply rel_to_ok].
  erewrite bind_ret; [|by apply meta_of_ok].
  rewrite Hpk. erewrite bind_ret; [|by apply copy_copy_ok].
  set (lt := fresh (dom h)).
  assert (h !! lt = None) as Hlt by apply fresh_lookup.
  assert (l ≠ lt) as Hne by (intros ->; congruence).
  erewrite bind_ret; [|apply type_of_run]. rewrite Hc.
  assert (<[lt := po]> h !! l = Some o) as Hl' by by rewrite lookup_insert_ne.
  unfold downgraded. destruct (issubclass (ocls po) AutoField).
  - erewrite bind_ret; [|by eapply set_class_ok]. done.
  - erewrite bind_ret; [|by eapply set_class_ok].
    erewrite bind_ret; last first.
    { eapply deref_ok. rewrite lookup_insert_ne by done. apply lookup_insert_eq. }
    erewrite bind_ret; last first.
    { eapply setattrs_run with (p := copied_from_pk). apply lookup_insert_eq. }
    cbn [ocls odict]. by rewrite insert_insert_eq.
Qed.

(** X20: on a foreign key to a model whose primary key is not a one-to-one
    column, [get_field] returns the foreign key itself, changed in place,
    and leaves every other object as it was.  For an auto-incrementing
    primary key the column becomes an [IntegerField] and keeps all its
    attributes; otherwise it takes the class of the primary key and those
    attributes of it whose names neither start with an underscore nor are
    on the list of excluded attributes, and keeps its own for the rest. *)
Theorem get_field_plain_pk models fuel l o other cls h m opts p po :
  h !! l = Some o → points_to h (VRef l) m →
  models !! m = Some opts → pk opts = VRef p → h !! p = Some po →
  issubclass (ocls po) OneToOneField = false →
  ∃ o' h',
    ForeignKeyMixin.get_field models (S fuel) (VRef l) other cls h = (Ret (VRef l), h')
    ∧ h' !! l = Some o'
    ∧ (∀ l' x, l' ≠ l → h !! l' = Some x → h' !! l' = Some x)
    ∧ (issubclass (ocls po) AutoField = true → o' = Obj IntegerField (odict o))
    ∧ (issubclass (ocls po) AutoField = false →
       ocls o' = ocls po
       ∧ ∀ k, odict o' !! k
              = match odict po !! k with
                | Some v => if copied_from_pk k then Some v else odict o !! k
                | None => odict o !! k
                end).
Proof.
  intros Hl Hself Hm Hpk Hp Hc.
  eexists _, _. split; [by eapply get_field_plain_run|].
  split; [apply lookup_insert_eq|]. split.
  { intros l' x Hne Hx. rewrite lookup_insert_ne by done.
    rewrite lookup_insert_ne; [done|]. intros <-. by rewrite fresh_lookup in Hx. }
  unfold downgraded. split; intros ->; [done|].
  cbn [ocls odict]. split; [done|]. intros k. apply update_dict_spec.
Qed.

Lemma atlas_country_points_to : points_to atlas_heap (VRef 3) "Country".
Proof. eexists 3, _, 5, _. repeat split; vm_compute; reflexivity. Qed.

Lemma get_field_plain_pk_witness :
  ∃ o' h',
    ForeignKeyMixin.get_field atlas_models 1 (VRef 3) VNone VNone atlas_heap
    = (Ret (VRef 3), h')
    ∧ h' !! 3%nat = Some o'
    ∧ ocls o' = CharField
    ∧ odict o' !! "max_length" = Some (VInt 50)
    ∧ odict o' !! "primary_key" = Some (VBool true)
    ∧ odict o' !! "attname" = Some (VStr "country_id").
Proof.
  destruct (get_field_plain_pk atlas_models 0 3
              (field_obj (CustomForeignKey ForeignKey) "country_id" "country_id" false false
                 (VRef 5))
              VNone VNone atlas_heap "Country" (options "Country" 0 [0]) 0
              (field_obj CharField "code" "code" true false VNone))
    as (o' & h' & Hrun & Hl & _ & _ & Hscalar).
  - vm_compute; reflexivity.
  - exact atlas_country_points_to.
  - vm_compute; reflexivity.
  - reflexivity.
  - vm_compute; reflexivity.
  - vm_compute; reflexivity.
  - destruct Hscalar as [Hcls Hdict]; [vm_compute; reflexivity|].
    exists o', h'. split; [exact Hrun|]. split; [exact Hl|]. split; [exact Hcls|].
    rewrite !Hdict. repeat split; vm_compute; reflexivity.
Defined.

Lemma downgraded_is_field o po : is_field o → is_field (downgraded o po).
Proof.
  intros ([a Ha] & [pk Hpk] & [u Hu]). unfold downgraded, is_field.
  destruct (issubclass (ocls po) AutoField); cbn [odict]; [eauto|].
  rewrite !update_dict_spec.
  repeat split.
  - destruct (odict po !! "attname"); [|eauto].
    assert (copied_from_pk "attname" = false) as -> by (vm_compute; reflexivity). eauto.
  - destruct (odict po !! "primary_key"); [|eauto].
    destruct (copied_from_pk "primary_key"); eauto.
  - destruct (odict po !! "_unique"); [|eauto].
    assert (copied_from_pk "_unique" = false) as -> by (vm_compute; reflexivity). eauto.
Qed.

Lemma downgraded_attname o po :
  odict (downgraded o po) !! "attname" = odict o !! "attname".
Proof.
  unfold downgraded. destruct (issubclass (ocls po) AutoField); cbn [odict]; [done|].
  rewrite update_dict_spec. destruct (odict po !! "attname"); [|done].
  by assert (copied_from_pk "attname" = false) as -> by (vm_compute; reflexivity).
Qed.

Lemma downgraded_class o po :
  ocls (transformed (downgraded o po)) = ocls (transformed po).
Proof.
  unfold transformed, downgraded. cbn [ocls].
  destruct (issubclass (ocls po) AutoField) eqn:Hauto; cbn [ocls];
    [vm_compute; reflexivity|by rewrite Hauto].
Qed.

(** [do_related_class] on a foreign key to a model whose primary key is not
    a one-to-one column. *)
Lemma do_related_class_plain_run models fuel l o other cls h m opts p po :
  h !! l = Some o → is_field o → points_to h (VRef l) m →
  models !! m = Some opts → pk opts = VRef p → h !! p = Some po →
  issubclass (ocls po) OneToOneField = false →
  ForeignKeyMixin.do_related_class models (S fuel) (VRef l) other cls h
  = (Ret tt,
     <[l := Obj (ocls (transformed (downgraded o po)))
                (<["rel" := VNone]> (odict (transformed (downgraded o po))))]>
       (<[fresh (dom h) := po]> h)).
Proof.
  intros Hl Hf Hself Hm Hpk Hp Hc. unfold ForeignKeyMixin.do_related_class.
  erewrite bind_ret; [|by eapply get_field_plain_run].
  erewrite bind_ret; [|apply transform_field_run; by apply downgraded_is_field].
  by rewrite setattr_run.
Qed.

(** X21: [do_related_class] on a foreign key to a model whose primary key is
    not a one-to-one column returns and leaves, in place of the foreign key,
    a plain column without a relation: its class is the one the primary key
    itself gets in a historical model, its [name] is its [attname], and a
    primary-key flag taken over from the primary key is cleared again, the
    column being indexed instead. *)
Theorem do_related_class_plain_pk models fuel l o other cls h m opts p po :
  h !! l = Some o → is_field o → points_to h (VRef l) m →
  models !! m = Some opts → pk opts = VRef p → h !! p = Some po →
  issubclass (ocls po) OneToOneField = false →
  ∃ o' h',
    ForeignKeyMixin.do_related_class models (S fuel) (VRef l) other cls h = (Ret tt, h')
    ∧ h' !! l = Some o'
    ∧ (∀ l' x, l' ≠ l → h !! l' = Some x → h' !! l' = Some x)
    ∧ odict o' !! "rel" = Some VNone
    ∧ odict o' !! "name" = odict o !! "attname"
    ∧ ocls o' = ocls (transformed po)
    ∧ (issubclass (ocls po) AutoField = false →
       truthy (default VNone (odict po !! "primary_key")) = true →
       odict o' !! "primary_key" = Some (VBool false)
       ∧ odict o' !! "_unique" = Some (VBool false)
       ∧ odict o' !! "db_index" = Some (VBool true)).
Proof.
  intros Hl Hf Hself Hm Hpk Hp Hc.
  rewrite (do_related_class_plain_run _ _ _ _ _ _ _ _ _ _ _ Hl Hf Hself Hm Hpk Hp Hc).
  eexists _, _. split; [reflexivity|]. split; [apply lookup_insert_eq|]. split.
  { intros l' x Hne Hx. rewrite lookup_insert_ne by done.
    rewrite lookup_insert_ne; [done|]. intros <-. by rewrite fresh_lookup in Hx. }
  cbn [ocls odict]. split; [by dict_lookup|]. split.
  { rewrite lookup_insert_ne by done.
    destruct Hf as ([a Ha] & _ & _). rewrite Ha. apply transformed_name.
    by rewrite downgraded_attname. }
  split; [apply downgraded_class|].
  intros Hauto Htrue. unfold downgraded. rewrite Hauto.
  unfold transformed. cbn [ocls odict].
  assert (update_dict copied_from_pk (map_to_list (odict po)) (odict o) !! "primary_key"
          = odict po !! "primary_key") as ->.
  { rewrite update_dict_spec. destruct (odict po !! "primary_key") eqn:E; [|done].
    by assert (copied_from_pk "primary_key" = true) as -> by (vm_compute; reflexivity). }
  rewrite Htrue. cbn [orb]. repeat split; by dict_lookup.
Qed.

Lemma do_related_class_plain_pk_witness :
  ∃ o' h',
    ForeignKeyMixin.do_related_class atlas_models 1 (VRef 3) VNone VNone atlas_heap
    = (Ret tt, h')
    ∧ h' !! 3%nat = Some o'
    ∧ odict o' !! "rel" = Some VNone
    ∧ ocls o' = CharField
    ∧ odict o' !! "primary_key" = Some (VBool false)
    ∧ odict o' !! "db_index" = Some (VBool true).
Proof.
  destruct (do_related_class_plain_pk atlas_models 0 3
              (field_obj (CustomForeignKey ForeignKey) "country_id" "country_id" false false
                 (VRef 5))
              VNone VNone atlas_heap "Country" (options "Country" 0 [0]) 0
              (field_obj CharField "code" "code" true false VNone))
    as (o' & h' & Hrun & Hl & _ & Hrel & _ & Hcls & Hkey).
  - vm_compute; reflexivity.
  - repeat split; eexists; vm_compute; reflexivity.
  - exact atlas_country_points_to.
  - vm_compute; reflexivity.
  - reflexivity.
  - vm_compute; reflexivity.
  - vm_compute; reflexivity.
  - destruct Hkey as (Hpk & _ & Hindex); [vm_compute; reflexivity..|].
    exists o', h'. split; [exact Hrun|]. split; [exact Hl|]. split; [exact Hrel|].
    split; [rewrite Hcls; vm_compute; reflexivity|]. split; [exact Hpk|exact Hindex].
Defined.




(** ** From a foreign key to a plain column *)

(** X23: the two steps together.  The copy [copy_fields] makes of a foreign
    key column to a model whose primary key is not a one-to-one column is
    turned by [do_related_class] into a column without a relation, of the
    class the primary key itself gets in a historical model, that is still
    stored under the attname of the source column and may hold no value; and
    through both steps every object of the source models is left as it
    was. *)
Theorem copied_foreign_key_downgrades
    models m opts h attns i l a o r ro m2 opts2 p po fuel other cls :
  models !! m = Some opts →
  Forall2 (column_object h) (fields opts) attns →
  NoDup attns →
  fields opts !! i = Some (VRef l) → attns !! i = Some a → h !! l = Some o →
  issubclass (ocls o) ForeignKey = true →
  odict o !! "rel" = Some (VRef r) → h !! r = Some ro →
  odict ro !! "to" = Some (VModel m2) →
  models !! m2 = Some opts2 → pk opts2 = VRef p → h !! p = Some po →
  issubclass (ocls po) OneToOneField = false →
  ∃ d h1 l' h2 o',
    HistoricalRecords.copy_fields models (VModel m) h = (Ret d, h1)
    ∧ d !! a = Some (VRef l')
    ∧ ForeignKeyMixin.do_related_class models (S fuel) (VRef l') other cls h1 = (Ret tt, h2)
    ∧ h2 !! l' = Some o'
    ∧ ocls o' = ocls (transformed po)
    ∧ odict o' !! "rel" = Some VNone
    ∧ odict o' !! "name" = Some (VStr a)
    ∧ odict o' !! "null" = Some (VBool true)
    ∧ h ⊆ h2.
Proof.
  intros Hm Hcols Hnd Hi Hai Hl Hfk Hrel Hr Hto Hm2 Hpk Hp Hc.
  destruct (copy_fields_columns models m opts h attns Hm Hcols Hnd)
    as (d & h1 & Hrun & Hsub & Hall).
  destruct (Hall i l a o Hi Hai Hl) as (l' & rel' & Hd & Hl' & Hcopy & Hrelc & _).
  destruct (Hrelc r ro Hrel Hr) as (r' & -> & Hr' & Hr'').
  assert (odict o !! "attname" = Some (VStr a)
          ∧ is_Some (odict o !! "primary_key") ∧ is_Some (odict o !! "_unique"))
    as (Ha & Hprim & Huniq).
  { destruct (Forall2_lookup_lr _ _ _ _ _ _ Hcols Hi Hai)
      as (l0 & o0 & rel0 & [= <-] & Hl0 & Ha & Hprim & Huniq & _).
    rewrite Hl in Hl0. by injection Hl0 as <-. }
  unfold copied_column, copied_rel in *. rewrite Hfk in *.
  set (c := Obj (get_custom_fk_class (ocls o))
                (<["blank" := VBool true]>
                   (<["null" := VBool true]> (<["rel" := VRef r']> (odict o))))) in *.
  assert (is_field c) as Hfield.
  { unfold is_field, c. cbn [odict]. repeat split; by dict_lookup. }
  assert (is_field (transformed c)) as Hfield' by by apply transformed_is_field.
  assert (points_to h1 (VRef l') m2) as Hpoints.
  { eexists l', _, r', _. split; [done|]. split; [exact Hcopy|]. split; [|split; [exact Hr''|]].
    - unfold transformed, c. cbn [odict]. destruct (truthy _ || truthy _); by dict_lookup.
    - cbn [odict]. by rewrite lookup_insert_ne. }
  assert (h1 !! p = Some po) as Hp1 by (eapply lookup_weaken; [exact Hp|exact Hsub]).
  exists d, h1, l'. eexists _, _. split; [exact Hrun|]. split; [exact Hd|].
  split; [by eapply do_related_class_plain_run|].
  split; [apply lookup_insert_eq|]. cbn [ocls odict].
  split; [apply downgraded_class|]. split; [by dict_lookup|]. split.
  { rewrite lookup_insert_ne by done. apply transformed_name.
    rewrite downgraded_attname. unfold transformed, c. cbn [odict].
    destruct (truthy _ || truthy _); by dict_lookup. }
  split.
  { rewrite lookup_insert_ne by done.
    assert (odict (downgraded (transformed c) po) !! "null" = Some (VBool true)) as Hnull.
    { unfold downgraded.
      assert (odict (transformed c) !! "null" = Some (VBool true)) as Hn.
      { unfold transformed, c. cbn [odict]. destruct (truthy _ || truthy _); by dict_lookup. }
      destruct (issubclass (ocls po) AutoField); cbn [odict]; [done|].
      rewrite update_dict_spec. destruct (odict po !! "null"); [|done].
      by assert (copied_from_pk "null" = false) as -> by (vm_compute; reflexivity). }
    unfold transformed at 1. cbn [odict].
    destruct (truthy _ || truthy _); by dict_lookup. }
  apply map_subseteq_spec. intros l0 x Hx.
  assert (h1 !! l0 = Some x) as Hx1 by (eapply lookup_weaken; [exact Hx|exact Hsub]).
  rewrite lookup_insert_ne by (intros <-; congruence).
  rewrite lookup_insert_ne; [done|]. intros <-. by rewrite fresh_lookup in Hx1.
Qed.

Lemma copied_foreign_key_downgrades_witness :
  ∃ d h1 l' h2 o',
    HistoricalRecords.copy_fields shop_models (VModel "Widget") shop_heap = (Ret d, h1)
    ∧ d !! "owner_id" = Some (VRef l')
    ∧ ForeignKeyMixin.do_related_class shop_models 1 (VRef l') VNone VNone h1 = (Ret tt, h2)
    ∧ h2 !! l' = Some o'
    ∧ ocls o' = IntegerField
    ∧ odict o' !! "rel" = Some VNone
    ∧ odict o' !! "name" = Some (VStr "owner_id")
    ∧ odict o' !! "null" = Some (VBool true)
    ∧ shop_heap ⊆ h2.
Proof.
  apply (copied_foreign_key_downgrades shop_models "Widget" (options "Widget" 1 [1; 2; 3; 5])
           shop_heap ["id"; "name"; "owner_id"; "photo"] 2 3 "owner_id"
           (field_obj ForeignKey "owner" "owner_id" false false (VRef 4)) 4
           (rel_obj ManyToOneRel "Account") "Account" (options "Account" 0 [0]) 0
           (field_obj AutoField "id" "id" true false VNone) 0 VNone VNone).
  - vm_compute; reflexivity.
  - exact widget_columns.
  - exact widget_attnames_NoDup.
  - reflexivity.
  - reflexivity.
  - vm_compute; reflexivity.
  - vm_compute; reflexivity.
  - vm_compute; reflexivity.
  - vm_compute; reflexivity.
  - vm_compute; reflexivity.
  - vm_compute; reflexivity.
  - reflexivity.
  - vm_compute; reflexivity.
  - vm_compute; reflexivity.
Defined.

(** X24: where the one-to-one primary keys of the models referred to form a
    cycle, [get_field] does not return, and neither does
    [do_related_class]: whatever the depth allowed to the recursion through
    [get_one_to_one_field], it is used up. *)
Theorem one_to_one_cycle_never_returns models M fuel self other cls h m :
  one_to_one_cycle models h M → m ∈ M → points_to h self m →
  (ForeignKeyMixin.get_field models fuel self other cls h).1 = OutOfFuel
  ∧ (ForeignKeyMixin.do_related_class models fuel self other cls h).1 = OutOfFuel.
Proof.
  intros Hcyc Hm Hself.
  pose proof (get_field_endless models M fuel self other cls h m Hcyc Hm Hself) as Hrun.
  split; [exact Hrun|]. unfold ForeignKeyMixin.do_related_class, bind.
  destruct (ForeignKeyMixin.get_field models fuel self other cls h) as [r h'].
  cbn [fst] in Hrun. by rewrite Hrun.
Qed.

Lemma one_to_one_cycle_never_returns_witness :
  (ForeignKeyMixin.get_field yin_yang_models 1000 (VRef 4) VNone VNone yin_yang_heap).1
  = OutOfFuel
  ∧ (ForeignKeyMixin.do_related_class yin_yang_models 1000 (VRef 4) VNone VNone
       yin_yang_heap).1
    = OutOfFuel.
Proof.
  apply (one_to_one_cycle_never_returns yin_yang_models ["Yin"; "Yang"] 1000 (VRef 4)
           VNone VNone yin_yang_heap "Yin" yin_yang_cycle).
  - apply list_elem_of_here.
  - exact yin_points_to.
Defined.

(** ** The historical model class *)

Lemma get_extra_fields_None settings self model fields k :
  k ∉ extra_names → get_extra_fields settings self model fields !! k = None.
Proof.
  intros Hk. unfold get_extra_fields. apply not_elem_of_list_to_map_1. exact Hk.
Qed.

Lemma class_attrs_column settings self model opts module fields k :
  k ∉ reserved_names →
  class_attrs settings self model opts module fields !! k = Column <$> (fields !! k).
Proof.
  intros Hk. unfold reserved_names in Hk.
  apply not_elem_of_cons in Hk as [Hmod Hk].
  apply not_elem_of_cons in Hk as [Hmeta Hk].
  unfold class_attrs. rewrite lookup_insert_ne by done.
  rewrite lookup_union, get_extra_fields_None by done.
  rewrite (left_id_L None (∪)), lookup_union, lookup_fmap.
  rewrite lookup_singleton_ne by done. by destruct (fields !! k).
Qed.

Lemma class_attrs_extra settings self model opts module fields k :
  k ∈ extra_names →
  class_attrs settings self model opts module fields !! k
  = get_extra_fields settings self model fields !! k
  ∧ is_Some (get_extra_fields settings self model fields !! k).
Proof.
  intros Hk.
  assert (is_Some (get_extra_fields settings self model fields !! k)) as [x Hx].
  { unfold extra_names in Hk.
    repeat (apply elem_of_cons in Hk as [->|Hk]; [by eexists|]).
    by apply elem_of_nil in Hk. }
  split; [|by eexists]. unfold class_attrs.
  rewrite lookup_insert_ne.
  - rewrite Hx. by apply lookup_union_Some_l.
  - intros <-. unfold extra_names in Hk.
    repeat (apply elem_of_cons in Hk as [Hk|Hk]; [discriminate Hk|]).
    by apply elem_of_nil in Hk.
Qed.

Lemma class_attrs_module settings self model opts module fields :
  fields !! "__module__" = None →
  class_attrs settings self model opts module fields !! "__module__"
  = Some (ModuleName module).
Proof.
  intros Hno. unfold class_attrs. rewrite lookup_insert_ne by done.
  rewrite lookup_union, get_extra_fields_None.
  - rewrite (left_id_L None (∪)), lookup_union, lookup_fmap, Hno.
    by rewrite lookup_singleton_eq.
  - unfold extra_names. intros Hk.
    repeat (apply elem_of_cons in Hk as [Hk|Hk]; [discriminate Hk|]).
    by apply elem_of_nil in Hk.
Qed.

Lemma class_attrs_keys settings self model opts module fields k :
  is_Some (class_attrs settings self model opts module fields !! k) →
  is_Some (fields !! k) ∨ k ∈ reserved_names.
Proof.
  intros Hk. destruct (decide (k ∈ reserved_names)) as [|Hno]; [by right|left].
  rewrite class_attrs_column in Hk by done. by apply fmap_is_Some in Hk.
Qed.

Section CreateHistoryModel.
Context (models : registry) (module_of : string → string)
  (get_app : string → outcome string) (settings : gmap string value)
  (version_info_0 : Z)
  (Model_type : string → gmap string member → St (heap * registered) HistoryModel).

(** [create_history_model] on a model whose columns can be copied, once the
    module of the class is decided: what is left is the class statement. *)
Lemma create_history_model_run self m opts h reg d h' module :
  models !! m = Some opts →
  (module_of m ≠ HistoricalRecords.module self ∧ module = HistoricalRecords.module self)
  ∨ (module_of m = HistoricalRecords.module self
     ∧ app_label opts +:+ ".models" = HistoricalRecords.module self
     ∧ module = HistoricalRecords.module self)
  ∨ (module_of m = HistoricalRecords.module self
     ∧ app_label opts +:+ ".models" ≠ HistoricalRecords.module self
     ∧ get_app (app_label opts) = Ret module) →
  HistoricalRecords.copy_fields models (VModel m) h = (Ret d, h') →
  create_history_model models module_of get_app settings version_info_0 Model_type
    self (VModel m) (h, reg)
  = class_statement Model_type version_info_0 ("Historical" +:+ object_name opts)
      (class_attrs settings self (VModel m) opts module d)
      (h', <[db_table opts := VModel m]> reg).
Proof.
  intros Hm Hmod Hcopy. unfold create_history_model.
  erewrite bind_ret; last first.
  { unfold on_heap, meta_of. rewrite Hm. reflexivity. }
  erewrite bind_ret; [|reflexivity].
  erewrite bind_ret with
    (a := {[ "__module__" := ModuleName module ]} : gmap string member); last first.
  { destruct Hmod as [[Hne ->]|[(Heq & Happ & ->)|(Heq & Happ & Hget)]].
    - apply String.eqb_neq in Hne. rewrite Hne. cbn [negb].
      unfold ret. by rewrite insert_singleton_eq.
    - apply String.eqb_eq in Heq, Happ. rewrite Heq, Happ. reflexivity.
    - apply String.eqb_eq in Heq. apply String.eqb_neq in Happ.
      rewrite Heq, Happ. cbn [negb]. unfold bind, lift. rewrite Hget.
      unfold ret. by rewrite insert_singleton_eq. }
  erewrite bind_ret; last first.
  { unfold on_heap. rewrite Hcopy. reflexivity. }
  erewrite bind_ret; [|reflexivity]. reflexivity.
Qed.

Lemma module_decided self m opts :
  (module_of m = HistoricalRecords.module self →
   app_label opts +:+ ".models" ≠ HistoricalRecords.module self →
   ∃ name, get_app (app_label opts) = Ret name) →
  ∃ module,
    (module_of m ≠ HistoricalRecords.module self ∧ module = HistoricalRecords.module self)
    ∨ (module_of m = HistoricalRecords.module self
       ∧ app_label opts +:+ ".models" = HistoricalRecords.module self
       ∧ module = HistoricalRecords.module self)
    ∨ (module_of m = HistoricalRecords.module self
       ∧ app_label opts +:+ ".models" ≠ HistoricalRecords.module self
       ∧ get_app (app_label opts) = Ret module).
Proof.
  intros Happ.
  destruct (decide (module_of m = HistoricalRecords.module self)) as [Heq|Hne];
    [|eexists; left; eauto].
  destruct (decide (app_label opts +:+ ".models" = HistoricalRecords.module self))
    as [Heq'|Hne']; [eexists; right; left; eauto|].
  destruct (Happ Heq Hne') as [name Hname]. exists name. right; right. eauto.
Qed.

(** X25: the class statement [create_history_model] issues for a model whose
    columns can be copied.  The class is named after the model; its
    attributes are the four audit columns, the descriptor and the property
    that rebuild the source instance, [revert_url], [__str__] and [Meta],
    and every column of the model under its attname, as a new field
    object, except one that goes by a name the class needs for itself, which
    is lost; there is no other attribute.  The property goes through exactly
    the attnames of the model.  From there on [create_history_model] does
    what the class statement does, and returns the class it yields,
    decorated. *)
Theorem create_history_model_members self m opts h reg attns :
  models !! m = Some opts →
  Forall2 (column_object h) (fields opts) attns →
  (module_of m = HistoricalRecords.module self →
   app_label opts +:+ ".models" ≠ HistoricalRecords.module self →
   ∃ name, get_app (app_label opts) = Ret name) →
  ∃ d h' attrs,
    create_history_model models module_of get_app settings version_info_0 Model_type
      self (VModel m) (h, reg)
    = class_statement Model_type version_info_0 ("Historical" +:+ object_name opts) attrs
        (h', <[db_table opts := VModel m]> reg)
    ∧ h ⊆ h'
    ∧ attrs !! "history_id" = Some (NewAutoField true)
    ∧ attrs !! "history_date" = Some (NewDateTimeField true)
    ∧ attrs !! "history_user"
      = Some (NewForeignKey (default (VStr "auth.User") (settings !! "AUTH_USER_MODEL")) true)
    ∧ attrs !! "history_type"
      = Some (NewCharField 1 [("+", "Created"); ("~", "Changed"); ("-", "Deleted")])
    ∧ attrs !! "history_object" = Some (HistoricalObjectDescriptor_init (VModel m))
    ∧ attrs !! "instance" = Some (property_get_instance (VModel m) d)
    ∧ (∀ k, is_Some (d !! k) ↔ k ∈ attns)
    ∧ attrs !! "revert_url" = Some (revert_url (VModel m))
    ∧ attrs !! "__str__" = Some str_as_of
    ∧ attrs !! "Meta" = Some (MetaClass (HistoricalRecords.get_meta_options self opts))
    ∧ (∀ k, k ∈ attns → k ∉ reserved_names →
         ∃ l, attrs !! k = Some (Column (VRef l)) ∧ h !! l = None)
    ∧ (∀ k, is_Some (attrs !! k) → k ∈ attns ∨ k ∈ reserved_names).
Proof.
  intros Hm Hcols Happ.
  destruct (copy_fields_keys models m opts h attns Hm Hcols) as (d & h' & Hcopy & Hkeys).
  destruct (keeps_copy_fields h models (VModel m) h) as [Hsub Hnew]; [done..|].
  rewrite Hcopy in Hsub, Hnew. cbn [fst snd] in Hsub, Hnew. specialize (Hnew d eq_refl).
  destruct (module_decided self m opts Happ) as [module Hmod].
  eexists d, h', _. split; [by eapply create_history_model_run|].
  split; [exact Hsub|].
  repeat split.
  - by rewrite (proj1 (class_attrs_extra _ _ _ _ _ _ "history_id" ltac:(repeat constructor))).
  - by rewrite (proj1 (class_attrs_extra _ _ _ _ _ _ "history_date" ltac:(repeat constructor))).
  - by rewrite (proj1 (class_attrs_extra _ _ _ _ _ _ "history_user" ltac:(repeat constructor))).
  - by rewrite (proj1 (class_attrs_extra _ _ _ _ _ _ "history_type" ltac:(repeat constructor))).
  - by rewrite (proj1 (class_attrs_extra _ _ _ _ _ _ "history_object" ltac:(repeat constructor))).
  - by rewrite (proj1 (class_attrs_extra _ _ _ _ _ _ "instance" ltac:(repeat constructor))).
  - apply Hkeys.
  - apply Hkeys.
  - by rewrite (proj1 (class_attrs_extra _ _ _ _ _ _ "revert_url" ltac:(repeat constructor))).
  - by rewrite (proj1 (class_attrs_extra _ _ _ _ _ _ "__str__" ltac:(repeat constructor))).
  - unfold class_attrs. by rewrite lookup_insert_eq.
  - intros k Hk Hres. rewrite class_attrs_column by done.
    apply Hkeys in Hk as [v Hv]. rewrite Hv.
    destruct (Hnew k v Hv) as (l & -> & Hl). by exists l.
  - intros k Hk. apply class_attrs_keys in Hk as [Hk|Hk]; [|by right].
    left. by apply Hkeys.
Qed.

(** X26: the module the class statement names.  It is the module the
    [HistoricalRecords] object was declared in, except when that is the
    model's own module and is not the [models] module of the model's
    application as its label names it: then it is the module the framework
    finds for the application. *)
Theorem create_history_model_module self m opts h reg attns :
  models !! m = Some opts →
  Forall2 (column_object h) (fields opts) attns →
  "__module__" ∉ attns →
  (module_of m ≠ HistoricalRecords.module self
   ∨ app_label opts +:+ ".models" = HistoricalRecords.module self →
   ∃ h' attrs,
     create_history_model models module_of get_app settings version_info_0 Model_type
       self (VModel m) (h, reg)
     = class_statement Model_type version_info_0 ("Historical" +:+ object_name opts) attrs
         (h', <[db_table opts := VModel m]> reg)
     ∧ attrs !! "__module__" = Some (ModuleName (HistoricalRecords.module self)))
  ∧ (∀ name,
       module_of m = HistoricalRecords.module self →
       app_label opts +:+ ".models" ≠ HistoricalRecords.module self →
       get_app (app_label opts) = Ret name →
       ∃ h' attrs,
         create_history_model models module_of get_app settings version_info_0 Model_type
           self (VModel m) (h, reg)
         = class_statement Model_type version_info_0 ("Historical" +:+ object_name opts) attrs
             (h', <[db_table opts := VModel m]> reg)
         ∧ attrs !! "__module__" = Some (ModuleName name)).
Proof.
  intros Hm Hcols Hno.
  destruct (copy_fields_keys models m opts h attns Hm Hcols) as (d & h' & Hcopy & Hkeys).
  assert (d !! "__module__" = None) as Hd.
  { apply eq_None_not_Some. by rewrite Hkeys. }
  split.
  - intros Hcase. eexists h', _. split.
    + eapply create_history_model_run; [exact Hm| |exact Hcopy].
      destruct (decide (module_of m = HistoricalRecords.module self)) as [Heq|Hne];
        [|left; eauto].
      destruct Hcase as [?|Heq']; [done|]. right; left. eauto.
    + by apply class_attrs_module.
  - intros name Heq Hne Hget. eexists h', _. split.
    + eapply create_history_model_run; [exact Hm| |exact Hcopy].
      right; right. eauto.
    + by apply class_attrs_module.
Qed.

(** X27: [create_history_model] enters the model in [registered_models],
    under the name of its table, once the columns are copied and before the
    class statement is run.  When it fails before that point,
    [registered_models] is as it was and so is every object that was on the
    heap.  Past that point its outcome and the state it leaves are those of
    the class statement, which is run with the model registered: when the
    class statement fails, the model stays registered. *)
Theorem create_history_model_registers self model h reg :
  let run := create_history_model models module_of get_app settings version_info_0
               Model_type self model (h, reg) in
  (∃ h', h ⊆ h' ∧ run.2 = (h', reg) ∧ ∀ cls, run.1 ≠ Ret cls)
  ∨ (∃ m opts attrs h',
       model = VModel m ∧ models !! m = Some opts ∧ h ⊆ h'
       ∧ run = class_statement Model_type version_info_0
                 ("Historical" +:+ object_name opts) attrs
                 (h', <[db_table opts := model]> reg)).
Proof.
  cbn zeta.
  remember (create_history_model models module_of get_app settings version_info_0
              Model_type self model (h, reg)) as run eqn:Hrun.
  assert (∀ (r : outcome HistoryModel) h',
            h ⊆ h' → (∀ cls, r ≠ Ret cls) → run = (r, (h', reg)) →
            ∃ h', h ⊆ h' ∧ run.2 = (h', reg) ∧ ∀ cls, run.1 ≠ Ret cls) as Hfail.
  { intros r h' Hsub Hr ->. by exists h'. }
  unfold create_history_model in Hrun.
  unfold bind at 1 in Hrun. unfold on_heap at 1, meta_of in Hrun.
  destruct model as [| | | | |m];
    try (left; eapply (Hfail _ h); [done| |exact Hrun]; done).
  destruct (models !! m) as [opts|] eqn:Hm;
    [|left; eapply (Hfail _ h); [done| |exact Hrun]; done].
  unfold ret at 1 in Hrun. unfold bind at 1 in Hrun. unfold ret at 1 in Hrun.
  unfold bind at 1 in Hrun.
  set (decide_module := if negb (String.eqb (module_of m) (HistoricalRecords.module self))
                        then _ else _) in Hrun.
  assert (decide_module (h, reg) = ((decide_module (h, reg)).1, (h, reg))) as Hdec.
  { subst decide_module. destruct (negb (String.eqb (module_of m) _)); [done|].
    destruct (negb (String.eqb _ _)); [|done].
    unfold bind, lift. by destruct (get_app (app_label opts)). }
  rewrite Hdec in Hrun. destruct (decide_module (h, reg)).1 as [attrs|e|];
    [|left; eapply (Hfail _ h); [done| |exact Hrun]; done..].
  unfold bind at 1 in Hrun. unfold on_heap in Hrun.
  destruct (keeps_copy_fields h models (VModel m) h) as [Hsub _]; [done..|].
  destruct (HistoricalRecords.copy_fields models (VModel m) h) as [[d|e|] h'];
    cbn [fst snd] in Hsub;
    [|left; eapply (Hfail _ h'); [done| |exact Hrun]; done..].
  right. eexists m, opts, _, h'. split; [done|]. split; [done|]. split; [done|].
  exact Hrun.
Qed.

(** X28: when the class has to be put in the module of the model's
    application and the framework does not find the application,
    [create_history_model] fails with the framework's error before it has
    copied a column: the heap and [registered_models] are as they were. *)
Theorem create_history_model_unknown_app self m opts h reg e :
  models !! m = Some opts →
  module_of m = HistoricalRecords.module self →
  app_label opts +:+ ".models" ≠ HistoricalRecords.module self →
  get_app (app_label opts) = Raise e →
  create_history_model models module_of get_app settings version_info_0 Model_type
    self (VModel m) (h, reg)
  = (Raise e, (h, reg)).
Proof.
  intros Hm Heq Hne Hget. unfold create_history_model.
  erewrite bind_ret; last first.
  { unfold on_heap, meta_of. rewrite Hm. reflexivity. }
  erewrite bind_ret; [|reflexivity].
  apply String.eqb_eq in Heq. apply String.eqb_neq in Hne.
  rewrite Heq, Hne. cbn [negb].
  erewrite bind_raise; [done|]. unfold bind, lift. by rewrite Hget.
Qed.

End CreateHistoryModel.

Lemma create_history_model_members_witness :
  ∃ attrs st l,
    create_history_model shop_models shop_module_of shop_apps ∅ 3 plain_type
      records (VModel "Widget") (shop_heap, ∅)
    = (Ret {| hm_name := "HistoricalWidget"; hm_attrs := attrs |}, st)
    ∧ attrs !! "history_id" = Some (NewAutoField true)
    ∧ attrs !! "history_user" = Some (NewForeignKey (VStr "auth.User") true)
    ∧ attrs !! "owner_id" = Some (Column (VRef l))
    ∧ shop_heap !! l = None.
Proof.
  destruct (create_history_model_members shop_models shop_module_of shop_apps ∅ 3
              plain_type records "Widget" (options "Widget" 1 [1; 2; 3; 5]) shop_heap ∅
              ["id"; "name"; "owner_id"; "photo"])
    as (d & h' & attrs & Hrun & _ & Hid & _ & Huser & _ & _ & _ & _ & _ & _ & _ & Hcol & _).
  - vm_compute; reflexivity.
  - exact widget_columns.
  - intros _ Hne. exfalso. apply Hne. vm_compute; reflexivity.
  - destruct (Hcol "owner_id") as (l & Hl & Hnew).
    + apply list_elem_of_further, list_elem_of_further, list_elem_of_here.
    + intros H. unfold reserved_names, extra_names in H.
      repeat (apply elem_of_cons in H as [H|H]; [discriminate H|]).
      by apply elem_of_nil in H.
    + exists attrs. eexists _, l. split; [rewrite Hrun; reflexivity|].
      repeat split; assumption.
Defined.

Lemma create_history_model_module_witness :
  ∃ attrs st,
    create_history_model shop_models acme_module_of shop_apps ∅ 3 plain_type
      acme_records (VModel "Widget") (shop_heap, ∅)
    = (Ret {| hm_name := "HistoricalWidget"; hm_attrs := attrs |}, st)
    ∧ attrs !! "__module__" = Some (ModuleName "acme.shop.models").
Proof.
  destruct (proj2 (create_history_model_module shop_models acme_module_of shop_apps ∅ 3
                     plain_type acme_records "Widget" (options "Widget" 1 [1; 2; 3; 5])
                     shop_heap ∅ ["id"; "name"; "owner_id"; "photo"]
                     ltac:(vm_compute; reflexivity) widget_columns
                     ltac:(intros H;
                           repeat (apply elem_of_cons in H as [H|H]; [discriminate H|]);
                           by apply elem_of_nil in H))
              "acme.shop.models")
    as (h' & attrs & Hrun & Hmodule).
  - reflexivity.
  - intros H. discriminate H.
  - reflexivity.
  - exists attrs. eexists. split; [rewrite Hrun; reflexivity|exact Hmodule].
Defined.

Lemma create_history_model_unknown_app_witness :
  create_history_model shop_models acme_module_of no_apps ∅ 3 plain_type
    acme_records (VModel "Widget") (shop_heap, ∅)
  = (Raise LookupError, (shop_heap, ∅)).
Proof.
  apply (create_history_model_unknown_app shop_models acme_module_of no_apps ∅ 3
           plain_type acme_records "Widget" (options "Widget" 1 [1; 2; 3; 5]) shop_heap ∅
           LookupError).
  - vm_compute; reflexivity.
  - reflexivity.
  - intros H. discriminate H.
  - reflexivity.
Defined.

(** A class statement that fails leaves the model registered, with no
    historical model to go with it. *)
Example failed_class_statement_leaves_model_registered :
  (create_history_model shop_models shop_module_of shop_apps ∅ 3 failing_type
     records (VModel "Widget") (shop_heap, ∅)).1
  = Raise LookupError
  ∧ (create_history_model shop_models shop_module_of shop_apps ∅ 3 failing_type
       records (VModel "Widget") (shop_heap, ∅)).2.2
    = {[ "shop_Widget" := VModel "Widget" ]}.
Proof. split; vm_compute; reflexivity. Qed.

(** ** Scenarios *)

(** A widget is inserted, renamed and deleted: three rows, in that order. *)
Example widget_history :
  ∃ st,
    for_each
      [ {| ev_mutation := Insert; ev_instance := widget "A"; ev_kwargs := ∅ |};
        {| ev_mutation := Update; ev_instance := widget "B"; ev_kwargs := ∅ |};
        {| ev_mutation := Delete; ev_instance := widget "B"; ev_kwargs := ∅ |} ]
      (deliver records) empty_store = (Ret tt, st)
    ∧ map history_type (rows st) = ["+"; "~"; "-"]
    ∧ map history_id (rows st) = [1; 2; 3]%Z
    ∧ map (λ r, row_values r !! "name") (rows st)
      = [Some (VStr "A"); Some (VStr "B"); Some (VStr "B")]
    ∧ map (λ r, row_values r !! "owner_id") (rows st)
      = [Some (VInt 7); Some (VInt 7); Some (VInt 7)].
Proof. eexists. split; [vm_compute; reflexivity|]. repeat split. Qed.

(** An update through [save_without_historical_record] leaves no row and no
    marker, also when the write fails; the next plain save is recorded. *)
Example suppressed_update :
  HistoricalRecords.save_without_historical_record
    (Model_save records false false ∅) (widget "B", empty_store)
  = (Ret VNone, (widget "B", empty_store)).
Proof. vm_compute. reflexivity. Qed.

Example suppressed_update_fails :
  HistoricalRecords.save_without_historical_record
    (Model_save records false true ∅) (widget "B", empty_store)
  = (Raise DatabaseError, (widget "B", empty_store)).
Proof. vm_compute. reflexivity. Qed.

Example update_after_suppressed_update :
  ∃ r,
    (HistoricalRecords.save_without_historical_record
       (Model_save records false false ∅) ;;;
     Model_save records false false ∅) (widget "B", empty_store)
    = (Ret VNone, (widget "B", insert_row r empty_store))
    ∧ history_type r = "~".
Proof. eexists. split; [vm_compute; reflexivity|]. reflexivity. Qed.

(** The first save of a new instance through [save_without_historical_record]
    is recorded. *)
Example suppressed_insert_is_recorded :
  ∃ r,
    HistoricalRecords.save_without_historical_record
      (Model_save records true false ∅) (widget "A", empty_store)
    = (Ret VNone, (widget "A", insert_row r empty_store))
    ∧ history_type r = "+".
Proof. eexists. split; [vm_compute; reflexivity|]. reflexivity. Qed.

(** Accounts 5 and 6 are added to team 1: one created row for each on the
    history of the join model.  Clearing the team later gives one deleted
    row for each member it has then. *)
Example members_added :
  ∃ st,
    HistoricalRecords.m2m_changed records "post_add" (team 1)
      (memberships [membership 10 1 5; membership 11 1 6; membership 12 2 5])
      "Account" (Some [VInt 5; VInt 6]) empty_store = (Ret tt, st)
    ∧ map history_type (rows st) = ["+"; "+"]
    ∧ map row_table (rows st) = ["HistoricalMembership"; "HistoricalMembership"]
    ∧ map (λ r, row_values r !! "account_id") (rows st) = [Some (VInt 5); Some (VInt 6)].
Proof. eexists. split; [vm_compute; reflexivity|]. repeat split. Qed.

Example members_cleared :
  ∃ st,
    HistoricalRecords.m2m_changed records "pre_clear" (team 1)
      (memberships [membership 11 1 6; membership 12 2 5])
      "Account" None empty_store = (Ret tt, st)
    ∧ map history_type (rows st) = ["-"]
    ∧ map (λ r, row_values r !! "account_id") (rows st) = [Some (VInt 6)].
Proof. eexists. split; [vm_compute; reflexivity|]. repeat split. Qed.

(** Two rows recorded in the same instant and one later: the later row
    comes first, and the two of the same instant are told apart by their
    sequence ids. *)
Example rows_of_one_instant :
  ∃ st r1 r2 r3,
    (deliver records {| ev_mutation := Insert; ev_instance := widget "A"; ev_kwargs := ∅ |} ;;;
     deliver records {| ev_mutation := Update; ev_instance := widget "B"; ev_kwargs := ∅ |} ;;;
     tick 5 ;;;
     deliver records {| ev_mutation := Delete; ev_instance := widget "B"; ev_kwargs := ∅ |})
      empty_store = (Ret tt, st)
    ∧ rows st = [r1; r2; r3]
    ∧ history_date r1 = history_date r2
    ∧ order_by (ordering (HistoricalRecords.get_meta_options records (options "Widget" 1 [])))
        r2 r1 = Lt
    ∧ order_by (ordering (HistoricalRecords.get_meta_options records (options "Widget" 1 [])))
        r3 r2 = Lt.
Proof. do 4 eexists. split; [vm_compute; reflexivity|]. repeat split. Qed.
